(** * zsh_ai_completion: the completion service, its composer and its
      lifecycle manager

    A shallow embedding of [scripts/zsh_ai_server.py], of the client
    [scripts/zsh_ai_complete.py] and of the history parser
    [scripts/parse_zsh_history.py], with the properties the specification
    states about them and further properties of the code.

    Conventions of the embedding:
    - a Python [str] is the list of its Unicode code points ([pystr]);
      UTF-8 encodes them all but the surrogates, which a JSON body can
      bring in and which the server meets when it encodes its reply
      ([Handler.encodable]);
    - the Python objects that [json.loads] can produce are the type [value];
    - a Python expression that may raise is a term of type [result A], and
      [x ← m; k] runs [k] unless [m] raises;
    - the inference engine, the JSON parser, the HTTP base class, the
      operating system and the clock are not part of the repository: they
      appear as parameters, or as the outcome they give;
    - line numbers are those of [scripts/zsh_ai_server.py], unless the
      client or the parser is named. *)

From Stdlib Require Import ZArith NArith List String Ascii Bool Lia Floats.
From stdpp Require Import gmap.
Import ListNotations.

Set Warnings "-register-all,-clear-no-such-hyp".
Local Open Scope Z_scope.

(** ** Python strings *)

Module PyStr.

Definition pystr := list N.

(** UTF-8 decoding, used only to write string literals of the source. *)
Fixpoint utf8_decode (bs : list N) : pystr :=
  match bs with
  | [] => []
  | b0 :: r0 =>
    if (b0 <? 128)%N then b0 :: utf8_decode r0
    else match r0 with
    | [] => []
    | b1 :: r1 =>
      if (b0 <? 224)%N
      then ((b0 - 192) * 64 + (b1 - 128))%N :: utf8_decode r1
      else match r1 with
      | [] => []
      | b2 :: r2 =>
        if (b0 <? 240)%N
        then ((b0 - 224) * 4096 + (b1 - 128) * 64 + (b2 - 128))%N
               :: utf8_decode r2
        else match r2 with
        | [] => []
        | b3 :: r3 =>
          ((b0 - 240) * 262144 + (b1 - 128) * 4096
           + (b2 - 128) * 64 + (b3 - 128))%N :: utf8_decode r3
        end
      end
    end
  end.

Definition py (s : string) : pystr :=
  utf8_decode (List.map N_of_ascii (list_ascii_of_string s)).
Arguments py : simpl never.

Fixpoint str_eqb (a b : pystr) : bool :=
  match a, b with
  | [], [] => true
  | c :: a', d :: b' => (c =? d)%N && str_eqb a' b'
  | _, _ => false
  end.

(** [s.startswith(p)] *)
Fixpoint startswith (s p : pystr) {struct p} : bool :=
  match p with
  | [] => true
  | c :: p' =>
    match s with
    | [] => false
    | d :: s' => (c =? d)%N && startswith s' p'
    end
  end.

(** [sub in s] *)
Fixpoint contains (s sub : pystr) : bool :=
  startswith s sub
  || match s with
     | [] => false
     | _ :: s' => contains s' sub
     end.

(** The characters [str.strip()] removes: those for which [str.isspace]
    holds. *)
Definition isspace (c : N) : bool :=
  ((9 <=? c) && (c <=? 13) || (28 <=? c) && (c <=? 32)
   || (c =? 133) || (c =? 160) || (c =? 5760)
   || (8192 <=? c) && (c <=? 8202) || (c =? 8232) || (c =? 8233)
   || (c =? 8239) || (c =? 8287) || (c =? 12288))%N.

Fixpoint lstrip (s : pystr) : pystr :=
  match s with
  | [] => []
  | c :: s' => if isspace c then lstrip s' else s
  end.

Definition rstrip (s : pystr) : pystr := rev (lstrip (rev s)).

(** [s.strip()] *)
Definition strip (s : pystr) : pystr := rstrip (lstrip s).

(** [s[:n]] for [n >= 0] *)
Definition slice_to (n : nat) (s : pystr) : pystr := firstn n s.

(** [l[-n:]] for [n > 0] *)
Definition last_n {A} (n : nat) (l : list A) : list A :=
  skipn (length l - n)%nat l.

End PyStr.
Export PyStr.

(** ** Python values and exceptions *)

Inductive value :=
| VNone
| VBool (b : bool)
| VInt (z : Z)
| VFloat (f : float)
| VStr (s : pystr)
| VList (l : list value)
| VDict (d : list (pystr * value)).

(** The subclasses of [Exception] that the modelled code can meet. *)
Inductive exn :=
| KeyError | TypeError | AttributeError | IndexError | ValueError
| UnicodeError | RuntimeError | OSError | OverflowError | MemoryError.

Inductive result (A : Type) :=
| Ok (a : A)
| Raise (e : exn).
Arguments Ok {A} a.
Arguments Raise {A} e.

(** Sequencing, written [x ← m; k]: an exception of [m] skips [k]. *)
#[global] Instance result_bind : MBind result := λ A B k m,
  match m with
  | Ok a => k a
  | Raise e => Raise e
  end.

#[global] Instance result_ret : MRet result := λ A a, Ok a.

Definition raises {A} (m : result A) : Prop := exists e, m = Raise e.

Module Py.

(** [bool(v)] *)
Definition truthy (v : value) : bool :=
  match v with
  | VNone => false
  | VBool b => b
  | VInt z => negb (z =? 0)
  | VFloat f => negb (PrimFloat.eqb f 0%float)
  | VStr s => negb (str_eqb s [])
  | VList l => match l with [] => false | _ => true end
  | VDict d => match d with [] => false | _ => true end
  end.

(** [v == "s"] for a string literal *)
Definition eq_str (v : value) (s : pystr) : bool :=
  match v with
  | VStr t => str_eqb t s
  | _ => false
  end.

Fixpoint lookup (d : list (pystr * value)) (k : pystr) : option value :=
  match d with
  | [] => None
  | (k', v) :: d' => if str_eqb k' k then Some v else lookup d' k
  end.

(** [v["k"]] *)
Definition getitem (v : value) (k : pystr) : result value :=
  match v with
  | VDict d => match lookup d k with Some x => Ok x | None => Raise KeyError end
  | _ => Raise TypeError
  end.

(** [v[i]] for a non-negative integer literal *)
Definition getindex (v : value) (i : nat) : result value :=
  match v with
  | VList l => match nth_error l i with Some x => Ok x | None => Raise IndexError end
  | VStr s => match nth_error s i with Some c => Ok (VStr [c]) | None => Raise IndexError end
  | VDict _ => Raise KeyError
  | _ => Raise TypeError
  end.

(** [v.get("k", dflt)] *)
Definition get (v : value) (k : pystr) (dflt : value) : result value :=
  match v with
  | VDict d => Ok (match lookup d k with Some x => x | None => dflt end)
  | _ => Raise AttributeError
  end.

(** [v.strip()] *)
Definition strip_method (v : value) : result pystr :=
  match v with
  | VStr s => Ok (strip s)
  | _ => Raise AttributeError
  end.

(** [for x in v] *)
Definition iter (v : value) : result (list value) :=
  match v with
  | VList l => Ok l
  | VStr s => Ok (List.map (fun c => VStr [c]) s)
  | VDict d => Ok (List.map (fun kv => VStr (fst kv)) d)
  | _ => Raise TypeError
  end.

(** [a or b] *)
Definition or_else (a b : value) : value := if truthy a then a else b.

End Py.

(** ** The runtime the code relies on

    [str()] of a value that is not a string and [repr] of a list of strings
    only reach the prompt; they are Python built-ins and stay abstract. *)
Class PyRuntime := {
  str_of : value -> pystr;
  repr_list : list pystr -> pystr
}.

(** [f"{v}"] *)
Definition format `{PyRuntime} (v : value) : pystr :=
  match v with
  | VStr s => s
  | _ => str_of v
  end.

(** The inference engine, [llama_cpp.Llama]: [tokenize p] stands for
    [llm.tokenize(p.encode("utf-8"))] and [create_completion p] for the call
    of line 109 with its fixed sampling parameters. Either may raise. *)
Record Llama := {
  tokenize : pystr -> result (list Z);
  create_completion : pystr -> result value
}.

(** ** [scripts/zsh_ai_server.py]: composer and inference gateway *)

Module Server.
Import Py.

Definition MAX_HISTORY_LINES : nat := 10.
Definition MAX_CMD_LENGTH : nat := 20.
Definition N_CTX : nat := 1024.
Definition RESERVED_TOKENS : nat := 100.
Definition MAX_PROMPT_TOKENS : nat := (N_CTX - RESERVED_TOKENS)%nat.

Definition BASE_FALLBACK : list (pystr * pystr) :=
  [ (py "ssh", py "ssh root@192.168.1.1");
    (py "ls", py "ls -l");
    (py "cd", py "cd ~");
    (py "git", py "git status");
    (py "docker", py "docker ps -a");
    (py "kinit", py "kinit yourname@DOMAIN.COM");
    (py "kubectl", py "kubectl get pods") ].

Fixpoint assoc (d : list (pystr * pystr)) (k : pystr) : option pystr :=
  match d with
  | [] => None
  | (k', v) :: d' => if str_eqb k' k then Some v else assoc d' k
  end.

(** [BASE_FALLBACK[prefix]] *)
Definition base_fallback (prefix : pystr) : result pystr :=
  match assoc BASE_FALLBACK prefix with
  | Some c => Ok c
  | None => Raise KeyError
  end.

(** [prefix in BASE_FALLBACK], for a string *)
Definition known_prefix (prefix : pystr) : bool :=
  match assoc BASE_FALLBACK prefix with
  | Some _ => true
  | None => false
  end.

Definition truncate_text (text : pystr) (max_len : nat) : pystr :=
  if (max_len <? length text)%nat
  then slice_to max_len text ++ py "..."
  else text.

Definition truncate_prompt_by_tokens (llm : Llama) (prompt : pystr)
    (max_tokens : nat) : result pystr :=
  prompt_tokens ← tokenize llm prompt;
  if (length prompt_tokens <=? max_tokens)%nat
  then Ok prompt
  else Ok (slice_to 100 prompt).

(** Lines 65-68: the comprehension over [history], before the slice. *)
Fixpoint history_comprehension (prefix : pystr) (items : list value)
    : result (list pystr) :=
  match items with
  | [] => Ok []
  | VStr cmd :: rest =>
    tl ← history_comprehension prefix rest;
    Ok (if startswith cmd prefix
        then truncate_text cmd MAX_CMD_LENGTH :: tl
        else tl)
  | _ :: _ => Raise AttributeError
  end.

Definition history_filtered (prefix : pystr) (history : value)
    : result (list pystr) :=
  items ← iter history;
  kept ← history_comprehension prefix items;
  Ok (last_n MAX_HISTORY_LINES kept).

(** Lines 69-76: the fallback of the composer. *)
Definition custom_fallback `{PyRuntime} (prefix : pystr) (clipboard : value)
    : result pystr :=
  clip_value ← getitem clipboard (py "value");
  base ← base_fallback prefix;
  if str_eqb prefix (py "ssh") then
    t ← getitem clipboard (py "type");
    if eq_str t (py "ip") && truthy clip_value
    then Ok (py "ssh root@" ++ format clip_value)
    else Ok base
  else if str_eqb prefix (py "cd") then
    t ← getitem clipboard (py "type");
    if eq_str t (py "path") && truthy clip_value
    then Ok (py "cd " ++ format clip_value)
    else Ok base
  else if str_eqb prefix (py "git") && truthy clip_value
    then Ok (py "git add " ++ format clip_value)
    else Ok base.

(** Lines 77-86. *)
Definition _clip_usable (pfx : pystr) (cb : value) : result bool :=
  t ← get cb (py "type") (VStr []);
  x ← get cb (py "value") (VStr []);
  v ← strip_method (or_else x (VStr []));
  if str_eqb pfx (py "ssh") then
    Ok (eq_str t (py "ip") && negb (contains v (py "/"))
        && negb (contains v (py " ")))
  else if str_eqb pfx (py "cd") then
    Ok (eq_str t (py "path") && negb (str_eqb v []))
  else if str_eqb pfx (py "git") then
    Ok (eq_str t (py "text") && negb (str_eqb v []))
  else Ok false.

Definition prefix_rule (prefix : pystr) : pystr :=
  if str_eqb prefix (py "ssh") then
    py "仅当剪贴板为IP或主机名时使用；禁止路径、空格或包含“/”的内容；不可用时忽略剪贴板。格式示例：ssh root@<主机>"
  else if str_eqb prefix (py "cd") then
    py "仅当剪贴板为以“/”或“~”开头的路径时使用；禁止IP或普通文本；不可用时忽略剪贴板"
  else if str_eqb prefix (py "git") then
    py "当剪贴板为非空文本时可用；生成与该文本相关的子命令（如 add、checkout、commit），但必须以“git”开头"
  else
    py "通常忽略剪贴板内容；若不可用，绝不拼接剪贴板".

Definition nl : pystr := [10%N].
Definition indent : pystr := py "    ".

(** Lines 97-106: the f-string. *)
Definition prompt_text `{PyRuntime} (prefix : pystr) (clip_type : value)
    (clip_ok : bool) (clip_for_prompt : value)
    (history_filtered : list pystr) : pystr :=
  nl ++ indent ++ py "任务：根据“" ++ prefix
     ++ py "”和剪贴板生成一个以“" ++ prefix ++ py "”开头的 Linux 命令。"
  ++ nl ++ indent ++ py "剪贴板类型：" ++ format clip_type
     ++ py "；是否可用：" ++ (if clip_ok then py "是" else py "否")
     ++ py "；值：" ++ format clip_for_prompt
  ++ nl ++ indent ++ py "规则："
  ++ nl ++ indent ++ py "1. 必须以“" ++ prefix ++ py "”开头；"
  ++ nl ++ indent ++ py "2. " ++ prefix_rule prefix ++ py "；"
  ++ nl ++ indent ++ py "3. 若剪贴板不可用，必须从历史或兜底生成，且绝不拼接剪贴板；"
  ++ nl ++ indent ++ py "4. 仅输出完整命令，无任何解释、换行、注释；"
  ++ nl ++ indent ++ py "5. 参考历史命令：" ++ repr_list history_filtered
     ++ py "；"
  ++ nl ++ indent.

(** [clip_value in suggestion] *)
Definition occurs_in (clip_value : value) (suggestion : pystr) : result bool :=
  match clip_value with
  | VStr s => Ok (contains suggestion s)
  | _ => Raise TypeError
  end.

(** Line 120: [prefix == "ssh" and clip_value and clip_value in suggestion] *)
Definition echoes_clipboard (prefix : pystr) (clip_value : value)
    (suggestion : pystr) : result bool :=
  if str_eqb prefix (py "ssh") && truthy clip_value
  then occurs_in clip_value suggestion
  else Ok false.

(** Line 118: [output["choices"][0]["text"].strip()] *)
Definition output_suggestion (output : value) : result pystr :=
  choices ← getitem output (py "choices");
  choice ← getindex choices 0;
  text ← getitem choice (py "text");
  strip_method text.

(** Lines 109-124: the body of [try]. *)
Definition try_body (llm : Llama) (prefix : pystr) (clip_value : value)
    (custom_fallback prompt : pystr) : result pystr :=
  output ← create_completion llm prompt;
  suggestion ← output_suggestion output;
  if negb (str_eqb suggestion []) && startswith suggestion prefix then
    echoed ← echoes_clipboard prefix clip_value suggestion;
    if (echoed : bool) then Ok suggestion
    else Ok (if negb (str_eqb suggestion prefix)
             then suggestion else custom_fallback)
  else Ok custom_fallback.

Definition generate_general_suggestion `{PyRuntime} (prefix : pystr)
    (clipboard history : value) (llm : Llama) : result pystr :=
  history_filtered ← history_filtered prefix history;
  clip_value ← getitem clipboard (py "value");
  custom_fallback ← custom_fallback prefix clipboard;
  clip_ok ← _clip_usable prefix clipboard;
  let clip_for_prompt := if (clip_ok : bool) then clip_value else VStr [] in
  clip_type ← get clipboard (py "type") (VStr []);
  let prompt :=
    prompt_text prefix clip_type clip_ok clip_for_prompt history_filtered in
  prompt ← truncate_prompt_by_tokens llm prompt MAX_PROMPT_TOKENS;
  match try_body llm prefix clip_value custom_fallback prompt with
  | Ok suggestion => Ok suggestion
  | Raise _ => Ok custom_fallback
  end.

End Server.

(** ** [scripts/zsh_ai_complete.py]: the clipboard classifier *)

Module Client.
Import Py.

(** [{"type": t, "value": v}] *)
Definition clipboard_context (t v : pystr) : value :=
  VDict [(py "type", VStr t); (py "value", VStr v)].

(** [get_clipboard_content], lines 34-47. [paste] is what
    [pyperclip.paste()] gives and [path_exists] is [os.path.exists] on the
    file system of the moment; the bare [except] turns any failure into the
    empty text context. *)
Definition get_clipboard_content (paste : result pystr)
    (path_exists : pystr -> bool) : value :=
  match paste with
  | Raise _ => clipboard_context (py "text") []
  | Ok raw =>
    let content := strip raw in
    if negb (str_eqb content [])
       && (contains content (py ".") && negb (path_exists content))
    then clipboard_context (py "ip") content
    else if negb (str_eqb content [])
            && (startswith content (py "/") || startswith content (py "~"))
    then clipboard_context (py "path") content
    else clipboard_context (py "text") content
  end.

(** The spec's [classify]: the classifier on a given raw string. *)
Definition classify (path_exists : pystr -> bool) (raw : pystr) : value :=
  get_clipboard_content (Ok raw) path_exists.

(** The history as [request_server] sends it: a JSON array of strings. *)
Definition history_value (history : list pystr) : value :=
  VList (List.map VStr history).

(** Lines 163-167: the body [request_server] posts to [/complete]. *)
Definition payload (prefix : pystr) (clipboard : value)
    (history : list pystr) : value :=
  VDict [(py "prefix", VStr prefix); (py "clipboard", clipboard);
         (py "history", history_value history)].

End Client.

(** ** [scripts/zsh_ai_server.py]: the HTTP layer

    The replies of the request handler as a function of the request, for a
    handler that gets the body it asks for, runs with the engine [llm] and
    writes the reply it has decided on. The reading of the body, the
    loading of the engine and the encoding of the reply are in [Handler]
    below, which gives the same replies when the three succeed. *)

Module Http.
Import Py Server.

(** What a handler method sees of a request.
    - [command] is the HTTP method and [path] the request path;
    - [content_length] is the [Content-Length] header: [None] when it is
      absent, otherwise what [int()] makes of it (an integer or a
      [ValueError]);
    - [body_json] is what [json.loads(body.decode("utf-8"))] makes of the
      request body, the bytes that [rfile.read(length)] returns. The handler
      evaluates it only when [length > 0]; for a request without a body it
      is the [ValueError] that [json.loads] raises on the empty string. *)
Record Request := {
  command : pystr;
  path : pystr;
  content_length : option (result Z);
  body_json : result value
}.

(** What the client gets back: a JSON response written by [_json_response],
    or an error page written by [BaseHTTPRequestHandler.send_error]. A
    handler that raises writes nothing: the connection is closed by
    [socketserver] after [handle_error]. *)
Inductive reply :=
| JsonResponse (code : Z) (payload : value)
| SendError (code : Z).

Definition error_payload (e : pystr) : value := VDict [(py "error", VStr e)].

Definition health_ok : reply :=
  JsonResponse 200 (VDict [(py "status", VStr (py "ok"))]).
Definition not_found : reply :=
  JsonResponse 404 (error_payload (py "not_found")).
Definition bad_json : reply :=
  JsonResponse 400 (error_payload (py "bad_json")).
Definition bad_prefix_reply : reply :=
  JsonResponse 400 (error_payload (py "bad_prefix")).

Definition do_GET (req : Request) : result reply :=
  if str_eqb (path req) (py "/health")
  then Ok health_ok
  else Ok not_found.

(** [prefix not in BASE_FALLBACK]: lists and dicts are unhashable. *)
Definition not_in_BASE_FALLBACK (prefix : value) : result bool :=
  match prefix with
  | VStr s => Ok (negb (known_prefix s))
  | VList _ | VDict _ => Raise TypeError
  | _ => Ok true
  end.

(** Line 170: [not prefix or prefix not in BASE_FALLBACK] *)
Definition bad_prefix (prefix : value) : result bool :=
  if negb (truthy prefix) then Ok true else not_in_BASE_FALLBACK prefix.

(** The outcome of lines 157-172: either the request is answered without
    inference, or it goes on to the inference gateway. *)
Inductive prepared :=
| Answer (r : reply)
| Infer (prefix : pystr) (clipboard history : value).

Definition default_clipboard : value :=
  VDict [(py "type", VStr (py "text")); (py "value", VStr [])].

(** Line 160: [int(self.headers.get("Content-Length", "0"))] *)
Definition declared_length (req : Request) : result Z :=
  match content_length req with
  | None => Ok 0
  | Some n => n
  end.

(** Lines 157-172, where [rfile.read] returns the body. After the test of
    line 170 the prefix is a key of [BASE_FALLBACK], hence a string: the
    last branch is never taken. *)
Definition prepare (req : Request) : result prepared :=
  if negb (str_eqb (path req) (py "/complete")) then
    Ok (Answer not_found)
  else
    length ← declared_length req;
    match (if 0 <? length then body_json req else Ok (VDict [])) with
    | Raise _ => Ok (Answer bad_json)
    | Ok req =>
      prefix ← get req (py "prefix") (VStr []);
      clipboard ← get req (py "clipboard") default_clipboard;
      history ← get req (py "history") (VList []);
      bad ← bad_prefix prefix;
      if (bad : bool) then
        Ok (Answer bad_prefix_reply)
      else
        match prefix with
        | VStr prefix => Ok (Infer prefix clipboard history)
        | _ => Raise TypeError
        end
    end.

Definition suggestion_reply (suggestion : pystr) : reply :=
  JsonResponse 200 (VDict [(py "suggestion", VStr suggestion)]).

(** The reply [do_POST] decides on when it runs on its own and
    [get_llm()] returns the engine [llm]. *)
Definition do_POST `{PyRuntime} (llm : Llama) (req : Request) : result reply :=
  p ← prepare req;
  match p with
  | Answer r => Ok r
  | Infer prefix clipboard history =>
    suggestion ← generate_general_suggestion prefix clipboard history llm;
    Ok (suggestion_reply suggestion)
  end.

(** [BaseHTTPRequestHandler.handle_one_request] calls [do_<command>]; the
    class defines [do_GET] and [do_POST] only, and the base class answers
    any other method with [send_error(501)]. *)
Definition handle `{PyRuntime} (llm : Llama) (req : Request) : result reply :=
  if str_eqb (command req) (py "GET") then do_GET req
  else if str_eqb (command req) (py "POST") then do_POST llm req
  else Ok (SendError 501).

End Http.

(** ** [scripts/zsh_ai_server.py]: the handler on a connection

    [Http] gives the reply of a handler that has read the body it was
    sent, runs with a loaded engine and can write its reply. This module
    follows lines 32-53 and 141-176 with the three places where a handler
    ends without a reply: [rfile.read] (line 161), [get_llm()] (line 173)
    and the encoding of the reply (line 145). *)

Module Handler.
Import Py Server Http.

(** How a handler ends without a reply: by an exception, which
    [socketserver] reports before it closes the connection, or by
    [sys.exit], which ends the thread of the handler and leaves the
    listener and the other threads running ([SystemExit] is no [Exception],
    and it is dropped at the top of a thread). *)
Inductive failure :=
| Exception (e : exn)
| SystemExit (code : Z).

Inductive outcome :=
| Responded (r : reply)
| NoResponse (f : failure).

(** What [load_ai_model()] finds: whether the model file exists, and
    what the call [Llama(...)] of lines 42-51 gives, the engine or the
    exception raised while the call is evaluated. *)
Record Model := {
  model_path_exists : bool;
  Llama_ : result Llama
}.

Inductive loaded :=
| Engine (llm : Llama)
| NotLoaded (f : failure).

(** Lines 32-53. *)
Definition load_ai_model (m : Model) : loaded :=
  if negb (model_path_exists m) then NotLoaded (SystemExit 1)
  else
    match Llama_ m with
    | Ok llm => Engine llm
    | Raise e => NotLoaded (Exception e)
    end.

(** A request on its connection. [recv] is what reading the declared number
    of bytes from the socket does when that number fits the size type of
    the interpreter: the bytes come back, the body or what was sent of it
    ([body_json] is their parse), or the read raises ([OverflowError] or
    [MemoryError] when no buffer of that size can be had, or the error of
    the socket). *)
Record Connection := {
  request : Request;
  recv : result unit
}.

(** [sys.maxsize], on a 64-bit interpreter. *)
Definition maxsize : Z := 2 ^ 63 - 1.

(** Line 161: [self.rfile.read(length)] *)
Definition rfile_read (c : Connection) (length : Z) : result unit :=
  if maxsize <? length then Raise OverflowError else recv c.

(** The code points that UTF-8 does not encode: the surrogates, which
    [json.loads] accepts when they are written as escapes. *)
Definition surrogate (ch : N) : bool := ((55296 <=? ch) && (ch <=? 57343))%N.

(** [s.encode("utf-8")] does not raise. *)
Definition encodable (s : pystr) : bool :=
  forallb (fun ch => negb (surrogate ch)) s.

(** [json.dumps(v, ensure_ascii=False).encode("utf-8")] does not raise:
    the strings of [v] reach the output as they are. *)
Fixpoint dumps_encodable (v : value) : bool :=
  match v with
  | VStr s => encodable s
  | VList l => forallb dumps_encodable l
  | VDict d =>
    forallb (fun kv => encodable (fst kv) && dumps_encodable (snd kv)) d
  | _ => true
  end.

(** Lines 144-150. The encoding of line 145 comes before anything is
    written; the client is taken to stay connected while the reply is
    written. *)
Definition _json_response (code : Z) (payload : value) : outcome :=
  if dumps_encodable payload then Responded (JsonResponse code payload)
  else NoResponse (Exception UnicodeError).

(** Lines 151-155. *)
Definition do_GET (c : Connection) : outcome :=
  if str_eqb (path (request c)) (py "/health")
  then _json_response 200 (VDict [(py "status", VStr (py "ok"))])
  else _json_response 404 (VDict [(py "error", VStr (py "not_found"))]).

(** Where lines 157-172 lead: to the end of the handler, or on to the
    inference of lines 173-176. *)
Inductive validated :=
| Ends (o : outcome)
| Infers (prefix : pystr) (clipboard history : value).

(** Lines 157-172. After the test of line 170 the prefix is a key of
    [BASE_FALLBACK], hence a string: the last branch is never taken. *)
Definition validate (c : Connection) : validated :=
  let req := request c in
  if negb (str_eqb (path req) (py "/complete")) then
    Ends (_json_response 404 (VDict [(py "error", VStr (py "not_found"))]))
  else
    match (length ← declared_length req;
           if 0 <? length
           then (_ ← rfile_read c length; Ok (body_json req))
           else Ok (Ok (VDict []))) with
    | Raise e => Ends (NoResponse (Exception e))
    | Ok (Raise _) =>
      Ends (_json_response 400 (VDict [(py "error", VStr (py "bad_json"))]))
    | Ok (Ok req) =>
      match (prefix ← get req (py "prefix") (VStr []);
             clipboard ← get req (py "clipboard") default_clipboard;
             history ← get req (py "history") (VList []);
             bad ← bad_prefix prefix;
             Ok (prefix, clipboard, history, bad)) with
      | Raise e => Ends (NoResponse (Exception e))
      | Ok (prefix, clipboard, history, bad) =>
        if (bad : bool) then
          Ends (_json_response 400
                  (VDict [(py "error", VStr (py "bad_prefix"))]))
        else
          match prefix with
          | VStr prefix => Infers prefix clipboard history
          | _ => Ends (NoResponse (Exception TypeError))
          end
      end
    end.

(** Line 176, after the [with] block of lines 174-175 is left with
    [suggestion], by return or by exception. *)
Definition write_suggestion (suggestion : result pystr) : outcome :=
  match suggestion with
  | Ok suggestion =>
    _json_response 200 (VDict [(py "suggestion", VStr suggestion)])
  | Raise e => NoResponse (Exception e)
  end.

(** Lines 173-176 in a handler that runs alone in a server that has not
    loaded the model yet: [get_llm()] calls [load_ai_model()]. *)
Definition infer `{PyRuntime} (m : Model) (prefix : pystr)
    (clipboard history : value) : outcome :=
  match load_ai_model m with
  | Engine llm =>
    write_suggestion
      (generate_general_suggestion prefix clipboard history llm)
  | NotLoaded f => NoResponse f
  end.

(** Lines 156-176. *)
Definition do_POST `{PyRuntime} (m : Model) (c : Connection) : outcome :=
  match validate c with
  | Ends o => o
  | Infers prefix clipboard history => infer m prefix clipboard history
  end.

(** Where the dispatch of [handle_one_request] leads: the class defines
    [do_GET] and [do_POST] only, and the base class answers any other
    method with [send_error(501)]. *)
Definition route (c : Connection) : validated :=
  if str_eqb (command (request c)) (py "GET") then Ends (do_GET c)
  else if str_eqb (command (request c)) (py "POST") then validate c
  else Ends (Responded (SendError 501)).

(** The handler run alone. *)
Definition handle `{PyRuntime} (m : Model) (c : Connection) : outcome :=
  if str_eqb (command (request c)) (py "GET") then do_GET c
  else if str_eqb (command (request c)) (py "POST") then do_POST m c
  else Responded (SendError 501).

(** The handler writes the reply [r]. *)
Definition respond (r : reply) : outcome :=
  match r with
  | JsonResponse code payload => _json_response code payload
  | SendError code => Responded (SendError code)
  end.

(** The body is read when the handler asks for it. *)
Definition readable (c : Connection) : Prop :=
  forall length, declared_length (request c) = Ok length -> 0 < length ->
  rfile_read c length = Ok tt.

End Handler.

(** ** [scripts/zsh_ai_server.py]: the handler threads and the two locks

    [ThreadingHTTPServer] runs every request in a thread of its own. A
    thread is modelled between the points where the others can be
    interleaved with it: the acquisition and the release of
    [LLAMA_INIT_LOCK] (lines 133-139) and of [INFER_LOCK] (lines 174-175),
    the call of [load_ai_model()] and the call of the engine. A handler that
    ends, with or without a reply, ends its thread only. *)

Module Threads.
Import Py Server Http Handler.

Inductive thread :=
| Received
    (* the method of the request is about to be dispatched *)
| Validated (prefix : pystr) (clipboard history : value)
    (* line 173, [get_llm()]: about to test [LLM is None] *)
| AtInitLock (prefix : pystr) (clipboard history : value)
    (* line 136: waits for [LLAMA_INIT_LOCK] *)
| InInit (prefix : pystr) (clipboard history : value)
    (* lines 137-138: holds [LLAMA_INIT_LOCK] *)
| Waiting (llm : Llama) (prefix : pystr) (clipboard history : value)
    (* line 174: waits for [INFER_LOCK] *)
| Inferring (llm : Llama) (prefix : pystr) (clipboard history : value)
    (* line 175: holds [INFER_LOCK], inside [generate_general_suggestion] *)
| Leaving (suggestion : result pystr)
    (* the [with] block is left, by return or by exception *)
| Responding (suggestion : pystr)
    (* line 176 *)
| Done (o : outcome).
    (* the handler has ended *)

(** The module-level variables of lines 129-131; a lock holds the index of
    the thread that has acquired it. [loads] is no variable of the program:
    it counts the calls of [load_ai_model()] made so far. *)
Record shared := {
  LLM : option Llama;
  LLAMA_INIT_LOCK : option nat;
  INFER_LOCK : option nat;
  loads : nat
}.

Record state := {
  globals : shared;
  threads : list thread
}.

(** One step of thread [i], which serves the connection [c]; [None] when
    the thread is blocked or done. A request that lines 151-172 settle is
    one step: that code shares nothing with the other threads. In
    [get_llm], the test of line 137, the call and the assignment of line
    138 and the release of [LLAMA_INIT_LOCK] are one step; [return LLM]
    gives the engine found or assigned there, since [LLM] is assigned
    nowhere else. When [load_ai_model()] does not return, the [with]
    statement releases the lock and [LLM] stays [None]. *)
Definition thread_step `{PyRuntime} (m : Model) (i : nat) (c : Connection)
    (g : shared) (t : thread) : option (shared * thread) :=
  match t with
  | Received =>
    Some (g, match route c with
             | Ends o => Done o
             | Infers prefix clipboard history =>
               Validated prefix clipboard history
             end)
  | Validated prefix clipboard history =>
    Some (g, match LLM g with
             | Some llm => Waiting llm prefix clipboard history
             | None => AtInitLock prefix clipboard history
             end)
  | AtInitLock prefix clipboard history =>
    match LLAMA_INIT_LOCK g with
    | None =>
      Some ({| LLM := LLM g; LLAMA_INIT_LOCK := Some i;
               INFER_LOCK := INFER_LOCK g; loads := loads g |},
            InInit prefix clipboard history)
    | Some _ => None
    end
  | InInit prefix clipboard history =>
    match LLM g with
    | Some llm =>
      Some ({| LLM := Some llm; LLAMA_INIT_LOCK := None;
               INFER_LOCK := INFER_LOCK g; loads := loads g |},
            Waiting llm prefix clipboard history)
    | None =>
      match load_ai_model m with
      | Engine llm =>
        Some ({| LLM := Some llm; LLAMA_INIT_LOCK := None;
                 INFER_LOCK := INFER_LOCK g; loads := S (loads g) |},
              Waiting llm prefix clipboard history)
      | NotLoaded f =>
        Some ({| LLM := None; LLAMA_INIT_LOCK := None;
                 INFER_LOCK := INFER_LOCK g; loads := S (loads g) |},
              Done (NoResponse f))
      end
    end
  | Waiting llm prefix clipboard history =>
    match INFER_LOCK g with
    | None =>
      Some ({| LLM := LLM g; LLAMA_INIT_LOCK := LLAMA_INIT_LOCK g;
               INFER_LOCK := Some i; loads := loads g |},
            Inferring llm prefix clipboard history)
    | Some _ => None
    end
  | Inferring llm prefix clipboard history =>
    Some (g, Leaving (generate_general_suggestion prefix clipboard history llm))
  | Leaving suggestion =>
    Some ({| LLM := LLM g; LLAMA_INIT_LOCK := LLAMA_INIT_LOCK g;
             INFER_LOCK := None; loads := loads g |},
          match suggestion with
          | Ok suggestion => Responding suggestion
          | Raise e => Done (NoResponse (Exception e))
          end)
  | Responding suggestion =>
    Some (g, Done (_json_response 200
                     (VDict [(py "suggestion", VStr suggestion)])))
  | Done _ => None
  end.

(** Thread [i] serves the [i]-th of the connections [conns]. *)
Definition step_thread `{PyRuntime} (m : Model) (conns : list Connection)
    (i : nat) (σ : state) : option state :=
  match conns !! i, threads σ !! i with
  | Some c, Some t =>
    match thread_step m i c (globals σ) t with
    | None => None
    | Some (g, t') => Some {| globals := g; threads := <[i := t']> (threads σ) |}
    end
  | _, _ => None
  end.

(** The scheduler is free to run any thread that can take a step. *)
Definition step `{PyRuntime} (m : Model) (conns : list Connection)
    (σ σ' : state) : Prop :=
  exists i, step_thread m conns i σ = Some σ'.

(** The server right after it has accepted the connections [conns]. *)
Definition init (conns : list Connection) : state := {|
  globals := {| LLM := None; LLAMA_INIT_LOCK := None; INFER_LOCK := None;
                loads := 0 |};
  threads := (fun _ => Received) <$> conns
|}.


(** The thread is inside [with INFER_LOCK]. *)
Definition holds_infer (t : thread) : bool :=
  match t with
  | Inferring _ _ _ _ | Leaving _ => true
  | _ => false
  end.

(** The thread is inside [with LLAMA_INIT_LOCK]. *)
Definition holds_init (t : thread) : bool :=
  match t with
  | InInit _ _ _ => true
  | _ => false
  end.

Definition finished (t : thread) : bool :=
  match t with
  | Done _ => true
  | _ => false
  end.


(** The number of steps a thread can still take, at most. *)
Definition remaining (t : thread) : nat :=
  match t with
  | Received => 8
  | Validated _ _ _ => 7
  | AtInitLock _ _ _ => 6
  | InInit _ _ _ => 5
  | Waiting _ _ _ _ => 4
  | Inferring _ _ _ _ => 3
  | Leaving _ => 2
  | Responding _ => 1
  | Done _ => 0
  end%nat.


(** How the handler of the connection [c] ends when it goes on alone from
    where the thread is. *)
Definition pending `{PyRuntime} (m : Model) (c : Connection) (t : thread)
    : outcome :=
  match t with
  | Received => handle m c
  | Validated prefix clipboard history
  | AtInitLock prefix clipboard history
  | InInit prefix clipboard history => infer m prefix clipboard history
  | Waiting llm prefix clipboard history
  | Inferring llm prefix clipboard history =>
    write_suggestion (generate_general_suggestion prefix clipboard history llm)
  | Leaving suggestion => write_suggestion suggestion
  | Responding suggestion => write_suggestion (Ok suggestion)
  | Done o => o
  end.

(** A lock is held by the one thread that is inside its [with] block. *)
Definition lock_inv (holds : thread -> bool) (lock : option nat)
    (l : list thread) : Prop :=
  (forall i t, l !! i = Some t -> holds t = true -> lock = Some i)
  /\ (forall i, lock = Some i -> exists t, l !! i = Some t /\ holds t = true).

(** What holds in every state the server can reach from [init conns]. *)
Record inv `{PyRuntime} (m : Model) (conns : list Connection)
    (σ : state) : Prop := {
  inv_infer : lock_inv holds_infer (INFER_LOCK (globals σ)) (threads σ);
  inv_init : lock_inv holds_init (LLAMA_INIT_LOCK (globals σ)) (threads σ);
  inv_llm : forall llm,
    LLM (globals σ) = Some llm -> load_ai_model m = Engine llm;
  inv_pending :
    Forall2 (fun c t => pending m c t = handle m c) conns (threads σ)
}.

(** Running the threads in the order [schedule]; a thread that cannot take
    a step is skipped. *)
Fixpoint run `{PyRuntime} (m : Model) (conns : list Connection)
    (schedule : list nat) (σ : state) : state :=
  match schedule with
  | [] => σ
  | i :: schedule' =>
    run m conns schedule'
        (match step_thread m conns i σ with
         | Some σ' => σ'
         | None => σ
         end)
  end.

End Threads.

(** ** [scripts/zsh_ai_server.py]: the lifecycle manager

    The commands [status], [stop] and the start of the listener, lines
    181-365, over an operating system that is a parameter. The program
    observes the world [w] it runs in; the world changes when the program
    sends a signal, sleeps or removes its record files (and only then: what
    happens between two observations is taken to happen during the sleep
    that separates them). *)

Module Lifecycle.
Import Py.

Inductive signal := SIGTERM | SIGKILL.

(** The meta record, as [_write_pid] writes it; [_read_meta] gives the empty
    dictionary when the file cannot be read. *)
Record meta := {
  meta_pid : option Z;
  meta_host : option pystr;
  meta_port : option Z
}.

Definition empty_meta : meta :=
  {| meta_pid := None; meta_host := None; meta_port := None |}.

(** What the operating system provides.
    - [_read_pid w]: the integer in the pid file, [None] when [_read_pid]
      returns [None]; [_read_meta w]: the meta record;
    - [os_kill0 w pid]: [os.kill(pid, 0)] returns without raising;
    - [urlopen_health w host port]: the JSON document that
      [GET http://host:port/health] returns, or the exception raised while
      fetching or parsing it;
    - [_lsof_listen_pid w port]: the pids that [lsof -t] prints for the
      listeners of the port, in order; [find_server_pids w]: the pids of the
      [ps -ef] lines that run the server script, this process excepted;
    - [time_time w]: the clock, in milliseconds;
    - [bind w host port]: [None] when the listener socket is bound, or the
      [errno] of the [OSError] ([None] if it has none);
    - [os_kill pid sig], [time_sleep] (200 ms) and [_remove_pid] change the
      world. *)
Class OS (W : Type) := {
  _read_pid : W -> option Z;
  _read_meta : W -> meta;
  os_kill0 : W -> Z -> bool;
  urlopen_health : W -> pystr -> Z -> result value;
  _lsof_listen_pid : W -> Z -> list Z;
  find_server_pids : W -> list Z;
  time_time : W -> Z;
  bind : W -> pystr -> Z -> option (option Z);
  os_kill : Z -> signal -> W -> W;
  time_sleep : W -> W;
  _remove_pid : W -> W
}.

(** What the program has done to the world so far. *)
Inductive action :=
| Kill (pid : Z) (sig : signal)
| Sleep
| RemoveRecords.

Record proc (W : Type) := {
  world : W;
  log : list action
}.
Arguments world {W} p.
Arguments log {W} p.

(** What the program prints; [RUNNING None] stands for the line with [?] in
    place of the pid. The last two are the messages of lines 355 and 357. *)
Inductive printed :=
| RUNNING (pid : option Z) (host : pystr) (port : Z)
| STOPPED
| STOPPED_WITH_ISSUE
| INFO_already_running (host : pystr) (port : Z)
| ERROR_port_in_use (host : pystr) (port : Z).

Section Commands.
Context {W : Type} `{OS W}.

Definition do_kill (pid : Z) (sig : signal) (p : proc W) : proc W :=
  {| world := os_kill pid sig (world p); log := log p ++ [Kill pid sig] |}.

Definition do_sleep (p : proc W) : proc W :=
  {| world := time_sleep (world p); log := log p ++ [Sleep] |}.

Definition do_remove_pid (p : proc W) : proc W :=
  {| world := _remove_pid (world p); log := log p ++ [RemoveRecords] |}.

(** Lines 181-189. *)
Definition check_server_alive (w : W) (host : pystr) (port : Z) : bool :=
  match (obj ← urlopen_health w host port;
         status ← get obj (py "status") VNone;
         Ok (eq_str status (py "ok"))) with
  | Ok alive => alive
  | Raise _ => false
  end.

(** Lines 229-236; [not pid] holds for [0]. *)
Definition _pid_running (w : W) (pid : Z) : bool :=
  if pid =? 0 then false else os_kill0 w pid.

(** [if pid: s.add(pid)] *)
Definition add_pid (pid : option Z) (s : gset Z) : gset Z :=
  match pid with
  | Some p => if p =? 0 then s else s ∪ {[p]}
  | None => s
  end.

(** Lines 271-283; the order in which Python enumerates the set is not
    modelled. *)
Definition _collect_pids (w : W) (host : pystr) (port : Z) : list Z :=
  let s : gset Z := ∅ in
  let pid := _read_pid w in
  let meta := _read_meta w in
  let s := add_pid pid s in
  let s := add_pid (meta_pid meta) s in
  let s := s ∪ list_to_set (_lsof_listen_pid w port) in
  let s := s ∪ list_to_set (find_server_pids w) in
  List.filter (_pid_running w) (elements s).

(** Lines 285-290. *)
Definition _terminate_pids (pids : list Z) (sig : signal) (p : proc W)
    : proc W :=
  fold_left (fun p pid => do_kill pid sig p) pids p.

(** Lines 294-300, the loop of [_wait_stopped]: [fuel] bounds the number of
    times the loop test is evaluated, and [None] means that the bound was
    reached. *)
Fixpoint wait_loop (fuel : nat) (host : pystr) (port : Z) (pids : list Z)
    (deadline : Z) (p : proc W) : option (bool * proc W) :=
  match fuel with
  | O => None
  | S fuel' =>
    if time_time (world p) <? deadline then
      let alive := existsb (_pid_running (world p)) pids in
      let port_ok := check_server_alive (world p) host port in
      if negb alive && negb port_ok then Some (true, p)
      else wait_loop fuel' host port pids deadline (do_sleep p)
    else Some (false, p)
  end.

(** Lines 292-300; [timeout] is in milliseconds. *)
Definition _wait_stopped (fuel : nat) (host : pystr) (port : Z)
    (pids : list Z) (timeout : Z) (p : proc W) : option (bool * proc W) :=
  let deadline := time_time (world p) + timeout in
  wait_loop fuel host port pids deadline p.

(** A command that has run to its end. *)
Record outcome := {
  out : printed;
  exit_code : Z;
  final : proc W
}.

(** Lines 307-310. *)
Definition probe_pid_file (w : W) (host : pystr) (port : Z)
    : option (printed * Z) :=
  match _read_pid w with
  | Some pid =>
    if _pid_running w pid then Some (RUNNING (Some pid) host port, 0)
    else None
  | None => None
  end.

(** Lines 313-316: the first line that [lsof -t] prints, when it is a pid
    that [if pid2] accepts. *)
Definition first_listener (w : W) (port : Z) : option Z :=
  match _lsof_listen_pid w port with
  | pid2 :: _ => if pid2 =? 0 then None else Some pid2
  | [] => None
  end.

(** Lines 311-325: once [/health] answers, the pid is looked for among the
    listeners of the port, then in the process table. *)
Definition probe_health (w : W) (host : pystr) (port : Z)
    : option (printed * Z) :=
  if check_server_alive w host port then
    match first_listener w port with
    | Some pid2 => Some (RUNNING (Some pid2) host port, 0)
    | None =>
      match find_server_pids w with
      | pid :: _ => Some (RUNNING (Some pid) host port, 0)
      | [] => Some (RUNNING None host port, 0)
      end
    end
  else None.

(** Lines 326-329. *)
Definition probe_meta (w : W) (host : pystr) (port : Z)
    : option (printed * Z) :=
  let meta := _read_meta w in
  match meta_pid meta with
  | Some pid =>
    if _pid_running w pid
    then Some (RUNNING (Some pid)
                 (default host (meta_host meta))
                 (default port (meta_port meta)), 0)
    else None
  | None => None
  end.

(** Lines 330-333. *)
Definition probe_process_table (w : W) (host : pystr) (port : Z)
    : option (printed * Z) :=
  match find_server_pids w with
  | pid :: _ => Some (RUNNING (Some pid) host port, 0)
  | [] => None
  end.

(** Lines 306-335: the [status] command, what it prints and its exit
    code. *)
Definition status (w : W) (host : pystr) (port : Z) : printed * Z :=
  match probe_pid_file w host port with
  | Some r => r
  | None =>
    match probe_health w host port with
    | Some r => r
    | None =>
      match probe_meta w host port with
      | Some r => r
      | None =>
        match probe_process_table w host port with
        | Some r => r
        | None => (STOPPED, 1)
        end
      end
    end
  end.

(** Lines 338-343: signals and polls. *)
Definition stop_signals (fuel : nat) (host : pystr) (port : Z)
    (pids : list Z) (p : proc W) : option (proc W) :=
  match pids with
  | [] => Some p
  | _ :: _ =>
    let p := _terminate_pids pids SIGTERM p in
    r ← _wait_stopped fuel host port pids 3000 p;
    if (fst r : bool) then Some (snd r)
    else
      let p := _terminate_pids pids SIGKILL (snd r) in
      r ← _wait_stopped fuel host port pids 2000 p;
      Some (snd r)
  end.

(** Lines 336-349: the [stop] command. *)
Definition stop (fuel : nat) (w : W) (host : pystr) (port : Z)
    : option outcome :=
  let pids := _collect_pids w host port in
  p ← stop_signals fuel host port pids {| world := w; log := [] |};
  let p := do_remove_pid p in
  if check_server_alive (world p) host port
     || existsb (_pid_running (world p)) pids
  then Some {| out := STOPPED_WITH_ISSUE; exit_code := 1; final := p |}
  else Some {| out := STOPPED; exit_code := 0; final := p |}.

(** How the start of the listener ends: the process exits, the [OSError] is
    raised again, or the listener is bound and the process goes on to write
    its records and to serve. *)
Inductive started :=
| Exited (o : outcome)
| Reraised (errno : option Z)
| Serving.

(** Line 353: [getattr(e, "errno", None) in (48, 98)] *)
Definition address_in_use (errno : option Z) : bool :=
  match errno with
  | Some n => (n =? 48) || (n =? 98)
  | None => false
  end.

(** Lines 350-365. *)
Definition start (w : W) (host : pystr) (port : Z) : started :=
  let p := {| world := w; log := [] |} in
  match bind w host port with
  | Some errno =>
    if address_in_use errno then
      if check_server_alive w host port
      then Exited {| out := INFO_already_running host port;
                     exit_code := 0; final := p |}
      else Exited {| out := ERROR_port_in_use host port;
                     exit_code := 1; final := p |}
    else Reraised errno
  | None => Serving
  end.

End Commands.

Arguments outcome W : clear implicits.
Arguments started W : clear implicits.

End Lifecycle.

(** ** The specification's wording of the composer and the gateway

    These definitions follow the sentences of the specification, not the
    code; the properties below compare them with the code. *)

Module Spec.
Import Py Server.

(** "ssh: usable only if kind=ip and value contains neither / nor a space;
    cd: usable only if kind=path and value is non-empty; git: usable only if
    kind=text and value is non-empty; all other prefixes: never usable." *)
Definition usable (prefix kind v : pystr) : bool :=
  if str_eqb prefix (py "ssh") then
    str_eqb kind (py "ip") && negb (contains v (py "/"))
    && negb (contains v (py " "))
  else if str_eqb prefix (py "cd") then
    str_eqb kind (py "path") && negb (str_eqb v [])
  else if str_eqb prefix (py "git") then
    str_eqb kind (py "text") && negb (str_eqb v [])
  else false.

(** "the prefix's static default command" *)
Definition static_default (prefix : pystr) : pystr :=
  match assoc BASE_FALLBACK prefix with
  | Some c => c
  | None => []
  end.

(** "a prefix-specific templated command ([ssh root@<value>], [cd <value>],
    [git add <value>])" *)
Definition templated (prefix v : pystr) : pystr :=
  if str_eqb prefix (py "ssh") then py "ssh root@" ++ v
  else if str_eqb prefix (py "cd") then py "cd " ++ v
  else if str_eqb prefix (py "git") then py "git add " ++ v
  else static_default prefix.

(** "start from the prefix's static default command; if clipboard is usable,
    override with a prefix-specific templated command" *)
Definition fallback (prefix kind v : pystr) : pystr :=
  if usable prefix kind v then templated prefix v else static_default prefix.

(** "if the raw output is empty, equals the bare prefix, or does not start
    with it, return the composer's fallback instead" *)
Definition rejected (prefix raw : pystr) : bool :=
  str_eqb raw [] || str_eqb raw prefix || negb (startswith raw prefix).

(** "if prefix == ssh and the usable clipboard IP literally appears in the
    raw output, accept it unconditionally" *)
Definition echoes_usable_ip (prefix kind v raw : pystr) : bool :=
  str_eqb prefix (py "ssh") && usable prefix kind v && negb (str_eqb v [])
  && contains raw v.

(** The gateway's answer in the specification's words; [engine] is the raw
    output of the engine, or the exception it raised. *)
Definition complete (prefix kind v fallback : pystr) (engine : result pystr)
    : pystr :=
  match engine with
  | Raise _ => fallback
  | Ok raw =>
    if echoes_usable_ip prefix kind v raw then raw
    else if rejected prefix raw then fallback
    else raw
  end.

(** "empty/whitespace-only -> text with empty value; contains [.] and does
    not correspond to an existing filesystem path -> ip; starts with [/] or
    [~] -> path; else -> text", read on the raw string. *)
Definition classify_kind (path_exists : pystr -> bool) (raw : pystr)
    : pystr :=
  if str_eqb (strip raw) [] then py "text"
  else if contains raw (py ".") && negb (path_exists raw) then py "ip"
  else if startswith raw (py "/") || startswith raw (py "~") then py "path"
  else py "text".

End Spec.

(** ** A runtime and engines to evaluate the model on *)

Module Sample.
Import Py Server.

(** [repr] of a list of strings that hold no quote, backslash or
    non-printable character. *)
Fixpoint repr_items (l : list pystr) : pystr :=
  match l with
  | [] => []
  | [s] => py "'" ++ s ++ py "'"
  | s :: l' => py "'" ++ s ++ py "', " ++ repr_items l'
  end.

Definition runtime : PyRuntime := {|
  str_of := fun _ => py "<object>";
  repr_list := fun l => py "[" ++ repr_items l ++ py "]"
|}.

(** The dictionary [create_completion] returns, reduced to what line 118
    reads. *)
Definition completion (text : pystr) : value :=
  VDict [(py "choices", VList [VDict [(py "text", VStr text)]])].

(** An engine that answers [text] to every prompt and counts one token per
    character. *)
Definition answering (text : pystr) : Llama := {|
  tokenize := fun p => Ok (List.map Z.of_N p);
  create_completion := fun _ => Ok (completion text)
|}.

(** An engine whose completion call raises. *)
Definition failing : Llama := {|
  tokenize := fun p => Ok (List.map Z.of_N p);
  create_completion := fun _ => Raise RuntimeError
|}.

(** An engine whose tokenizer raises. *)
Definition untokenizable : Llama := {|
  tokenize := fun _ => Raise RuntimeError;
  create_completion := fun _ => Ok (completion [])
|}.

(** A POST to [/complete] whose body parses to [body]. *)
Definition post (body : value) : Http.Request := {|
  Http.command := py "POST";
  Http.path := py "/complete";
  Http.content_length := Some (Ok 64);
  Http.body_json := Ok body
|}.

(** Two requests as [request_server] posts them. *)
Definition two_requests : list Http.Request :=
  [ post (Client.payload (py "git")
            (Client.clipboard_context (py "text") (py "main.py"))
            [py "git status"]);
    post (Client.payload (py "ls")
            (Client.clipboard_context (py "text") []) []) ].

(** A request with a known prefix and a clipboard that has no [value]. *)
Definition no_clipboard_value : Http.Request :=
  post (Client.payload (py "git") (VDict []) []).

(** The connection of a request whose body can be read. *)
Definition connection (req : Http.Request) : Handler.Connection := {|
  Handler.request := req;
  Handler.recv := Ok tt
|}.

Definition two_connections : list Handler.Connection :=
  List.map connection two_requests.

(** A model file that loads and gives the engine [llm]. *)
Definition model (llm : Llama) : Handler.Model := {|
  Handler.model_path_exists := true;
  Handler.Llama_ := Ok llm
|}.

(** No model file. *)
Definition no_model : Handler.Model := {|
  Handler.model_path_exists := false;
  Handler.Llama_ := Raise OSError
|}.

End Sample.

(** ** Operating systems to evaluate the lifecycle manager on *)

Module SampleOS.
Import Py Lifecycle.

(** The document [/health] of this service answers with. *)
Definition health_document : value := VDict [(py "status", VStr (py "ok"))].

(** A machine that runs server processes of the user. A process that has
    received SIGTERM exits after [grace] more sleeps of the observer; SIGKILL
    removes it at once. As long as one of them lives, it holds the port and
    answers [/health]. *)
Record server := {
  pid_of : Z;
  grace : nat;
  terminating : bool
}.

Record machine := {
  clock : Z;
  pid_file : option Z;
  meta_file : meta;
  servers : list server
}.

Definition signal_server (pid : Z) (sig : signal) (s : server)
    : list server :=
  if pid_of s =? pid then
    match sig with
    | SIGKILL => []
    | SIGTERM => [{| pid_of := pid_of s; grace := grace s;
                     terminating := true |}]
    end
  else [s].

Definition age_server (s : server) : list server :=
  if terminating s then
    match grace s with
    | O => []
    | S n => [{| pid_of := pid_of s; grace := n; terminating := true |}]
    end
  else [s].

#[global] Instance machine_os : OS machine := {|
  _read_pid w := pid_file w;
  _read_meta w := meta_file w;
  os_kill0 w pid := existsb (fun s => pid_of s =? pid) (servers w);
  urlopen_health w host port :=
    match servers w with
    | [] => Raise OSError
    | _ :: _ => Ok health_document
    end;
  _lsof_listen_pid w port := List.map pid_of (servers w);
  find_server_pids w := List.map pid_of (servers w);
  time_time w := clock w;
  bind w host port :=
    match servers w with
    | [] => None
    | _ :: _ => Some (Some 98)
    end;
  os_kill pid sig w :=
    {| clock := clock w; pid_file := pid_file w; meta_file := meta_file w;
       servers := flat_map (signal_server pid sig) (servers w) |};
  time_sleep w :=
    {| clock := clock w + 200; pid_file := pid_file w;
       meta_file := meta_file w;
       servers := flat_map age_server (servers w) |};
  _remove_pid w :=
    {| clock := clock w; pid_file := None; meta_file := empty_meta;
       servers := servers w |}
|}.

(** The service runs as pid 4242 and has written its records; it exits two
    polls after SIGTERM. *)
Definition running : machine := {|
  clock := 0;
  pid_file := Some 4242;
  meta_file := {| meta_pid := Some 4242; meta_host := Some (py "127.0.0.1");
                  meta_port := Some 8765 |};
  servers := [{| pid_of := 4242; grace := 2; terminating := false |}]
|}.

(** The same, with a server that does not exit on SIGTERM within the
    first poll window. *)
Definition stubborn : machine := {|
  clock := 0;
  pid_file := Some 4242;
  meta_file := empty_meta;
  servers := [{| pid_of := 4242; grace := 100; terminating := false |}]
|}.

(** Nothing runs; a stale pid file is left. *)
Definition stale : machine := {|
  clock := 0;
  pid_file := Some 4242;
  meta_file := empty_meta;
  servers := []
|}.

(** A world that never changes, given by what the program observes in it. *)
Record fixed := {
  fixed_health : result value;
  fixed_listeners : list Z;
  fixed_process_table : list Z;
  fixed_signalable : Z -> bool;
  fixed_bind : option (option Z)
}.

Definition fixed_os (f : fixed) : OS unit := {|
  _read_pid _ := None;
  _read_meta _ := empty_meta;
  os_kill0 _ pid := fixed_signalable f pid;
  urlopen_health _ _ _ := fixed_health f;
  _lsof_listen_pid _ _ := fixed_listeners f;
  find_server_pids _ := fixed_process_table f;
  time_time _ := 0;
  bind _ _ _ := fixed_bind f;
  os_kill _ _ w := w;
  time_sleep w := w;
  _remove_pid w := w
|}.

(** The service runs under another user: the process table shows it, but
    [os.kill] on its pid raises [PermissionError] and [lsof] does not list
    its socket; [/health] answers. *)
Definition other_user_service : OS unit := fixed_os {|
  fixed_health := Ok health_document;
  fixed_listeners := [];
  fixed_process_table := [4242];
  fixed_signalable := fun _ => false;
  fixed_bind := Some (Some 98)
|}.

(** Another program of the user listens on the port and does not answer
    [/health]. *)
Definition foreign_listener : OS unit := fixed_os {|
  fixed_health := Raise OSError;
  fixed_listeners := [5151];
  fixed_process_table := [];
  fixed_signalable := fun pid => pid =? 5151;
  fixed_bind := Some (Some 98)
|}.

(** The service answers [/health], and its pid cannot be found. *)
Definition anonymous_service : OS unit := fixed_os {|
  fixed_health := Ok health_document;
  fixed_listeners := [];
  fixed_process_table := [];
  fixed_signalable := fun _ => false;
  fixed_bind := Some (Some 98)
|}.

End SampleOS.

(** ** The code on well-formed requests

    Notions used to state what the code does when the prefix is a string,
    the clipboard is a context [{type, value}] of two strings and the
    history is a list of strings. *)

Module Typed.
Import Py Server Client.

Definition supported : list pystr := List.map fst BASE_FALLBACK.

(** The test the code makes before it templates the fallback, lines 71-76. *)
Definition template_applies (prefix t v : pystr) : bool :=
  str_eqb prefix (py "ssh") && str_eqb t (py "ip") && negb (str_eqb v [])
  || str_eqb prefix (py "cd") && str_eqb t (py "path") && negb (str_eqb v [])
  || str_eqb prefix (py "git") && negb (str_eqb v []).

(** Lines 65-68 before the slice. *)
Definition kept (prefix : pystr) (history : list pystr) : list pystr :=
  List.map (fun cmd => truncate_text cmd MAX_CMD_LENGTH)
           (List.filter (fun cmd => startswith cmd prefix) history).

(** The prompt composed for the request, lines 87-106. *)
Definition composed_prompt `{PyRuntime} (prefix t v : pystr)
    (history : list pystr) : pystr :=
  let clip_ok := Spec.usable prefix t (strip v) in
  prompt_text prefix (VStr t) clip_ok (if clip_ok then VStr v else VStr [])
              (last_n MAX_HISTORY_LINES (kept prefix history)).

(** The prompt handed to the engine, line 107. *)
Definition engine_prompt (P : pystr) (tokens : list Z) : pystr :=
  if (length tokens <=? MAX_PROMPT_TOKENS)%nat then P else slice_to 100 P.

(** The test of lines 119-122 on the stripped output [s]. *)
Definition accepts (prefix v s : pystr) : bool :=
  negb (str_eqb s []) && startswith s prefix
  && (str_eqb prefix (py "ssh") && negb (str_eqb v []) && contains s v
      || negb (str_eqb s prefix)).

(** The kind the classifier gives to the stripped content, lines 39-45. *)
Definition kind_of (path_exists : pystr -> bool) (content : pystr) : pystr :=
  if str_eqb content [] then py "text"
  else if contains content (py ".") && negb (path_exists content) then py "ip"
  else if startswith content (py "/") || startswith content (py "~")
  then py "path"
  else py "text".

(** The connection carries a request of the protocol: a POST to
    [/complete] whose body, which the handler can read, is the JSON
    document [{prefix, clipboard: {type, value}, history}] of a known
    prefix, two strings and a list of strings. *)
Definition conforming (c : Handler.Connection) (prefix t v : pystr)
    (history : list pystr) : Prop :=
  Http.command (Handler.request c) = py "POST"
  /\ Http.path (Handler.request c) = py "/complete"
  /\ (exists n, Http.declared_length (Handler.request c) = Ok n /\ 0 < n
                /\ Handler.rfile_read c n = Ok tt)
  /\ Http.body_json (Handler.request c)
     = Ok (payload prefix (clipboard_context t v) history)
  /\ known_prefix prefix = true.

End Typed.

(** ** Notions used to state what the lifecycle manager does *)

Module Managed.
Import Lifecycle.

Section Managed.
Context {W : Type} `{OS W}.

(** The pid found by one of the four discovery strategies of [stop]. *)
Definition discovered (w : W) (port : Z) (pid : Z) : Prop :=
  _read_pid w = Some pid \/ meta_pid (_read_meta w) = Some pid
  \/ In pid (_lsof_listen_pid w port) \/ In pid (find_server_pids w).

(** The signals [_terminate_pids] sends. *)
Definition kills (sig : signal) (pids : list Z) : list action :=
  List.map (fun pid => Kill pid sig) pids.

(** The clock advances by at least 200 ms during [time.sleep(0.2)]. *)
Definition sleep_advances : Prop :=
  forall w : W, time_time w + 200 <= time_time (time_sleep w).

(** Removing the record files does not change what [/health] answers. *)
Definition records_apart (host : pystr) (port : Z) : Prop :=
  forall w : W,
    urlopen_health (_remove_pid w) host port = urlopen_health w host port.

(** The occupant of the port answers [/health] as this service does: with
    a JSON object whose [status] is the string [ok]. *)
Definition occupant_is_service (w : W) (host : pystr) (port : Z) : Prop :=
  exists d, urlopen_health w host port = Ok (VDict d)
            /\ Py.lookup d (py "status") = Some (VStr (py "ok")).

(** The first probe of [status], lines 307-308. *)
Definition pid_file_alive (w : W) : bool :=
  match _read_pid w with
  | Some pid => _pid_running w pid
  | None => false
  end.

(** The third probe of [status], line 327. *)
Definition meta_alive (w : W) : bool :=
  match meta_pid (_read_meta w) with
  | Some pid => _pid_running w pid
  | None => false
  end.

(** The pid [status] prints once [/health] has answered, lines 313-324. *)
Definition health_pid (w : W) (port : Z) : option Z :=
  match first_listener w port with
  | Some pid2 => Some pid2
  | None => head (find_server_pids w)
  end.

End Managed.
End Managed.

(** ** The claims that the code does not meet, as they are stated *)

Module Stated.
Import Py Server Client Http.

(** C2: the fallback is the templated command when the clipboard is usable
    and the static default when it is not. *)
Definition fallback_follows_usability `{PyRuntime} (prefix t v : pystr)
    : Prop :=
  custom_fallback prefix (clipboard_context t v)
  = Ok (Spec.fallback prefix t v).

(** C3: the gateway validates the raw output of the engine; here for an
    engine that answers the raw text [raw]. *)
Definition gateway_as_specified `{PyRuntime} (prefix t v : pystr)
    (history : list pystr) (raw : pystr) : Prop :=
  forall fb, custom_fallback prefix (clipboard_context t v) = Ok fb ->
  generate_general_suggestion prefix (clipboard_context t v)
    (history_value history) (Sample.answering raw)
  = Ok (Spec.complete prefix t v fb (Ok raw)).


(** C4: any method other than GET and POST is answered [404 not_found]. *)
Definition other_method_not_found `{PyRuntime} (m : Handler.Model)
    (c : Handler.Connection) : Prop :=
  command (Handler.request c) <> py "GET" ->
  command (Handler.request c) <> py "POST" ->
  Handler.handle m c = Handler.Responded not_found.


(** C7: the four probes of [status] - the pid record, [/health], the
    listeners of the port, the process table - are each sufficient: when
    one succeeds [status] prints [RUNNING <pid> <host>:<port>] and exits
    with 0, and when all fail it prints [STOPPED] and exits with 1. *)
Definition status_any_probe {W : Type} `{Lifecycle.OS W} (w : W)
    (host : pystr) (port : Z) : Prop :=
  let succeeds :=
    (exists pid, Lifecycle._read_pid w = Some pid
                 /\ Lifecycle._pid_running w pid = true)
    \/ Lifecycle.check_server_alive w host port = true
    \/ Lifecycle._lsof_listen_pid w port <> []
    \/ Lifecycle.find_server_pids w <> [] in
  (succeeds ->
   exists pid,
     Lifecycle.status w host port
     = (Lifecycle.RUNNING (Some pid) host port, 0))
  /\ (~ succeeds -> Lifecycle.status w host port = (Lifecycle.STOPPED, 1)).

(** C5: invoking [stop] twice in a row yields [STOPPED] both times. *)
Definition stop_twice_stopped {W : Type} `{Lifecycle.OS W} (fuel : nat)
    (w : W) (host : pystr) (port : Z) : Prop :=
  forall o1 o2,
    Lifecycle.stop fuel w host port = Some o1 ->
    Lifecycle.stop fuel (Lifecycle.world (Lifecycle.final o1)) host port
    = Some o2 ->
    Lifecycle.out o1 = Lifecycle.STOPPED
    /\ Lifecycle.out o2 = Lifecycle.STOPPED.

End Stated.
(** ** Lines of text

    [str.splitlines], [str.split] without argument, [str.join] and the
    translation of line ends that a file opened in text mode makes when it
    is read. *)

Module Lines.

(** The characters at which [str.splitlines] cuts. *)
Definition line_boundary (c : N) : bool :=
  ((10 <=? c) && (c <=? 13) || (28 <=? c) && (c <=? 30)
   || (c =? 133) || (c =? 8232) || (c =? 8233))%N.

(** [s.splitlines()]: a carriage return followed by a line feed is one
    boundary, and a boundary that ends the text opens no further line. *)
Fixpoint splitlines (s : pystr) : list pystr :=
  match s with
  | [] => []
  | c :: s' =>
    if line_boundary c then
      match s' with
      | d :: s'' =>
        if ((c =? 13) && (d =? 10))%N
        then [] :: splitlines s''
        else [] :: splitlines s'
      | [] => [[]]
      end
    else
      match splitlines s' with
      | [] => [[c]]
      | l :: ls => (c :: l) :: ls
      end
  end.

(** [s.split()]: the maximal runs of characters that are not white space. *)
Fixpoint split (s : pystr) : list pystr :=
  match s with
  | [] => []
  | c :: s' =>
    if isspace c then split s'
    else
      match s' with
      | [] => [[c]]
      | d :: _ =>
        if isspace d then [c] :: split s'
        else
          match split s' with
          | [] => [[c]]
          | w :: ws => (c :: w) :: ws
          end
      end
  end.

(** [sep.join(l)] *)
Fixpoint join (sep : pystr) (l : list pystr) : pystr :=
  match l with
  | [] => []
  | [x] => x
  | x :: l' => x ++ sep ++ join sep l'
  end.

(** What [f.read()] makes of the decoded content of a file opened with
    [open(path, "r")]: every [\r\n] and every lone [\r] becomes [\n]. *)
Fixpoint universal_newlines (data : pystr) : pystr :=
  match data with
  | [] => []
  | c :: r =>
    if (c =? 13)%N then
      match r with
      | d :: r' =>
        if (d =? 10)%N then 10%N :: universal_newlines r'
        else 10%N :: universal_newlines r
      | [] => [10%N]
      end
    else c :: universal_newlines r
  end.

End Lines.

(** ** [scripts/parse_zsh_history.py]: the history parser

    Line numbers in this part are those of the parser. [re] asks the Unicode database of the interpreter which characters
    [\d] matches: the decimal digits, among which the ASCII characters are
    [0] to [9]; the others depend on the version of the database, and none
    of them is white space. [\s] matches the characters of
    [str.isspace]. *)

Class Unicode := {
  isdecimal : N -> bool;
  isdecimal_ascii :
    forall c, (c < 128)%N -> isdecimal c = ((48 <=? c) && (c <=? 57))%N;
  isdecimal_not_space :
    forall c, isdecimal c = true -> isspace c = false
}.

Module History.
Import Py Lines.

(** A matcher gives the rest of the string after the match it finds from
    the start of the string, trying the alternatives in the order of a
    backtracking engine: the longest repetition first. *)
Definition matcher := pystr -> option pystr.

(** One given character. *)
Definition lit (ch : N) (k : matcher) : matcher := fun s =>
  match s with
  | c :: s' => if (c =? ch)%N then k s' else None
  | [] => None
  end.

(** [cls*] followed by [k] *)
Fixpoint star (cls : N -> bool) (k : matcher) (s : pystr) : option pystr :=
  match s with
  | c :: s' =>
    if cls c then
      match star cls k s' with
      | Some rest => Some rest
      | None => k s
      end
    else k s
  | [] => k s
  end.

(** [cls+] followed by [k] *)
Definition plus (cls : N -> bool) (k : matcher) : matcher := fun s =>
  match s with
  | c :: s' => if cls c then star cls k s' else None
  | [] => None
  end.

Definition colon : N := 58.
Definition semicolon : N := 59.
Definition backslash : N := 92.

(** Line 19: [re.compile(r'^:\s*\d+:\d+;')], matched at the start of the
    string. *)
Definition timestamp_pattern `{Unicode} : matcher :=
  lit colon (star isspace (plus isdecimal
    (lit colon (plus isdecimal (lit semicolon Some))))).

(** Line 26: [timestamp_pattern.sub('', line_stripped)]. The pattern is
    anchored at the start of the string, where it matches at most once. *)
Definition sub_timestamp `{Unicode} (line_stripped : pystr) : pystr :=
  match timestamp_pattern line_stripped with
  | Some rest => rest
  | None => line_stripped
  end.

(** Lines 28-31: the test on the cleaned line. *)
Definition kept_command (cleaned : pystr) : bool :=
  negb (str_eqb cleaned [])
  && negb (startswith cleaned (py "#"))
  && (1 <? length cleaned)%nat
  && negb (contains cleaned [backslash]).

(** Lines 23-32: the loop over the lines of the file. *)
Fixpoint clean_commands `{Unicode} (lines : list pystr) : list pystr :=
  match lines with
  | [] => []
  | line :: rest =>
    let line_stripped := strip line in
    let cleaned := sub_timestamp line_stripped in
    if kept_command cleaned
    then cleaned :: clean_commands rest
    else clean_commands rest
  end.

(** [list(dict.fromkeys(l))]: the elements of [l] in the order of their
    first occurrence. *)
Fixpoint fromkeys (l : list pystr) : list pystr :=
  match l with
  | [] => []
  | x :: l' => x :: List.filter (fun y => negb (str_eqb x y)) (fromkeys l')
  end.

(** Lines 12-37. [history_file] is [None] when [~/.zsh_history] does not
    exist; otherwise it holds the lines that iterating over the file gives
    (undecodable bytes are dropped by [errors="ignore"]), or the exception
    raised while opening or reading it. The result is the list that the
    returned iterator yields. *)
Definition load_zsh_history `{Unicode}
    (history_file : option (result (list pystr))) : result (list pystr) :=
  match history_file with
  | None => Ok []
  | Some file =>
    lines ← file;
    let clean_commands := clean_commands lines in
    let unique_commands := firstn 1000 (fromkeys (rev clean_commands)) in
    Ok (rev unique_commands)
  end.

(** Lines 39-53: the text written to [HISTORY_OUTPUT_FILE] and the number
    of commands that is printed. Creating the directory and writing the
    file are taken to succeed. *)
Definition main `{Unicode} (history_file : option (result (list pystr)))
    : result (pystr * nat) :=
  history_list ← load_zsh_history history_file;
  Ok (join [10%N] history_list, length history_list).

End History.
(** ** [scripts/zsh_ai_complete.py]: the client

    Line numbers in this module are those of the client. Its lines 74-159
    ([truncate_text], [truncate_prompt_by_tokens] and
    [generate_general_suggestion]) are, comments apart, lines 55-127 of the
    server, over constants of the same values: the embedding of the server
    stands for both. *)

Module Complete.
Import Py Lines Server Client.

Definition MAX_HISTORY_LINES : nat := 10.

(** Lines 24-32. *)
Definition BASE_FALLBACK : list (pystr * pystr) :=
  [ (py "ssh", py "ssh root@192.168.1.1");
    (py "ls", py "ls -l");
    (py "cd", py "cd ~");
    (py "git", py "git status");
    (py "docker", py "docker ps -a");
    (py "kinit", py "kinit yourname@DOMAIN.COM");
    (py "kubectl", py "kubectl get pods") ].

(** [not suggestion], for what [request_server] returns *)
Definition falsy (suggestion : option pystr) : bool :=
  match suggestion with
  | Some s => str_eqb s []
  | None => true
  end.

(** Lines 161-180. [urlopen body] is what the POST of the JSON document
    [body] to [DEFAULT_SERVER_URL] leads to within the time allowed: the
    JSON document of the response, or the exception raised on the way
    (no connection, time out, a status that is not a success, a body that
    is not JSON). *)
Definition request_server (urlopen : value -> result value)
    (prefix : pystr) (clipboard : value) (history : list pystr)
    : option pystr :=
  match (obj ← urlopen (payload prefix clipboard history);
         x ← get obj (py "suggestion") VNone;
         strip_method (or_else x (VStr []))) with
  | Ok suggestion =>
    if negb (str_eqb suggestion []) then Some suggestion else None
  | Raise _ => None
  end.

(** Lines 206-211: the context made of the clipboard argument. *)
Definition clipboard_of_arg (path_exists : pystr -> bool)
    (clipboard_arg : pystr) : value :=
  if contains clipboard_arg (py ".") && negb (path_exists clipboard_arg)
  then clipboard_context (py "ip") clipboard_arg
  else if startswith clipboard_arg (py "/")
          || startswith clipboard_arg (py "~")
  then clipboard_context (py "path") clipboard_arg
  else clipboard_context (py "text") clipboard_arg.

(** Lines 213-216. [history_file] is [None] when [HISTORY_FILE] does not
    exist; otherwise it holds what [f.read()] returns, or the exception
    raised while opening, reading or decoding the file. *)
Definition read_history (history_file : option (result pystr))
    : result (list pystr) :=
  match history_file with
  | None => Ok []
  | Some file =>
    text ← file;
    Ok (last_n MAX_HISTORY_LINES (splitlines text))
  end.

(** What the client runs in.
    - [argv]: [sys.argv[1:]];
    - [paste]: what [pyperclip.paste()] gives; [path_exists]:
      [os.path.exists];
    - [urlopen n]: the exchange with the server at the [n]-th call of
      [request_server], numbered from 0;
    - [ZSH_AI_AUTO_START_SERVER]: the environment variable, when set;
    - [load_ai_model]: the engine that loading the model file gives,
      [None] when the file does not exist (the client then exits with 1). *)
Record env := {
  argv : list pystr;
  paste : result pystr;
  path_exists : pystr -> bool;
  history_file : option (result pystr);
  urlopen : nat -> value -> result value;
  ZSH_AI_AUTO_START_SERVER : option pystr;
  load_ai_model : option Llama
}.

(** The lines written to the standard output. *)
Inductive line :=
| DEBUG_server_suggestion (suggestion : option pystr)
| DEBUG_auto_start_server
| DEBUG_load_local_model
| Suggestion (suggestion : pystr).

(** What the client does, in order: a call of [request_server], with its
    time out in milliseconds and the body it posts; a line printed;
    [ensure_server_started()]; [load_ai_model()]. *)
Inductive event :=
| Post (timeout : Z) (body : value)
| Print (l : line)
| StartServer
| LoadModel.

(** How the run ends: [exit] is the exit code of [sys.exit], or the
    exception that nothing catches. *)
Record outcome := {
  events : list event;
  exit : result Z
}.

(** Line 220: [os.environ.get("ZSH_AI_AUTO_START_SERVER", "1") != "0"] *)
Definition auto_start (e : env) : bool :=
  negb (str_eqb (default (py "1") (ZSH_AI_AUTO_START_SERVER e)) (py "0")).

(** Lines 196-197. *)
Definition prefix_of (e : env) : pystr :=
  match argv e with
  | prefix :: _ => prefix
  | [] => []
  end.

Definition rejected_prefix (prefix : pystr) : bool :=
  str_eqb prefix [] || (length prefix <? 2)%nat
  || match assoc BASE_FALLBACK prefix with
     | Some _ => false
     | None => true
     end.

(** Lines 201-211. *)
Definition clipboard_of (e : env) : value :=
  let clipboard_arg := match argv e with
                       | _ :: clipboard_arg :: _ => clipboard_arg
                       | _ => []
                       end in
  let clipboard := get_clipboard_content (paste e) (path_exists e) in
  if negb (str_eqb clipboard_arg [])
  then clipboard_of_arg (path_exists e) clipboard_arg
  else clipboard.

(** Lines 218-223: the calls of [request_server]. *)
Definition ask_server (e : env) (prefix : pystr) (clipboard : value)
    (history : list pystr) : option pystr * list event :=
  let body := payload prefix clipboard history in
  let suggestion := request_server (urlopen e 0) prefix clipboard history in
  let done := [Post 3000 body; Print (DEBUG_server_suggestion suggestion)] in
  if falsy suggestion && auto_start e then
    (request_server (urlopen e 1) prefix clipboard history,
     done ++ [Print DEBUG_auto_start_server; StartServer; Post 6000 body])
  else (suggestion, done).

(** Lines 225-231: the local model, and the end of the run. Loading a
    model file that exists is taken to succeed. *)
Definition run_local `{PyRuntime} (e : env) (prefix : pystr)
    (clipboard : value) (history : list pystr) (done : list event)
    : outcome :=
  let done := done ++ [Print DEBUG_load_local_model; LoadModel] in
  match load_ai_model e with
  | None => {| events := done; exit := Ok 1 |}
  | Some llm =>
    match generate_general_suggestion prefix clipboard
            (history_value history) llm with
    | Ok suggestion =>
      {| events := done ++ [Print (Suggestion suggestion)]; exit := Ok 0 |}
    | Raise x => {| events := done; exit := Raise x |}
    end
  end.

(** Lines 224-231. *)
Definition finish `{PyRuntime} (e : env) (prefix : pystr)
    (clipboard : value) (history : list pystr)
    (asked : option pystr * list event) : outcome :=
  let (suggestion, done) := asked in
  match suggestion with
  | Some s =>
    if str_eqb s [] then run_local e prefix clipboard history done
    else {| events := done ++ [Print (Suggestion s)]; exit := Ok 0 |}
  | None => run_local e prefix clipboard history done
  end.

(** Lines 195-231. *)
Definition main `{PyRuntime} (e : env) : outcome :=
  let prefix := prefix_of e in
  if rejected_prefix prefix then {| events := []; exit := Ok 0 |}
  else
    let clipboard := clipboard_of e in
    match read_history (history_file e) with
    | Raise x => {| events := []; exit := Raise x |}
    | Ok history =>
      finish e prefix clipboard history (ask_server e prefix clipboard history)
    end.

(** The exchange with a server that runs the handler of
    [scripts/zsh_ai_server.py] with the engine [llm] and answers in time:
    [urllib] raises an [HTTPError] for a status outside 200-299 and an
    error of the connection when the handler has written no response; the
    body of a JSON response is read back as the document that was
    written. [length] is the number of bytes of the body posted. *)
Definition response_document (r : result Http.reply) : result value :=
  match r with
  | Ok (Http.JsonResponse code payload) =>
    if (200 <=? code) && (code <? 300) then Ok payload else Raise OSError
  | Ok (Http.SendError _) => Raise OSError
  | Raise _ => Raise OSError
  end.

Definition served `{PyRuntime} (llm : Llama) (length : Z)
    : value -> result value := fun body =>
  response_document
    (Http.handle llm {| Http.command := py "POST";
                        Http.path := py "/complete";
                        Http.content_length := Some (Ok length);
                        Http.body_json := Ok body |}).

End Complete.
(** ** [scripts/zsh_ai_server.py]: the scan of the process table and of
       the listeners

    [find_server_pids], lines 246-262, on the text that [ps -ef] prints, and
    the two readings of what [lsof -t] prints. The built-ins [int] and
    [str.isdigit] stay abstract. *)

Module Discovery.
Import Lines.

Definition script : pystr := py "scripts/zsh_ai_server.py".

(** Lines 251-259: what one line of the listing adds to [pids]. *)
Definition pids_of_line (int : pystr -> result Z) (getpid : Z)
    (line : pystr) : list Z :=
  if contains line script && negb (contains line (py "grep")) then
    let parts := split line in
    if (2 <? length parts)%nat then
      match int (nth 1 parts []) with
      | Ok pid => if negb (pid =? getpid) then [pid] else []
      | Raise _ => []
      end
    else []
  else [].

(** [ps_output] is the decoded output of [ps -ef], or the exception raised
    while running the command or decoding what it prints; [getpid] is
    [os.getpid()]. *)
Definition find_server_pids (int : pystr -> result Z) (getpid : Z)
    (ps_output : result pystr) : list Z :=
  match ps_output with
  | Ok out => flat_map (pids_of_line int getpid) (splitlines out)
  | Raise _ => []
  end.

(** [[int(x) for x in l]]: the first string that [int] refuses ends the
    comprehension with its exception. *)
Fixpoint ints (int : pystr -> result Z) (l : list pystr) : result (list Z) :=
  match l with
  | [] => Ok []
  | x :: l' =>
    n ← int x;
    ns ← ints int l';
    Ok (n :: ns)
  end.

(** [_lsof_listen_pid], lines 264-269, on what [lsof -t] prints:
    [lsof_output] is the decoded output of the command, or the exception
    raised while running it. [isdigit] is [str.isdigit]. *)
Definition _lsof_listen_pid (int : pystr -> result Z)
    (isdigit : pystr -> bool) (lsof_output : result pystr) : list Z :=
  match (raw ← lsof_output;
         let out := strip raw in
         ints int (List.filter (fun x => isdigit (strip x)) (splitlines out)))
  with
  | Ok pids => pids
  | Raise _ => []
  end.

(** Lines 312-316: the pid that [status] reads in the same output. *)
Definition pid2 (int : pystr -> result Z) (lsof_output : result pystr)
    : option Z :=
  match (raw ← lsof_output;
         let out := strip raw in
         if negb (str_eqb out []) then
           match splitlines out with
           | first :: _ => n ← int first; Ok (Some n)
           | [] => Raise IndexError
           end
         else Ok None)
  with
  | Ok pid2 => pid2
  | Raise _ => None
  end.

End Discovery.

(** ** [get_llm]: the calls of [load_ai_model] *)

Module Loading.
Import Threads Handler.

(** The thread has got an engine from [get_llm()]. *)
Definition engine_of (t : thread) : option Llama :=
  match t with
  | Waiting llm _ _ _ | Inferring llm _ _ _ => Some llm
  | _ => None
  end.

(** Every thread that has got an engine has the one that [LLM] holds. *)
Definition shares_engine (σ : state) : Prop :=
  forall i t llm,
    threads σ !! i = Some t -> engine_of t = Some llm ->
    LLM (globals σ) = Some llm.

(** The thread has been ended by [sys.exit]. *)
Definition exited (t : thread) : nat :=
  match t with
  | Done (NoResponse (SystemExit _)) => 1
  | _ => 0
  end.

(** The number of threads that [sys.exit] has ended. *)
Definition exits (σ : state) : nat :=
  list_sum (List.map exited (threads σ)).

(** What the count of the loads is in every state of a run. *)
Definition load_inv (m : Model) (σ : state) : Prop :=
  (forall llm, LLM (globals σ) = Some llm ->
   load_ai_model m = Engine llm /\ loads (globals σ) = 1%nat)
  /\ (forall llm, load_ai_model m = Engine llm ->
      LLM (globals σ) = None -> loads (globals σ) = 0%nat)
  /\ (model_path_exists m = false ->
      LLM (globals σ) = None /\ loads (globals σ) = exits σ).

End Loading.
(** ** Notions used to state the further properties *)

Module Notions.
Import Lines.

(** Nothing but white space. *)
Definition spaces (ws : pystr) : Prop := Forall (fun c => isspace c = true) ws.

(** No white space at all. *)
Definition no_space (s : pystr) : Prop := Forall (fun c => isspace c = false) s.

(** No character at which [str.splitlines] cuts. *)
Definition one_line (s : pystr) : Prop :=
  Forall (fun c => line_boundary c = false) s.

(** A matcher that consumes a part of the string from its start. *)
Definition cuts (k : History.matcher) : Prop :=
  forall s rest, k s = Some rest -> rest `suffix_of` s.

(** What the [n]-th call of [request_server] returns in the run of the
    client that has read [history]. *)
Definition answer (e : Complete.env) (n : nat) (history : list pystr)
    : option pystr :=
  Complete.request_server (Complete.urlopen e n) (Complete.prefix_of e)
    (Complete.clipboard_of e) history.

End Notions.

(** ** Environments to evaluate the client and the history parser on *)

Module Examples.
Import Complete.

(** A Unicode database whose only decimal digits are [0] to [9]. *)
#[refine] Definition ascii_digits : Unicode := {|
  isdecimal c := ((48 <=? c) && (c <=? 57))%N
|}.
Proof.
  - reflexivity.
  - intros c [Hlo Hhi]%andb_true_iff.
    apply N.leb_le in Hlo, Hhi. unfold isspace.
    repeat match goal with
    | |- context [(?a <=? ?b)%N] => destruct (N.leb_spec a b); try lia
    | |- context [(?a =? ?b)%N] => destruct (N.eqb_spec a b); try lia
    end; reflexivity.
Defined.

(** No server answers. *)
Definition no_server : nat -> value -> result value :=
  fun _ _ => Raise OSError.

(** The server runs with an engine that answers [text], and answers every
    call. *)
Definition server_up (text : pystr) : nat -> value -> result value :=
  fun _ => served (H := Sample.runtime) (Sample.answering text) 64.

(** [zsh_ai_complete.py git main.py], with two lines of history. *)
Definition desk (urlopen : nat -> value -> result value)
    (auto : option pystr) (local : option Llama) : env := {|
  argv := [py "git"; py "main.py"];
  paste := Raise RuntimeError;
  path_exists := fun _ => false;
  history_file := Some (Ok (py "ls -l" ++ [10%N] ++ py "git status"
                            ++ [10%N]));
  urlopen := urlopen;
  ZSH_AI_AUTO_START_SERVER := auto;
  load_ai_model := local
|}.

(** A history file of zsh, in the extended format and in the plain one. *)
Definition zsh_history : list pystr :=
  [ py ": 1700000000:0;git status" ++ [10%N];
    py ": 1700000002:5;ls -l" ++ [10%N];
    py "# a comment" ++ [10%N];
    py ": 1700000007:0;git status" ++ [10%N];
    py "cd /tmp" ++ [10%N] ].

(** A reading of decimal numbers written with the digits [0] to [9]. *)
Definition digits_value (s : pystr) : result Z :=
  match s with
  | [] => Raise ValueError
  | _ :: _ =>
    fold_left (fun acc c =>
                 n ← acc;
                 if isdecimal (Unicode := ascii_digits) c
                 then Ok (10 * n + Z.of_N (c - 48)) else Raise ValueError)
              s (Ok 0)
  end.

(** All the characters are among [0] to [9], and there is one at least. *)
Definition digits_only (s : pystr) : bool :=
  negb (str_eqb s [])
  && forallb (isdecimal (Unicode := ascii_digits)) s.

(** A listing of [ps -ef]: the server, the editor, a [grep] for the server
    and the process that lists. *)
Definition ps_listing : pystr :=
  py "me  4242     1  0 10:00 ?  00:00:01 python scripts/zsh_ai_server.py"
  ++ [10%N]
  ++ py "me  4300  4000  0 10:01 ?  00:00:00 vim notes.txt" ++ [10%N]
  ++ py "me  4310  4000  0 10:02 ?  00:00:00 grep scripts/zsh_ai_server.py"
  ++ [10%N]
  ++ py "me  4320  4000  0 10:02 ?  00:00:00 python scripts/zsh_ai_server.py stop"
  ++ [10%N].

End Examples.

(** * Properties *)

Import Py Server Client Http Typed Stated.

(** ** Strings *)

Section StringFacts.

Lemma str_eqb_refl (a : pystr) : str_eqb a a = true.
Proof.
  induction a as [|c a IH]; simpl; [reflexivity|].
  now rewrite N.eqb_refl.
Qed.

Lemma str_eqb_eq (a b : pystr) : str_eqb a b = true <-> a = b.
Proof.
  split.
  - revert b; induction a as [|c a IH]; intros [|d b]; simpl; try discriminate;
      [reflexivity|].
    intros [Hc Hab]%andb_true_iff. apply N.eqb_eq in Hc. f_equal; auto.
  - intros ->. apply str_eqb_refl.
Qed.

Lemma str_eqb_neq (a b : pystr) : str_eqb a b = false <-> a <> b.
Proof.
  rewrite <- str_eqb_eq. destruct (str_eqb a b); split; congruence.
Qed.

Lemma str_eqb_nil_r (a : pystr) : str_eqb a [] = true <-> a = [].
Proof. apply str_eqb_eq. Qed.

Lemma startswith_app (p r : pystr) : startswith (p ++ r) p = true.
Proof.
  induction p as [|c p IH]; simpl; [reflexivity|].
  now rewrite N.eqb_refl.
Qed.

Lemma startswith_spec (s p : pystr) :
  startswith s p = true <-> exists r, s = p ++ r.
Proof.
  split.
  - revert s; induction p as [|c p IH]; intros s; simpl.
    + exists s; reflexivity.
    + destruct s as [|d s]; [discriminate|].
      intros [Hc Hs]%andb_true_iff. apply N.eqb_eq in Hc; subst d.
      destruct (IH _ Hs) as [r ->]. now exists r.
  - intros [r ->]. apply startswith_app.
Qed.

Lemma startswith_refl (s : pystr) : startswith s s = true.
Proof. apply startswith_spec. exists []. now rewrite app_nil_r. Qed.

Lemma contains_refl (s : pystr) : contains s s = true.
Proof. destruct s; simpl; [reflexivity|]. now rewrite N.eqb_refl, startswith_refl. Qed.

End StringFacts.

(** ** The composer's fallback *)

Section Composer.
Context `{PyRuntime}.

Lemma assoc_In (d : list (pystr * pystr)) (k : pystr) :
  (exists v, assoc d k = Some v) <-> In k (List.map fst d).
Proof.
  induction d as [|[k' v'] d IH]; simpl.
  - split; [intros [? ?]; discriminate | tauto].
  - destruct (str_eqb k' k) eqn:E.
    + apply str_eqb_eq in E. split; eauto.
    + apply str_eqb_neq in E. rewrite IH. tauto.
Qed.

Lemma known_prefix_supported (prefix : pystr) :
  known_prefix prefix = true <-> In prefix supported.
Proof.
  unfold known_prefix, supported. rewrite <- assoc_In.
  destruct (assoc BASE_FALLBACK prefix); split; eauto; try discriminate.
  intros [? ?]; discriminate.
Qed.

End Composer.

(** Evaluation of the comparisons between string literals of the source. *)
Ltac eval_literals :=
  repeat match goal with
  | |- context [str_eqb (py ?a) (py ?b)] =>
    let r := eval vm_compute in (str_eqb (py a) (py b)) in
    change (str_eqb (py a) (py b)) with r
  | |- context [startswith (py ?a) (py ?b)] =>
    let r := eval vm_compute in (startswith (py a) (py b)) in
    change (startswith (py a) (py b)) with r
  | |- context [Server.assoc Server.BASE_FALLBACK (py ?a)] =>
    let r := eval vm_compute in (Server.assoc Server.BASE_FALLBACK (py a)) in
    change (Server.assoc Server.BASE_FALLBACK (py a)) with r
  end.

Ltac py_eval :=
  repeat (progress (eval_literals;
    cbn [getitem Py.lookup Py.get Py.truthy Py.eq_str Py.or_else
         Py.strip_method mbind result_bind mret result_ret negb andb orb fst snd])).

Section Fallback.
Context `{PyRuntime}.

Ltac each_prefix Hin :=
  unfold supported, BASE_FALLBACK in Hin; cbn [List.map fst In] in Hin;
  repeat (destruct Hin as [<-|Hin]); [..|destruct Hin].

Lemma custom_fallback_typed (prefix t v : pystr) :
  known_prefix prefix = true ->
  custom_fallback prefix (clipboard_context t v)
  = Ok (if template_applies prefix t v
        then Spec.templated prefix v else Spec.static_default prefix).
Proof.
  intros Hin%known_prefix_supported. each_prefix Hin;
    unfold custom_fallback, clipboard_context, base_fallback, format,
      template_applies, Spec.templated, Spec.static_default;
    py_eval;
    repeat match goal with
    | |- context [str_eqb ?a ?b] => destruct (str_eqb a b)
    end; reflexivity.
Qed.

Lemma static_default_prefixed (prefix : pystr) :
  known_prefix prefix = true ->
  Spec.static_default prefix <> []
  /\ startswith (Spec.static_default prefix) prefix = true.
Proof.
  intros Hin%known_prefix_supported.
  each_prefix Hin; unfold Spec.static_default; py_eval; split;
    (discriminate || reflexivity).
Qed.

Lemma templated_prefixed (prefix v : pystr) :
  known_prefix prefix = true ->
  Spec.templated prefix v <> []
  /\ startswith (Spec.templated prefix v) prefix = true.
Proof.
  intros Hin. pose proof (static_default_prefixed _ Hin) as Hs.
  apply known_prefix_supported in Hin. revert Hs.
  each_prefix Hin; unfold Spec.templated; py_eval; intros Hs; try exact Hs;
    (split; [discriminate | reflexivity]).
Qed.

(** C9. For every supported prefix and every clipboard context (and whatever
    the history), the composer's fallback is defined, is not the empty
    string and starts with the prefix; so does the static default of the
    prefix on its own. *)
Theorem fallback_defined_and_prefixed (prefix t v : pystr) :
  known_prefix prefix = true ->
  (exists c, base_fallback prefix = Ok c /\ c <> []
             /\ startswith c prefix = true)
  /\ (exists fb, custom_fallback prefix (clipboard_context t v) = Ok fb
                 /\ fb <> [] /\ startswith fb prefix = true).
Proof.
  intros Hk. split.
  - exists (Spec.static_default prefix).
    split; [|now apply static_default_prefixed].
    unfold base_fallback, Spec.static_default.
    apply known_prefix_supported, assoc_In in Hk. destruct Hk as [c ->].
    reflexivity.
  - rewrite custom_fallback_typed by assumption.
    destruct (template_applies prefix t v); eexists; (split; [reflexivity|]).
    + now apply templated_prefixed.
    + now apply static_default_prefixed.
Qed.

End Fallback.

(** ** The inference gateway on a well-formed request *)

Section Gateway.
Context `{PyRuntime}.

Lemma history_comprehension_typed (prefix : pystr) (history : list pystr) :
  history_comprehension prefix (List.map VStr history)
  = Ok (kept prefix history).
Proof.
  unfold kept. induction history as [|cmd history IH]; [reflexivity|].
  cbn [List.map history_comprehension List.filter]. rewrite IH.
  cbn [mbind result_bind]. now destruct (startswith cmd prefix).
Qed.

Lemma history_filtered_typed (prefix : pystr) (history : list pystr) :
  history_filtered prefix (history_value history)
  = Ok (last_n MAX_HISTORY_LINES (kept prefix history)).
Proof.
  unfold history_filtered, history_value. cbn [iter mbind result_bind].
  now rewrite history_comprehension_typed.
Qed.

(** On a clipboard context the code's usability test is the rule of the
    specification applied to the stripped value. *)
Lemma clip_usable_typed (prefix t v : pystr) :
  _clip_usable prefix (clipboard_context t v)
  = Ok (Spec.usable prefix t (strip v)).
Proof.
  unfold _clip_usable, clipboard_context, Spec.usable, or_else. py_eval.
  destruct (str_eqb v []) eqn:Ev;
    cbn [negb strip_method mbind result_bind].
  - apply str_eqb_eq in Ev; subst v.
    repeat match goal with
    | |- context [if ?c then _ else _] => destruct c
    end; reflexivity.
  - repeat match goal with
    | |- context [if ?c then _ else _] => destruct c
    end; reflexivity.
Qed.

Lemma try_body_typed (llm : Llama) (prefix v fb p : pystr) :
  try_body llm prefix (VStr v) fb p
  = (output ← create_completion llm p;
     s ← output_suggestion output;
     Ok (if accepts prefix v s then s else fb)).
Proof.
  unfold try_body, accepts, echoes_clipboard, occurs_in.
  destruct (create_completion llm p) as [output|e]; [|reflexivity].
  cbn [mbind result_bind].
  destruct (output_suggestion output) as [s|e]; [|reflexivity].
  cbn [mbind result_bind truthy].
  destruct (str_eqb s []), (startswith s prefix), (str_eqb prefix (py "ssh")),
    (str_eqb v []), (contains s v), (str_eqb s prefix); reflexivity.
Qed.

Lemma generate_typed (llm : Llama) (prefix t v : pystr)
    (history : list pystr) :
  known_prefix prefix = true ->
  generate_general_suggestion prefix (clipboard_context t v)
                              (history_value history) llm
  = (let fb := if template_applies prefix t v
               then Spec.templated prefix v else Spec.static_default prefix in
     let P := composed_prompt prefix t v history in
     tokens ← tokenize llm P;
     Ok (match (output ← create_completion llm (engine_prompt P tokens);
                output_suggestion output) with
         | Ok s => if accepts prefix v s then s else fb
         | Raise _ => fb
         end)).
Proof.
  intros Hk. unfold generate_general_suggestion.
  rewrite history_filtered_typed. cbn [mbind result_bind].
  rewrite custom_fallback_typed by assumption.
  rewrite clip_usable_typed.
  unfold clipboard_context at 1 2. py_eval.
  unfold truncate_prompt_by_tokens, composed_prompt, engine_prompt.
  cbn zeta.
  destruct (tokenize llm _) as [tokens|e]; [|reflexivity].
  cbn [mbind result_bind].
  destruct (length tokens <=? MAX_PROMPT_TOKENS)%nat; cbn [mbind result_bind];
    rewrite try_body_typed;
    destruct (create_completion llm _) as [output|e]; cbn [mbind result_bind];
    try reflexivity;
    destruct (output_suggestion output); reflexivity.
Qed.

End Gateway.

(** ** Fallback selection (C2) *)

Section FallbackSelection.
Context `{PyRuntime}.

Lemma usable_template_applies (prefix t v : pystr) :
  Spec.usable prefix t v = true -> v <> [] ->
  template_applies prefix t v = true.
Proof.
  unfold Spec.usable, template_applies. intros Hu Hv%str_eqb_neq. rewrite Hv.
  destruct (str_eqb prefix (py "ssh")), (str_eqb prefix (py "cd")),
    (str_eqb prefix (py "git")), (str_eqb t (py "ip")),
    (str_eqb t (py "path")); cbn in *; congruence.
Qed.

(** What lines 71-76 compute for a supported prefix: the templated command
    when their own test holds (ssh: kind ip and a non-empty value; cd: kind
    path and a non-empty value; git: a non-empty value) and the static
    default otherwise. A clipboard that the usability rule accepts passes
    that test when its value is not empty, and no prefix other than ssh, cd
    and git ever does. *)
Theorem fallback_selection (prefix t v : pystr) :
  known_prefix prefix = true ->
  custom_fallback prefix (clipboard_context t v)
  = Ok (if template_applies prefix t v
        then Spec.templated prefix v else Spec.static_default prefix)
  /\ (template_applies prefix t v = true <->
      v <> [] /\ (prefix = py "ssh" /\ t = py "ip"
                  \/ prefix = py "cd" /\ t = py "path"
                  \/ prefix = py "git"))
  /\ (Spec.usable prefix t v = true -> v <> [] ->
      template_applies prefix t v = true).
Proof.
  intros Hk. split; [now apply custom_fallback_typed|].
  split; [|apply usable_template_applies].
  unfold template_applies.
  rewrite !orb_true_iff, !andb_true_iff, !negb_true_iff, !str_eqb_eq,
    str_eqb_neq.
  tauto.
Qed.

End FallbackSelection.

(** The hypothesis of [fallback_selection] holds for [cd] with a path. *)
Lemma fallback_selection_witness :
  known_prefix (py "cd") = true
  /\ custom_fallback (H := Sample.runtime) (py "cd")
       (clipboard_context (py "path") (py "~/projects"))
     = Ok (py "cd ~/projects").
Proof.
  split; [reflexivity|].
  destruct (fallback_selection (H := Sample.runtime)
              (py "cd") (py "path") (py "~/projects")) as [Hfb _];
    [reflexivity|].
  exact Hfb.
Defined.

(** C2. The fallback of lines 71-76 does not follow the usability rule
    that the same function defines in [_clip_usable] (lines 77-86) and hands
    to the engine in the prompt. For [git] and the clipboard
    [{ip, "1.2.3.4"}], and for [ssh] and the clipboard [{ip, "1.2.3.4/24"}],
    [_clip_usable] answers that the clipboard is not usable, the claim asks
    for the static default ([git status], [ssh root@192.168.1.1]), and the
    fallback is the templated command made of the clipboard value, which
    is what the caller gets when the engine fails. *)
Theorem fallback_ignores_usability :
  (_clip_usable (py "git") (clipboard_context (py "ip") (py "1.2.3.4"))
   = Ok false
   /\ Spec.usable (py "git") (py "ip") (py "1.2.3.4") = false
   /\ Spec.fallback (py "git") (py "ip") (py "1.2.3.4") = py "git status"
   /\ custom_fallback (H := Sample.runtime) (py "git")
        (clipboard_context (py "ip") (py "1.2.3.4"))
      = Ok (py "git add 1.2.3.4")
   /\ generate_general_suggestion (H := Sample.runtime) (py "git")
        (clipboard_context (py "ip") (py "1.2.3.4")) (history_value [])
        Sample.failing
      = Ok (py "git add 1.2.3.4")
   /\ ~ fallback_follows_usability (H := Sample.runtime)
          (py "git") (py "ip") (py "1.2.3.4"))
  /\ (_clip_usable (py "ssh")
        (clipboard_context (py "ip") (py "1.2.3.4/24")) = Ok false
      /\ Spec.usable (py "ssh") (py "ip") (py "1.2.3.4/24") = false
      /\ Spec.fallback (py "ssh") (py "ip") (py "1.2.3.4/24")
         = py "ssh root@192.168.1.1"
      /\ custom_fallback (H := Sample.runtime) (py "ssh")
           (clipboard_context (py "ip") (py "1.2.3.4/24"))
         = Ok (py "ssh root@1.2.3.4/24")
      /\ generate_general_suggestion (H := Sample.runtime) (py "ssh")
           (clipboard_context (py "ip") (py "1.2.3.4/24")) (history_value [])
           Sample.failing
         = Ok (py "ssh root@1.2.3.4/24")
      /\ ~ fallback_follows_usability (H := Sample.runtime)
             (py "ssh") (py "ip") (py "1.2.3.4/24")).
Proof.
  split; (split; [reflexivity|]; split; [reflexivity|];
          split; [reflexivity|]; split; [reflexivity|];
          split; [reflexivity|]);
    unfold fallback_follows_usability; intros Heq; vm_compute in Heq;
    discriminate Heq.
Qed.

(** With a text in the clipboard the two tests agree for [git]. *)
Lemma fallback_git_text :
  _clip_usable (py "git") (clipboard_context (py "text") (py "main.py"))
  = Ok true
  /\ custom_fallback (H := Sample.runtime) (py "git")
       (clipboard_context (py "text") (py "main.py"))
     = Ok (py "git add main.py").
Proof. split; reflexivity. Qed.

(** The test of line 71 on [ssh]: a value with a slash is templated, and an
    empty value is not. *)
Lemma fallback_ssh_slash :
  _clip_usable (py "ssh")
    (clipboard_context (py "ip") (py "1.2.3.4/24")) = Ok false
  /\ custom_fallback (H := Sample.runtime) (py "ssh")
       (clipboard_context (py "ip") (py "1.2.3.4/24"))
     = Ok (py "ssh root@1.2.3.4/24").
Proof. split; reflexivity. Qed.

Lemma fallback_ssh_empty :
  _clip_usable (py "ssh") (clipboard_context (py "ip") [])
  = Ok true
  /\ custom_fallback (H := Sample.runtime) (py "ssh")
       (clipboard_context (py "ip") [])
     = Ok (py "ssh root@192.168.1.1").
Proof. split; reflexivity. Qed.

(** The example of the specification does hold. *)
Lemma fallback_cd_ip :
  custom_fallback (H := Sample.runtime) (py "cd")
    (clipboard_context (py "ip") (py "1.2.3.4"))
  = Ok (py "cd ~").
Proof. reflexivity. Qed.

(** The hypothesis of [fallback_defined_and_prefixed] holds for [git]. *)
Lemma fallback_defined_and_prefixed_witness :
  known_prefix (py "git") = true
  /\ exists fb,
       custom_fallback (H := Sample.runtime) (py "git")
         (clipboard_context (py "text") (py "main.py")) = Ok fb
       /\ fb <> [] /\ startswith fb (py "git") = true.
Proof.
  split; [reflexivity|].
  destruct (fallback_defined_and_prefixed (H := Sample.runtime)
              (py "git") (py "text") (py "main.py")) as [_ Hfb];
    [reflexivity|].
  exact Hfb.
Defined.

(** ** Validation of the engine's output (C3) *)

Section Validation.
Context `{PyRuntime}.

(** C3, amended. For a well-formed request whose prompt the tokenizer
    accepts, the gateway returns a string and never raises: the fallback
    when the completion call raises or its output cannot be read, and
    otherwise, with [s] the output text stripped of surrounding white space
    (what line 118 reads in the dictionary that the engine returns),
    [s] itself when [s] is not empty, starts with the prefix and either
    differs from the bare prefix or (prefix ssh) contains the non-empty
    clipboard value, whatever its kind; the fallback in every other case. *)
Theorem gateway_validation (llm : Llama) (prefix t v : pystr)
    (history : list pystr) (tokens : list Z) :
  known_prefix prefix = true ->
  tokenize llm (composed_prompt prefix t v history) = Ok tokens ->
  exists fb,
    custom_fallback prefix (clipboard_context t v) = Ok fb
    /\ generate_general_suggestion prefix (clipboard_context t v)
         (history_value history) llm
       = Ok (match (output ← create_completion llm
                       (engine_prompt (composed_prompt prefix t v history)
                                      tokens);
                    output_suggestion output) with
             | Ok s => if accepts prefix v s then s else fb
             | Raise _ => fb
             end)
    /\ (forall s,
        accepts prefix v s = true
        <-> s <> [] /\ startswith s prefix = true
            /\ (s <> prefix
                \/ prefix = py "ssh" /\ v <> [] /\ contains s v = true))
    /\ (forall text,
        output_suggestion (Sample.completion text) = Ok (strip text)).
Proof.
  intros Hk Htok. eexists. split; [now apply custom_fallback_typed|].
  split; [|split].
  - rewrite generate_typed by assumption. cbn zeta. rewrite Htok. reflexivity.
  - intros s. unfold accepts.
    rewrite !andb_true_iff, orb_true_iff, !andb_true_iff, !negb_true_iff,
      !str_eqb_neq, str_eqb_eq.
    tauto.
  - intros text. reflexivity.
Qed.

(** An exception of the tokenizer, which is called before [try], does reach
    the caller. *)
Lemma tokenizer_exception_propagates (llm : Llama) (prefix t v : pystr)
    (history : list pystr) (e : exn) :
  known_prefix prefix = true ->
  tokenize llm (composed_prompt prefix t v history) = Raise e ->
  generate_general_suggestion prefix (clipboard_context t v)
    (history_value history) llm = Raise e.
Proof.
  intros Hk Htok. rewrite generate_typed by assumption. cbn zeta.
  now rewrite Htok.
Qed.

End Validation.

(** The hypotheses of [gateway_validation] hold for [ls] and an engine that
    answers [ls -a]. *)
Lemma gateway_validation_witness :
  known_prefix (py "ls") = true
  /\ generate_general_suggestion (H := Sample.runtime) (py "ls")
       (clipboard_context (py "text") [])
       (history_value [py "ls -la /tmp"])
       (Sample.answering (py "ls -a"))
     = Ok (py "ls -a").
Proof.
  split; [reflexivity|].
  destruct (gateway_validation (H := Sample.runtime)
              (Sample.answering (py "ls -a")) (py "ls") (py "text") []
              [py "ls -la /tmp"] _ eq_refl eq_refl) as [fb [_ [Hgen _]]].
  exact Hgen.
Defined.

(** C3 as stated fails: the engine's raw output [" ls -a"] does not start
    with the prefix [ls], yet the gateway returns [ls -a] and not the
    fallback, because it strips the output before it validates it. *)
Lemma gateway_as_specified_fails :
  ~ gateway_as_specified (H := Sample.runtime)
      (py "ls") (py "text") [] [] (py " ls -a").
Proof.
  unfold gateway_as_specified. intros Hspec.
  specialize (Hspec (py "ls -l") eq_refl). vm_compute in Hspec.
  discriminate Hspec.
Qed.

(** The echo of the clipboard is looked for only in an output that starts
    with the prefix: [host 10.0.0.5] is not accepted. *)
Lemma echoed_ip_needs_prefix :
  generate_general_suggestion (H := Sample.runtime) (py "ssh")
    (clipboard_context (py "ip") (py "10.0.0.5"))
    (history_value []) (Sample.answering (py "host 10.0.0.5"))
  = Ok (py "ssh root@10.0.0.5").
Proof. reflexivity. Qed.

(** The echo test reads the clipboard value whatever its kind, and lets the
    bare prefix through when the value occurs in it. *)
Lemma bare_prefix_with_echo :
  generate_general_suggestion (H := Sample.runtime) (py "ssh")
    (clipboard_context (py "text") (py "sh"))
    (history_value []) (Sample.answering (py "ssh"))
  = Ok (py "ssh").
Proof. reflexivity. Qed.

(** An exception of the completion call gives the fallback. *)
Lemma completion_exception_gives_fallback :
  generate_general_suggestion (H := Sample.runtime) (py "docker")
    (clipboard_context (py "text") (py "x"))
    (history_value []) Sample.failing
  = Ok (py "docker ps -a").
Proof. reflexivity. Qed.

(** ** The clipboard classifier (C8) *)

Section Classifier.

(** C8, amended. The classifier always returns a context; the context is
    determined by the raw string and by the file system, which it consults.
    With [content] the raw string stripped of surrounding white space, the
    value is [content] and the kind follows the rules in order: empty
    content gives text; content with a dot that is not an existing path
    gives ip; content that starts with [/] or [~] gives path; anything else
    gives text. A failure to read the clipboard gives the empty text. The
    three examples of the specification hold. *)
Theorem classify_rules (path_exists : pystr -> bool) (raw : pystr) :
  let content := strip raw in
  classify path_exists raw
  = clipboard_context (kind_of path_exists content) content
  /\ (content = [] -> kind_of path_exists content = py "text")
  /\ (content <> [] -> contains content (py ".") = true ->
      path_exists content = false -> kind_of path_exists content = py "ip")
  /\ (content <> [] ->
      contains content (py ".") = false \/ path_exists content = true ->
      startswith content (py "/") = true
      \/ startswith content (py "~") = true ->
      kind_of path_exists content = py "path")
  /\ (content <> [] ->
      contains content (py ".") = false \/ path_exists content = true ->
      startswith content (py "/") = false ->
      startswith content (py "~") = false ->
      kind_of path_exists content = py "text")
  /\ (forall e, get_clipboard_content (Raise e) path_exists
                = clipboard_context (py "text") [])
  /\ classify path_exists (py "~/projects")
     = clipboard_context (py "path") (py "~/projects")
  /\ classify (fun _ => false) (py "10.0.0.5")
     = clipboard_context (py "ip") (py "10.0.0.5")
  /\ classify path_exists (py "hello world")
     = clipboard_context (py "text") (py "hello world").
Proof.
  cbn zeta. split; [|split; [|split; [|split; [|split]]]].
  - unfold classify, get_clipboard_content, kind_of. cbn zeta.
    destruct (str_eqb (strip raw) []); cbn [negb andb]; [reflexivity|].
    destruct (contains (strip raw) (py ".") && negb (path_exists (strip raw)));
      [reflexivity|].
    destruct (startswith (strip raw) (py "/") || startswith (strip raw) (py "~"));
      reflexivity.
  - intros ->. reflexivity.
  - intros Hne%str_eqb_neq Hdot Hex. unfold kind_of.
    now rewrite Hne, Hdot, Hex.
  - intros Hne%str_eqb_neq Hnot Hstart. unfold kind_of. rewrite Hne.
    assert (contains (strip raw) (py ".") && negb (path_exists (strip raw))
            = false) as ->
      by (destruct Hnot as [-> | ->]; [reflexivity|apply andb_false_r]).
    destruct Hstart as [-> | ->]; [reflexivity|].
    now rewrite orb_true_r.
  - intros Hne%str_eqb_neq Hnot Hslash Htilde. unfold kind_of. rewrite Hne.
    assert (contains (strip raw) (py ".") && negb (path_exists (strip raw))
            = false) as ->
      by (destruct Hnot as [-> | ->]; [reflexivity|apply andb_false_r]).
    now rewrite Hslash, Htilde.
  - split; [reflexivity|]. split; [|split]; reflexivity.
Qed.

End Classifier.

(** C8 as stated fails: the raw string [" /tmp"] does not start with [/]
    and holds no dot, so the rules read on the raw input give text; the
    code strips it first and gives path. *)
Lemma classify_raw_rules_fail :
  getitem (classify (fun _ => false) (py " /tmp")) (py "type")
  <> Ok (VStr (Spec.classify_kind (fun _ => false) (py " /tmp"))).
Proof. vm_compute. discriminate. Qed.

(** The classifier is not a function of the raw string alone: the same
    string is ip or text according to the file system. *)
Lemma classify_depends_on_file_system :
  classify (fun _ => false) (py "notes.txt")
  <> classify (fun _ => true) (py "notes.txt").
Proof. vm_compute. discriminate. Qed.

(** The hypothesis of the second part of [classify_rules] holds for a
    clipboard that holds white space only. *)
Lemma classify_rules_witness :
  classify (fun _ => false) (py "  ") = clipboard_context (py "text") [].
Proof.
  destruct (classify_rules (fun _ => false) (py "  ")) as (Hc & Hblank & _).
  rewrite Hc, Hblank; reflexivity.
Defined.

(** ** The HTTP layer (C10) *)

Section HttpLayer.
Context `{PyRuntime}.

Lemma bad_json_not_bad_prefix : bad_json <> bad_prefix_reply.
Proof. intros Heq. vm_compute in Heq. discriminate Heq. Qed.

Lemma bad_json_not_not_found : bad_json <> not_found.
Proof. intros Heq. vm_compute in Heq. discriminate Heq. Qed.


(** Line 170 on a prefix that is a string. *)
Lemma bad_prefix_str (prefix : pystr) :
  bad_prefix (VStr prefix) = Ok (negb (known_prefix prefix)).
Proof.
  unfold bad_prefix, not_in_BASE_FALLBACK. cbn [truthy].
  destruct (str_eqb prefix []) eqn:E; [|reflexivity].
  apply str_eqb_eq in E; subst prefix. reflexivity.
Qed.

(** [prepare] on a request without a body: the handler reads [{}]. *)
Lemma prepare_empty_body (req : Request) (n : Z) :
  path req = py "/complete" -> declared_length req = Ok n -> n <= 0 ->
  prepare req = Ok (Answer bad_prefix_reply).
Proof.
  intros Hp Hn Hle. unfold prepare. rewrite Hp, Hn. py_eval.
  destruct (0 <? n) eqn:E; [apply Z.ltb_lt in E; lia|].
  reflexivity.
Qed.

(** [prepare] on the body that [request_server] posts. *)
Lemma prepare_payload (req : Request) (n : Z) (prefix : pystr)
    (clipboard : value) (history : list pystr) :
  path req = py "/complete" -> declared_length req = Ok n -> 0 < n ->
  body_json req = Ok (payload prefix clipboard history) ->
  prepare req
  = Ok (if known_prefix prefix
        then Infer prefix clipboard (history_value history)
        else Answer bad_prefix_reply).
Proof.
  intros Hp Hn Hlt Hb. unfold prepare. rewrite Hp, Hn. py_eval.
  destruct (0 <? n) eqn:E; [|apply Z.ltb_ge in E; lia].
  rewrite Hb. unfold payload. py_eval. rewrite bad_prefix_str.
  cbn [mbind result_bind]. now destruct (known_prefix prefix).
Qed.

(** When [prepare] answers [bad_json], a body was declared and it does not
    parse. *)
Lemma prepare_bad_json (req : Request) :
  prepare req = Ok (Answer bad_json) ->
  exists n, declared_length req = Ok n /\ 0 < n /\ raises (body_json req).
Proof.
  unfold prepare.
  destruct (negb (str_eqb (path req) (py "/complete"))).
  { intros Heq. vm_compute in Heq. discriminate Heq. }
  destruct (declared_length req) as [n|e]; cbn [mbind result_bind];
    [|intros Hx; discriminate Hx].
  destruct (0 <? n) eqn:E.
  - apply Z.ltb_lt in E. destruct (body_json req) as [body|e].
    + destruct (get body (py "prefix") _) as [prefix|];
        cbn [mbind result_bind]; [|intros Hx; discriminate Hx].
      destruct (get body (py "clipboard") _) as [clipboard|];
        cbn [mbind result_bind]; [|intros Hx; discriminate Hx].
      destruct (get body (py "history") _) as [history|];
        cbn [mbind result_bind]; [|intros Hx; discriminate Hx].
      destruct (bad_prefix prefix) as [[|]|]; cbn [mbind result_bind];
        [| |intros Hx; discriminate Hx].
      * intros Heq. vm_compute in Heq. discriminate Heq.
      * intros Heq. destruct prefix; discriminate Heq.
    + intros _. exists n. unfold raises. eauto.
  - cbn [get lookup mbind result_bind]. unfold bad_prefix.
    cbn [truthy str_eqb negb mbind result_bind].
    intros Heq. vm_compute in Heq. discriminate Heq.
Qed.

(** The gateway's answer to a well-formed request is never empty and starts
    with the prefix. *)
Lemma suggestion_prefixed (llm : Llama) (prefix t v : pystr)
    (history : list pystr) (tokens : list Z) :
  known_prefix prefix = true ->
  tokenize llm (composed_prompt prefix t v history) = Ok tokens ->
  exists s,
    generate_general_suggestion prefix (clipboard_context t v)
      (history_value history) llm = Ok s
    /\ s <> [] /\ startswith s prefix = true.
Proof.
  intros Hk Htok. rewrite generate_typed by assumption. cbn zeta.
  rewrite Htok. cbn [mbind result_bind]. eexists. split; [reflexivity|].
  assert (Hfb : forall fb, fb = (if template_applies prefix t v
               then Spec.templated prefix v else Spec.static_default prefix) ->
             fb <> [] /\ startswith fb prefix = true).
  { intros fb ->. destruct (template_applies prefix t v).
    - now apply templated_prefixed.
    - now apply static_default_prefixed. }
  destruct (create_completion llm _) as [output|e]; cbn [mbind result_bind];
    [|now apply Hfb].
  destruct (output_suggestion output) as [s|e]; [|now apply Hfb].
  destruct (accepts prefix v s) eqn:Ha; [|now apply Hfb].
  unfold accepts in Ha. apply andb_true_iff in Ha as [Ha _].
  apply andb_true_iff in Ha as [Hne Hsw]. split; [|exact Hsw].
  apply negb_true_iff, str_eqb_neq in Hne. exact Hne.
Qed.

End HttpLayer.

Section HttpClaims.
Context `{PyRuntime}.

Lemma handle_POST (llm : Llama) (req : Request) :
  command req = py "POST" -> handle llm req = do_POST llm req.
Proof. intros Hc. unfold handle. rewrite Hc. py_eval. reflexivity. Qed.

Lemma handle_GET (llm : Llama) (req : Request) :
  command req = py "GET" -> handle llm req = do_GET req.
Proof. intros Hc. unfold handle. rewrite Hc. py_eval. reflexivity. Qed.

Lemma do_POST_bad_json (llm : Llama) (req : Request) :
  do_POST llm req = Ok bad_json -> prepare req = Ok (Answer bad_json).
Proof.
  unfold do_POST. destruct (prepare req) as [[r|prefix clipboard history]|e];
    cbn [mbind result_bind].
  - now intros [= ->].
  - destruct (generate_general_suggestion _ _ _ _) as [s|e];
      cbn [mbind result_bind]; intros Heq; discriminate Heq.
  - intros Heq; discriminate Heq.
Qed.

Lemma handle_bad_json (llm : Llama) (req : Request) :
  handle llm req = Ok bad_json ->
  command req = py "POST" /\ prepare req = Ok (Answer bad_json).
Proof.
  unfold handle. destruct (str_eqb (command req) (py "GET")).
  { unfold do_GET. destruct (str_eqb (path req) (py "/health"));
      intros Heq; vm_compute in Heq; discriminate Heq. }
  destruct (str_eqb (command req) (py "POST")) eqn:E.
  - apply str_eqb_eq in E. intros Heq%do_POST_bad_json. now split.
  - intros Heq; discriminate Heq.
Qed.

(** C10. A POST to [/complete] with an empty body (no [Content-Length], or
    a [Content-Length] that is not positive) is answered [400 bad_prefix]:
    the handler reads the empty object in place of the body and the prefix
    defaults to the empty string. [400 bad_json] is the answer only to a
    POST to [/complete] that declares a body which does not parse. *)
Theorem empty_body_is_bad_prefix (llm : Llama) (req : Request) :
  (command req = py "POST" -> path req = py "/complete" ->
   (content_length req = None
    \/ exists n, content_length req = Some (Ok n) /\ n <= 0) ->
   handle llm req = Ok bad_prefix_reply)
  /\ (handle llm req = Ok bad_json ->
      command req = py "POST" /\ path req = py "/complete"
      /\ exists n, content_length req = Some (Ok n) /\ 0 < n
                   /\ raises (body_json req)).
Proof.
  split.
  - intros Hc Hp Hlen. rewrite handle_POST by assumption. unfold do_POST.
    assert (Hd : exists n, declared_length req = Ok n /\ n <= 0).
    { unfold declared_length. destruct Hlen as [->|[n [-> Hn]]]; eauto.
      exists 0. split; [reflexivity|lia]. }
    destruct Hd as [n [Hd Hn]].
    now rewrite (prepare_empty_body req n).
  - intros [Hc Hprep]%handle_bad_json. split; [exact Hc|].
    split.
    + destruct (str_eqb (path req) (py "/complete")) eqn:E;
        [now apply str_eqb_eq in E|].
      unfold prepare in Hprep. rewrite E in Hprep. vm_compute in Hprep.
      discriminate Hprep.
    + apply prepare_bad_json in Hprep as [n [Hd [Hn Hr]]]. exists n.
      split; [|now split]. unfold declared_length in Hd.
      destruct (content_length req) as [r|]; [now subst r|].
      injection Hd as <-. lia.
Qed.

End HttpClaims.

(** The hypotheses of [empty_body_is_bad_prefix] hold for a POST without a
    [Content-Length]. *)
Lemma empty_body_is_bad_prefix_witness :
  handle (H := Sample.runtime) (Sample.answering (py "ls -a"))
    {| command := py "POST"; path := py "/complete";
       content_length := None; body_json := Raise ValueError |}
  = Ok bad_prefix_reply.
Proof.
  apply (proj1 (empty_body_is_bad_prefix (H := Sample.runtime) _ _));
    [reflexivity | reflexivity | left; reflexivity].
Defined.

(** ** The handler on a connection (C1, C4) *)

Module Service.
Import Handler Threads.

Section HandlerLayer.
Context `{PyRuntime} (m : Model).

Lemma json_response_inv (code : Z) (payload : value) (r : reply) :
  _json_response code payload = Responded r ->
  r = JsonResponse code payload /\ dumps_encodable payload = true.
Proof.
  unfold _json_response. destruct (dumps_encodable payload);
    [|intros Hx; discriminate Hx].
  now intros [= <-].
Qed.

Lemma json_response_no_exit (code : Z) (payload : value) (k : Z) :
  _json_response code payload <> NoResponse (SystemExit k).
Proof.
  unfold _json_response. destruct (dumps_encodable payload);
    intros Hx; discriminate Hx.
Qed.

(** The fixed replies can be encoded. *)
Lemma respond_health_ok : respond health_ok = Responded health_ok.
Proof. vm_compute. reflexivity. Qed.

Lemma respond_not_found : respond not_found = Responded not_found.
Proof. vm_compute. reflexivity. Qed.

Lemma respond_bad_json : respond bad_json = Responded bad_json.
Proof. vm_compute. reflexivity. Qed.

Lemma respond_bad_prefix : respond bad_prefix_reply = Responded bad_prefix_reply.
Proof. vm_compute. reflexivity. Qed.



Lemma write_suggestion_no_exit (suggestion : result pystr) (k : Z) :
  write_suggestion suggestion <> NoResponse (SystemExit k).
Proof.
  destruct suggestion as [s|e]; [apply json_response_no_exit|].
  intros Hx; discriminate Hx.
Qed.







(** Nothing in lines 151-172 calls [sys.exit]. *)
Lemma route_no_exit (c : Connection) (k : Z) :
  route c <> Ends (NoResponse (SystemExit k)).
Proof.
  assert (Hj : forall code payload,
            Ends (_json_response code payload)
            <> Ends (NoResponse (SystemExit k))).
  { intros code payload [= Hx]. now apply json_response_no_exit in Hx. }
  unfold route, Handler.do_GET, validate. cbn zeta.
  repeat match goal with
  | |- Ends (_json_response _ _) <> _ => apply Hj
  | |- context [match ?x with _ => _ end] => destruct x
  end; try (intros Hx; discriminate Hx).
Qed.



(** With the body read and the engine loaded, the handler writes the reply
    that [Http.handle] decides on. *)
Lemma handle_refines (llm : Llama) (c : Connection) :
  load_ai_model m = Engine llm -> readable c ->
  Handler.handle m c
  = match Http.handle llm (request c) with
    | Ok r => respond r
    | Raise e => NoResponse (Exception e)
    end.
Proof.
  intros Hload Hread.
  unfold Handler.handle, Http.handle, Handler.do_GET, Http.do_GET.
  destruct (str_eqb (command (request c)) (py "GET")).
  { now destruct (str_eqb (path (request c)) (py "/health")). }
  destruct (str_eqb (command (request c)) (py "POST")); [|reflexivity].
  unfold Handler.do_POST, Http.do_POST, validate, prepare. cbn zeta.
  destruct (negb (str_eqb (path (request c)) (py "/complete")));
    [reflexivity|].
  destruct (declared_length (request c)) as [n|e] eqn:En;
    cbn [mbind result_bind]; [|reflexivity].
  assert (Hbody : forall body,
    match
      match (prefix ← get body (py "prefix") (VStr []);
             clipboard ← get body (py "clipboard") default_clipboard;
             history ← get body (py "history") (VList []);
             bad ← bad_prefix prefix;
             Ok (prefix, clipboard, history, bad)) with
      | Raise e => Ends (NoResponse (Exception e))
      | Ok (prefix, clipboard, history, bad) =>
        if (bad : bool) then
          Ends (_json_response 400
                  (VDict [(py "error", VStr (py "bad_prefix"))]))
        else
          match prefix with
          | VStr prefix => Infers prefix clipboard history
          | _ => Ends (NoResponse (Exception TypeError))
          end
      end
    with
    | Ends o => o
    | Infers prefix clipboard history => infer m prefix clipboard history
    end
    = match (p ← (prefix ← get body (py "prefix") (VStr []);
                  clipboard ← get body (py "clipboard") default_clipboard;
                  history ← get body (py "history") (VList []);
                  bad ← bad_prefix prefix;
                  if (bad : bool) then Ok (Answer bad_prefix_reply)
                  else match prefix with
                       | VStr prefix => Ok (Infer prefix clipboard history)
                       | _ => Raise TypeError
                       end);
             match p with
             | Answer r => Ok r
             | Infer prefix clipboard history =>
               suggestion ← generate_general_suggestion prefix clipboard
                              history llm;
               Ok (suggestion_reply suggestion)
             end) with
      | Ok r => respond r
      | Raise e => NoResponse (Exception e)
      end).
  { intros body.
    destruct (get body (py "prefix") _) as [prefix|];
      cbn [mbind result_bind]; [|reflexivity].
    destruct (get body (py "clipboard") _) as [clipboard|];
      cbn [mbind result_bind]; [|reflexivity].
    destruct (get body (py "history") _) as [history|];
      cbn [mbind result_bind]; [|reflexivity].
    destruct (bad_prefix prefix) as [[|]|]; cbn [mbind result_bind];
      [reflexivity| |reflexivity].
    destruct prefix; cbn [mbind result_bind]; try reflexivity.
    unfold infer. rewrite Hload.
    now destruct (generate_general_suggestion _ _ _ _). }
  destruct (0 <? n) eqn:E.
  - apply Z.ltb_lt in E. rewrite (Hread n En E). cbn [mbind result_bind].
    destruct (body_json (request c)) as [body|e]; [apply Hbody|reflexivity].
  - apply Hbody.
Qed.

End HandlerLayer.

(** ** The handler threads (C1) *)

Section Locks.
Context `{PyRuntime} (m : Model) (conns : list Connection).




Lemma init_lookup (i : nat) (t : thread) :
  threads (init conns) !! i = Some t -> t = Received.
Proof.
  unfold init. cbn [threads]. intros Hi.
  apply list_lookup_fmap_Some in Hi as [c [-> _]]. reflexivity.
Qed.



Lemma step_thread_inv (i : nat) (σ σ' : state) :
  step_thread m conns i σ = Some σ' ->
  exists c t g' t',
    conns !! i = Some c /\ threads σ !! i = Some t
    /\ thread_step m i c (globals σ) t = Some (g', t')
    /\ σ' = {| globals := g'; threads := <[i := t']> (threads σ) |}.
Proof.
  unfold step_thread.
  destruct (conns !! i) as [c|]; [|intros Hx; discriminate Hx].
  destruct (threads σ !! i) as [t|]; [|intros Hx; discriminate Hx].
  destruct (thread_step m i c (globals σ) t) as [[g' t']|] eqn:E;
    [|intros Hx; discriminate Hx].
  intros [= <-]. exists c, t, g', t'. repeat split. exact E.
Qed.



(** A sum over the threads, when one of them changes. *)
Lemma sum_insert (f : thread -> nat) (l : list thread) (i : nat)
    (t t' : thread) :
  l !! i = Some t ->
  (list_sum (List.map f (<[i := t']> l)) + f t
   = list_sum (List.map f l) + f t')%nat.
Proof.
  unfold list_sum.
  revert i; induction l as [|x l IH]; intros [|i] Hi; try discriminate Hi.
  - injection Hi as ->. cbn. lia.
  - cbn in Hi. specialize (IH i Hi). simpl. lia.
Qed.


(** A thread that has not ended and does not wait for a lock that is held
    can take a step. *)
Lemma thread_step_enabled (i : nat) (c : Connection) (g : shared)
    (t : thread) :
  finished t = false ->
  (holds_init t = false -> holds_infer t = false ->
   remaining t = 6%nat -> LLAMA_INIT_LOCK g = None) ->
  (remaining t = 4%nat -> INFER_LOCK g = None) ->
  exists g' t', thread_step m i c g t = Some (g', t').
Proof.
  intros Hfin Hinit Hinfer.
  destruct t; try discriminate Hfin; cbn [thread_step]; eauto.
  - rewrite (Hinit eq_refl eq_refl eq_refl). eauto.
  - destruct (LLM g); [eauto|]. destruct (load_ai_model m); eauto.
  - rewrite (Hinfer eq_refl). eauto.
Qed.

Lemma step_thread_enabled (σ : state) (i : nat) (c : Connection)
    (t : thread) (g' : shared) (t' : thread) :
  conns !! i = Some c -> threads σ !! i = Some t ->
  thread_step m i c (globals σ) t = Some (g', t') ->
  exists σ', step m conns σ σ'.
Proof.
  intros Hc Hi Hstep. eexists. exists i. unfold step_thread.
  rewrite Hc, Hi, Hstep. reflexivity.
Qed.

Lemma thread_connection (σ : state) (i : nat) (t : thread) :
  inv m conns σ -> threads σ !! i = Some t ->
  exists c, conns !! i = Some c /\ pending m c t = Handler.handle m c.
Proof.
  intros Hinv Hi.
  destruct (Forall2_lookup_r _ _ _ _ _ (inv_pending _ _ _ Hinv) Hi)
    as [c [Hc Hp]].
  eauto.
Qed.

(** A thread that holds a lock can take a step. *)
Lemma holder_steps (σ : state) (j : nat) (tj : thread) :
  inv m conns σ -> threads σ !! j = Some tj ->
  holds_init tj = true \/ holds_infer tj = true ->
  exists σ', step m conns σ σ'.
Proof.
  intros Hinv Hj Hh.
  destruct (thread_connection σ j tj Hinv Hj) as [cj [Hcj _]].
  destruct (thread_step_enabled j cj (globals σ) tj) as (g' & t' & Hstep).
  - destruct tj; destruct Hh as [Hh|Hh]; try discriminate Hh; reflexivity.
  - intros _ _ Hr. destruct tj; destruct Hh as [Hh|Hh];
      try discriminate Hh; discriminate Hr.
  - intros Hr. destruct tj; destruct Hh as [Hh|Hh];
      try discriminate Hh; discriminate Hr.
  - eapply step_thread_enabled; eauto.
Qed.

(** No deadlock: as long as a request is not finished, some thread can take
    a step. *)
Lemma progress (σ : state) (k : nat) (t : thread) :
  inv m conns σ ->
  threads σ !! k = Some t -> finished t = false ->
  exists σ', step m conns σ σ'.
Proof.
  intros Hinv Hk Hfin.
  destruct (thread_connection σ k t Hinv Hk) as [c [Hc _]].
  destruct (LLAMA_INIT_LOCK (globals σ)) as [j|] eqn:Einit.
  { destruct (inv_init _ _ _ Hinv) as [_ Hheld].
    destruct (Hheld j Einit) as [tj [Hj Hh]].
    eapply holder_steps; eauto. }
  destruct (INFER_LOCK (globals σ)) as [j|] eqn:Einfer.
  { destruct (inv_infer _ _ _ Hinv) as [_ Hheld].
    destruct (Hheld j Einfer) as [tj [Hj Hh]].
    eapply holder_steps; eauto. }
  destruct (thread_step_enabled k c (globals σ) t Hfin) as (g' & t' & Hstep);
    [intros; assumption..|].
  eapply step_thread_enabled; eauto.
Qed.









End Locks.

Section Serialization.
Context `{PyRuntime} (m : Model) (conns : list Connection).


End Serialization.

Lemma run_reachable `{PyRuntime} (m : Model) (conns : list Connection)
    (schedule : list nat) (σ : state) :
  rtc (step m conns) σ (run m conns schedule σ).
Proof.
  revert σ; induction schedule as [|i schedule IH]; intros σ; cbn [run].
  - apply rtc_refl.
  - destruct (step_thread m conns i σ) as [σ'|] eqn:E; [|apply IH].
    eapply rtc_l; [exists i; exact E | apply IH].
Qed.



(** A complete run of the two requests: both are answered, after one call
    of [load_ai_model()]. *)
Lemma two_requests_answered :
  let σ := run (H := Sample.runtime)
             (Sample.model (Sample.answering (py "git add main.py")))
             Sample.two_connections
             [0; 1; 0; 1; 0; 0; 1; 0; 1; 0; 0; 0; 1; 1; 1; 1; 1]%nat
             (init Sample.two_connections) in
  threads σ
  = [Done (Responded (suggestion_reply (py "git add main.py")));
     Done (Responded (suggestion_reply (py "ls -l")))]
  /\ loads (globals σ) = 1%nat.
Proof. split; reflexivity. Qed.


(** The two requests of that run are requests of the protocol. *)
Lemma two_connections_conforming :
  Forall (fun c => exists prefix t v history, conforming c prefix t v history)
         Sample.two_connections.
Proof.
  repeat constructor.
  - exists (py "git"), (py "text"), (py "main.py"), [py "git status"].
    split; [reflexivity|]. split; [reflexivity|].
    split; [exists 64; repeat split; lia|]. split; reflexivity.
  - exists (py "ls"), (py "text"), [], [].
    split; [reflexivity|]. split; [reflexivity|].
    split; [exists 64; repeat split; lia|]. split; reflexivity.
Qed.

(** ** The replies of the service (C4) *)

Section Replies.
Context `{PyRuntime} (m : Model).


End Replies.



(** A method other than GET and POST is answered by the base class with
    [501], not with [404 not_found]. *)
Lemma other_method_not_found_fails :
  ~ other_method_not_found (H := Sample.runtime)
      (Sample.model (Sample.answering (py "ls -a")))
      (Sample.connection
         {| command := py "PUT"; path := py "/complete";
            content_length := None; body_json := Raise ValueError |}).
Proof.
  unfold other_method_not_found. intros Hnf.
  assert (Hg : py "PUT" <> py "GET")
    by (intros Hx; vm_compute in Hx; discriminate Hx).
  assert (Hp : py "PUT" <> py "POST")
    by (intros Hx; vm_compute in Hx; discriminate Hx).
  specialize (Hnf Hg Hp). vm_compute in Hnf. discriminate Hnf.
Qed.

(** Requests that end the handler without a response. A body that parses
    to something other than an object: *)
Lemma non_object_body_raises :
  Handler.handle (H := Sample.runtime)
    (Sample.model (Sample.answering (py "ls -a")))
    (Sample.connection
       {| command := py "POST"; path := py "/complete";
          content_length := Some (Ok 2); body_json := Ok (VList []) |})
  = NoResponse (Exception AttributeError).
Proof. reflexivity. Qed.

(** a known prefix with a clipboard that has no [value]: *)
Lemma clipboard_without_value_raises :
  Handler.handle (H := Sample.runtime)
    (Sample.model (Sample.answering (py "git status")))
    (Sample.connection Sample.no_clipboard_value)
  = NoResponse (Exception KeyError).
Proof. reflexivity. Qed.

(** a [Content-Length] that is not an integer: *)
Lemma bad_content_length_raises :
  Handler.handle (H := Sample.runtime)
    (Sample.model (Sample.answering (py "git status")))
    (Sample.connection
       {| command := py "POST"; path := py "/complete";
          content_length := Some (Raise ValueError);
          body_json := Ok (VDict []) |})
  = NoResponse (Exception ValueError).
Proof. reflexivity. Qed.

(** a [Content-Length] that [rfile.read] does not take: *)
Lemma oversized_length_raises :
  Handler.handle (H := Sample.runtime)
    (Sample.model (Sample.answering (py "git status")))
    (Sample.connection
       {| command := py "POST"; path := py "/complete";
          content_length := Some (Ok (2 ^ 63));
          body_json := Raise ValueError |})
  = NoResponse (Exception OverflowError).
Proof. reflexivity. Qed.

(** a clipboard value with a lone surrogate, which stays out of the prompt,
    which the fallback takes up and which the reply cannot encode: *)
Lemma surrogate_suggestion_raises :
  Handler.handle (H := Sample.runtime) (Sample.model Sample.failing)
    (Sample.connection
       (Sample.post (payload (py "git")
                       (clipboard_context (py "ip") [55296%N]) [])))
  = NoResponse (Exception UnicodeError).
Proof. reflexivity. Qed.

(** and a request of the protocol when the model file is not there. *)
Lemma missing_model_exits :
  Handler.handle (H := Sample.runtime) Sample.no_model
    (Sample.connection
       (Sample.post (payload (py "git")
                       (clipboard_context (py "text") (py "main.py"))
                       [py "git status"])))
  = NoResponse (SystemExit 1).
Proof. reflexivity. Qed.

(** ** [get_llm]: one engine for all the handler threads *)

Section LoadOnce.
Context `{PyRuntime} (m : Model) (conns : list Connection).
Import Loading.

Lemma step_thread_LLM (i : nat) (σ σ' : state) (llm : Llama) :
  step_thread m conns i σ = Some σ' ->
  LLM (globals σ) = Some llm -> LLM (globals σ') = Some llm.
Proof.
  intros Hstep Hllm.
  apply step_thread_inv in Hstep as (c & t & g' & t' & _ & _ & E & ->).
  cbn [globals].
  destruct t; cbn [thread_step] in E;
    repeat match type of E with
    | context [match ?x with _ => _ end] => destruct x eqn:?
    end;
    try discriminate E; injection E as <- <-; cbn [LLM]; congruence.
Qed.

Lemma shares_engine_step (i : nat) (σ σ' : state) :
  shares_engine σ -> step_thread m conns i σ = Some σ' ->
  shares_engine σ'.
Proof.
  intros Hs Hstep j t llm Hj He.
  pose proof Hstep as Hstep'.
  apply step_thread_inv in Hstep as (c & ti & g & t' & _ & Ei & E & ->).
  cbn [threads globals] in *.
  destruct (decide (j = i)) as [->|Hne].
  - rewrite list_lookup_insert_eq in Hj
      by (apply lookup_lt_is_Some; eauto).
    injection Hj as <-.
    destruct ti; cbn [thread_step] in E;
      repeat match type of E with
      | context [match ?x with _ => _ end] => destruct x eqn:?
      end;
      try discriminate E; injection E as <- <-; cbn [LLM engine_of] in *;
      try discriminate He; try congruence.
    injection He as <-. eapply Hs; [exact Ei|reflexivity].
  - rewrite list_lookup_insert_ne in Hj by congruence.
    pose proof (Hs j t llm Hj He) as Hllm.
    apply (step_thread_LLM i σ _ llm Hstep' Hllm).
Qed.

(** A step either leaves [LLM], the count of the loads and the threads
    that [sys.exit] has ended as they are, or it is the call of
    [load_ai_model()] of line 138, made while [LLM] is [None]. *)
Lemma step_thread_loads (i : nat) (σ σ' : state) :
  step_thread m conns i σ = Some σ' ->
  LLM (globals σ') = LLM (globals σ)
  /\ loads (globals σ') = loads (globals σ) /\ exits σ' = exits σ
  \/ LLM (globals σ) = None
     /\ loads (globals σ') = S (loads (globals σ))
     /\ ((exists llm, load_ai_model m = Engine llm
                      /\ LLM (globals σ') = Some llm /\ exits σ' = exits σ)
         \/ (exists f, load_ai_model m = NotLoaded f
                       /\ LLM (globals σ') = None
                       /\ exits σ' = (exits σ + exited (Done (NoResponse f)))%nat)).
Proof.
  intros Hstep.
  apply step_thread_inv in Hstep as (c & t & g' & t' & _ & Hi & E & ->).
  unfold exits. cbn [globals threads].
  pose proof (sum_insert exited (threads σ) i t t' Hi) as Hsum.
  destruct t; cbn [thread_step] in E.
  - (* Received *)
    injection E as <- <-. left. split; [reflexivity|]. split; [reflexivity|].
    assert (Ht' : exited match route c with
                         | Ends o => Done o
                         | Infers prefix clipboard history =>
                           Validated prefix clipboard history
                         end = 0%nat).
    { destruct (route c) as [[r|[e|k]]|] eqn:Er; try reflexivity.
      now apply route_no_exit in Er. }
    rewrite Ht' in Hsum. cbn [exited] in Hsum. lia.
  - injection E as <- <-. left. split; [reflexivity|]. split; [reflexivity|].
    destruct (LLM (globals σ)); cbn [exited] in Hsum; lia.
  - destruct (LLAMA_INIT_LOCK (globals σ)); [discriminate E|].
    injection E as <- <-. left. cbn [exited] in Hsum.
    split; [reflexivity|]. split; [reflexivity|]. lia.
  - (* InInit *)
    destruct (LLM (globals σ)) as [llm|] eqn:El.
    + injection E as <- <-. left. cbn [exited LLM loads] in *.
      split; [reflexivity|]. split; [reflexivity|]. lia.
    + right. split; [reflexivity|].
      destruct (load_ai_model m) as [llm|f] eqn:Eload; injection E as <- <-;
        (split; [reflexivity|]).
      * left. exists llm. cbn [exited LLM] in *.
        split; [reflexivity|]. split; [reflexivity|]. lia.
      * right. exists f. cbn [LLM].
        split; [reflexivity|]. split; [reflexivity|].
        cbn [exited] in *. lia.
  - destruct (INFER_LOCK (globals σ)); [discriminate E|].
    injection E as <- <-. left. cbn [exited] in Hsum.
    split; [reflexivity|]. split; [reflexivity|]. lia.
  - injection E as <- <-. left. cbn [exited] in Hsum.
    split; [reflexivity|]. split; [reflexivity|]. lia.
  - injection E as <- <-. left. split; [reflexivity|]. split; [reflexivity|].
    destruct suggestion; cbn [exited] in Hsum; lia.
  - injection E as <- <-. left. split; [reflexivity|]. split; [reflexivity|].
    assert (Ht' : exited (Done (_json_response 200
                    (VDict [(py "suggestion", VStr suggestion)]))) = 0%nat).
    { destruct (_json_response 200 _) as [r|[e|k]] eqn:Er; try reflexivity.
      now apply json_response_no_exit in Er. }
    rewrite Ht' in Hsum. cbn [exited] in Hsum. lia.
  - discriminate E.
Qed.

Lemma load_inv_init : load_inv m (init conns).
Proof.
  split; [intros llm Hx; discriminate Hx|]. split; [reflexivity|].
  intros _. split; [reflexivity|]. unfold exits, init. cbn [globals loads threads].
  induction conns as [|c l IH]; [reflexivity|].
  cbn [fmap list_fmap List.map] in *. unfold list_sum in *. cbn [foldr exited].
  exact IH.
Qed.

Lemma load_inv_step (σ σ' : state) :
  load_inv m σ -> step m conns σ σ' -> load_inv m σ'.
Proof.
  intros (Hset & Hunset & Hmissing) [i Hstep].
  destruct (step_thread_loads i σ σ' Hstep)
    as [(Hl & Hn & He)|(Hnone & Hn & [(llm & Hload & Hl & He)
                                     |(f & Hload & Hl & He)])].
  - unfold load_inv. rewrite Hl, Hn, He.
    exact (conj Hset (conj Hunset Hmissing)).
  - split; [|split].
    + intros llm' Hllm'. rewrite Hl in Hllm'. injection Hllm' as <-.
      split; [exact Hload|]. rewrite Hn, (Hunset llm Hload Hnone).
      reflexivity.
    + intros llm' _ Hx. rewrite Hl in Hx. discriminate Hx.
    + intros Hm. unfold load_ai_model in Hload. rewrite Hm in Hload.
      discriminate Hload.
  - split; [|split].
    + intros llm' Hllm'. rewrite Hl in Hllm'. discriminate Hllm'.
    + intros llm' Hload'. rewrite Hload in Hload'. discriminate Hload'.
    + intros Hm. split; [exact Hl|].
      destruct (Hmissing Hm) as [_ Hcount].
      unfold load_ai_model in Hload. rewrite Hm in Hload.
      injection Hload as <-. rewrite Hn, He, Hcount. cbn [exited]. lia.
Qed.

(** X5. [get_llm] (lines 133-139) on any number of concurrent requests,
    in every state the server reaches, whatever the order in which the
    handler threads run. Every thread that has got an engine from
    [get_llm()] has got the one that the global [LLM] holds, so that all
    the inference calls go to one engine; once [LLM] holds an engine it is
    the one that [load_ai_model()] gives, and [load_ai_model()] has been
    called once. When the model loads, [load_ai_model()] is called at most
    once, and not at all as long as [LLM] is [None]. When the model file is
    not there, [LLM] stays [None] and every request that comes to
    [get_llm()] calls [load_ai_model()] again: there are as many calls as
    threads that [sys.exit] has ended. *)
Theorem model_loaded_once (σ : state) :
  rtc (step m conns) (init conns) σ ->
  (forall i t llm,
     threads σ !! i = Some t -> engine_of t = Some llm ->
     LLM (globals σ) = Some llm)
  /\ (forall llm, LLM (globals σ) = Some llm ->
      load_ai_model m = Engine llm /\ loads (globals σ) = 1%nat)
  /\ (forall llm, load_ai_model m = Engine llm ->
      (loads (globals σ) <= 1)%nat
      /\ (LLM (globals σ) = None -> loads (globals σ) = 0%nat))
  /\ (model_path_exists m = false ->
      LLM (globals σ) = None /\ loads (globals σ) = exits σ).
Proof.
  intros Hrtc.
  assert (Hinv : shares_engine σ /\ load_inv m σ).
  { revert σ Hrtc. apply rtc_ind_r.
    - split; [|apply load_inv_init].
      intros i t llm Hi He. apply init_lookup in Hi. subst t.
      discriminate He.
    - intros σ σ' _ Hstep [Hs Hl]. split; [|eapply load_inv_step; eauto].
      destruct Hstep as [i Hstep]. eapply shares_engine_step; eauto. }
  destruct Hinv as [Hs (Hset & Hunset & Hmissing)].
  split; [exact Hs|]. split; [exact Hset|]. split; [|exact Hmissing].
  intros llm Hload. split; [|now apply (Hunset llm)].
  destruct (LLM (globals σ)) as [llm'|] eqn:E.
  - destruct (Hset llm' eq_refl) as [_ ->]. lia.
  - rewrite (Hunset llm Hload eq_refl). lia.
Qed.

End LoadOnce.

(** The hypothesis of [model_loaded_once] holds at the end of the run of
    two requests: one call of [load_ai_model()] when the model loads, and
    two when the model file is not there. *)
Lemma model_loaded_once_witness :
  loads (globals (run (H := Sample.runtime)
           (Sample.model (Sample.answering (py "git add main.py")))
           Sample.two_connections
           [0; 1; 0; 1; 0; 0; 1; 0; 1; 0; 0; 0; 1; 1; 1; 1; 1]%nat
           (init Sample.two_connections))) = 1%nat
  /\ loads (globals (run (H := Sample.runtime) Sample.no_model
              Sample.two_connections [0; 1; 0; 1; 0; 1; 0; 1; 1; 1]%nat
              (init Sample.two_connections))) = 2%nat.
Proof.
  split.
  - destruct (model_loaded_once (H := Sample.runtime) _ _ _
                (run_reachable (H := Sample.runtime)
                   (Sample.model (Sample.answering (py "git add main.py")))
                   Sample.two_connections
                   [0; 1; 0; 1; 0; 0; 1; 0; 1; 0; 0; 0; 1; 1; 1; 1; 1]%nat
                   (init Sample.two_connections)))
      as (_ & Hset & _).
    exact (proj2 (Hset (Sample.answering (py "git add main.py")) eq_refl)).
  - destruct (model_loaded_once (H := Sample.runtime) _ _ _
                (run_reachable (H := Sample.runtime) Sample.no_model
                   Sample.two_connections [0; 1; 0; 1; 0; 1; 0; 1; 1; 1]%nat
                   (init Sample.two_connections)))
      as (_ & _ & _ & Hmissing).
    exact (eq_trans (proj2 (Hmissing eq_refl)) eq_refl).
Defined.

End Service.

(** ** The lifecycle manager (C5, C6, C7) *)

Import Lifecycle Managed.

Section LifecycleFacts.
Context {W : Type} `{OS W}.

Lemma terminate_pids_log (pids : list Z) (sig : signal) (p : proc W) :
  log (_terminate_pids pids sig p) = log p ++ kills sig pids.
Proof.
  unfold _terminate_pids. revert p.
  induction pids as [|pid pids IH]; intros p; cbn.
  - now rewrite app_nil_r.
  - rewrite IH. cbn. now rewrite <- app_assoc.
Qed.

(** What the polling loop does: it sleeps [n] times, and its answer tells
    whether the last observation found every candidate dead and the port
    silent. *)
Lemma wait_loop_spec (fuel : nat) (host : pystr) (port : Z) (pids : list Z)
    (deadline : Z) (p p' : proc W) (ok : bool) :
  wait_loop fuel host port pids deadline p = Some (ok, p') ->
  exists n,
    log p' = log p ++ repeat Sleep n
    /\ world p' = Nat.iter n time_sleep (world p)
    /\ (n < fuel)%nat
    /\ (ok = true ->
        existsb (_pid_running (world p')) pids = false
        /\ check_server_alive (world p') host port = false)
    /\ (ok = false -> deadline <= time_time (world p'))
    /\ (sleep_advances ->
        (0 < n)%nat -> time_time (world p) + 200 * (Z.of_nat n - 1) < deadline).
Proof.
  revert p. induction fuel as [|fuel IH]; intros p; [intros Hx; discriminate Hx|].
  cbn [wait_loop].
  destruct (time_time (world p) <? deadline) eqn:Et.
  - destruct (negb (existsb (_pid_running (world p)) pids)
              && negb (check_server_alive (world p) host port)) eqn:Eq.
    + intros [= <- <-]. exists 0%nat. cbn. rewrite app_nil_r.
      apply andb_true_iff in Eq as [Ea Eb].
      apply negb_true_iff in Ea, Eb.
      repeat split; auto; try lia; intros Hx; discriminate Hx.
    + intros Hrec. destruct (IH _ Hrec) as (n & Hlog & Hw & Hn & Hok & Hko & Hclock).
      exists (S n). cbn [do_sleep log world] in *.
      rewrite Hlog, <- app_assoc. cbn [repeat app].
      split; [reflexivity|].
      split; [now rewrite Hw, Nat.iter_succ_r|].
      split; [lia|]. split; [exact Hok|]. split; [exact Hko|].
      intros Hadv _. apply Z.ltb_lt in Et.
      destruct n as [|n]; [lia|].
      specialize (Hclock Hadv ltac:(lia)). specialize (Hadv (world p)). lia.
  - intros [= <- <-]. exists 0%nat. cbn. rewrite app_nil_r.
    apply Z.ltb_ge in Et.
    repeat split; auto; try lia; intros Hx; discriminate Hx.
Qed.

(** The polling loop comes to an end by itself once the clock advances. *)
Lemma wait_loop_total (fuel : nat) (host : pystr) (port : Z) (pids : list Z)
    (deadline : Z) (p : proc W) :
  sleep_advances ->
  deadline - time_time (world p) <= 200 * Z.of_nat fuel ->
  exists r, wait_loop (S fuel) host port pids deadline p = Some r.
Proof.
  intros Hadv. revert p. induction fuel as [|fuel IH]; intros p Hd.
  - cbn [wait_loop].
    destruct (time_time (world p) <? deadline) eqn:Et;
      [apply Z.ltb_lt in Et; lia|]. eauto.
  - remember (S fuel) as k. cbn [wait_loop].
    destruct (time_time (world p) <? deadline); [|eauto].
    destruct (negb _ && negb _); [eauto|].
    subst k. apply IH. cbn [do_sleep world].
    specialize (Hadv (world p)). lia.
Qed.

End LifecycleFacts.

Section Stop.
Context {W : Type} `{OS W}.

Lemma add_pid_spec (pid : option Z) (s : gset Z) (x : Z) :
  x ∈ add_pid pid s <-> x ∈ s \/ (pid = Some x /\ x <> 0).
Proof.
  unfold add_pid. destruct pid as [p|]; [|naive_solver].
  destruct (p =? 0) eqn:E.
  - apply Z.eqb_eq in E. naive_solver.
  - apply Z.eqb_neq in E. set_solver.
Qed.

Lemma pid_running_nonzero (w : W) (pid : Z) :
  _pid_running w pid = true -> pid <> 0.
Proof.
  unfold _pid_running. destruct (pid =? 0) eqn:E; [intros Hx; discriminate Hx|].
  now apply Z.eqb_neq in E.
Qed.

(** The candidates of [stop] are the pids that one of the four strategies
    finds and that are alive; none is listed twice. *)
Lemma collect_pids_spec (w : W) (host : pystr) (port : Z) (pid : Z) :
  In pid (_collect_pids w host port)
  <-> _pid_running w pid = true /\ discovered w port pid.
Proof.
  unfold _collect_pids, discovered. cbn zeta.
  rewrite filter_In, <- list_elem_of_In, elem_of_elements.
  rewrite !elem_of_union, !elem_of_list_to_set, !add_pid_spec, !list_elem_of_In.
  split.
  - intros [Hin Hrun]. split; [exact Hrun|]. set_solver.
  - intros [Hrun Hd]. split; [|exact Hrun].
    pose proof (pid_running_nonzero w pid Hrun). set_solver.
Qed.

Lemma collect_pids_NoDup (w : W) (host : pystr) (port : Z) :
  List.NoDup (_collect_pids w host port).
Proof.
  unfold _collect_pids. cbn zeta. apply List.NoDup_filter.
  apply NoDup_ListNoDup, NoDup_elements.
Qed.

(** The signals and the polls of [stop]. *)
Lemma stop_signals_spec (fuel : nat) (host : pystr) (port : Z)
    (pids : list Z) (p p' : proc W) :
  stop_signals fuel host port pids p = Some p' ->
  exists (n1 n2 : nat) (escalated : bool),
    log p'
    = log p
      ++ match pids with
         | [] => []
         | _ :: _ =>
           kills SIGTERM pids ++ repeat Sleep n1
           ++ (if escalated then kills SIGKILL pids ++ repeat Sleep n2
               else [])
         end
    /\ (sleep_advances -> (n1 <= 15)%nat /\ (n2 <= 10)%nat)
    /\ (pids <> [] -> escalated = false ->
        existsb (_pid_running (world p')) pids = false
        /\ check_server_alive (world p') host port = false).
Proof.
  unfold stop_signals. destruct pids as [|pid pids].
  { intros [= <-]. exists 0%nat, 0%nat, false. rewrite app_nil_r.
    repeat split; try lia. congruence. }
  remember (pid :: pids) as l eqn:El.
  unfold _wait_stopped.
  destruct (wait_loop fuel host port l _ (_terminate_pids l SIGTERM p))
    as [[ok1 p1]|] eqn:E1; [|intros Hx; discriminate Hx].
  cbn [mbind option_bind fst snd].
  apply wait_loop_spec in E1 as (n1 & Hlog1 & _ & _ & Hok1 & _ & Hb1).
  rewrite terminate_pids_log in Hlog1.
  assert (Hn1 : sleep_advances -> (n1 <= 15)%nat).
  { intros Hadv. destruct n1 as [|n1]; [lia|].
    specialize (Hb1 Hadv ltac:(lia)). lia. }
  destruct ok1.
  - intros [= <-]. exists n1, 0%nat, false. subst l.
    rewrite Hlog1, <- !app_assoc, app_nil_r.
    split; [reflexivity|]. split; [intros Hadv; split; [auto|lia]|].
    intros _ _. now apply Hok1.
  - destruct (wait_loop fuel host port l _ (_terminate_pids l SIGKILL p1))
      as [[ok2 p2]|] eqn:E2; [|intros Hx; discriminate Hx].
    cbn [mbind option_bind fst snd]. intros [= <-].
    apply wait_loop_spec in E2 as (n2 & Hlog2 & _ & _ & _ & _ & Hb2).
    rewrite terminate_pids_log, Hlog1 in Hlog2.
    exists n1, n2, true. subst l. rewrite Hlog2, <- !app_assoc.
    split; [reflexivity|]. split; [|intros _ Hx; discriminate Hx].
    intros Hadv. split; [auto|].
    destruct n2 as [|n2]; [lia|]. specialize (Hb2 Hadv ltac:(lia)). lia.
Qed.

Lemma wait_stopped_total (fuel : nat) (host : pystr) (port : Z)
    (pids : list Z) (timeout : Z) (p : proc W) :
  sleep_advances -> timeout <= 200 * Z.of_nat fuel ->
  exists r, _wait_stopped (S fuel) host port pids timeout p = Some r.
Proof.
  intros Hadv Hfuel. unfold _wait_stopped. apply wait_loop_total; [exact Hadv|].
  lia.
Qed.

Lemma stop_signals_total (fuel : nat) (host : pystr) (port : Z)
    (pids : list Z) (p : proc W) :
  sleep_advances -> (16 <= fuel)%nat ->
  exists p', stop_signals fuel host port pids p = Some p'.
Proof.
  intros Hadv Hfuel. unfold stop_signals. destruct pids as [|pid pids]; [eauto|].
  destruct fuel as [|fuel]; [lia|].
  destruct (wait_stopped_total fuel host port (pid :: pids) 3000
              (_terminate_pids (pid :: pids) SIGTERM p) Hadv) as [[ok1 p1] ->];
    [lia|].
  cbn [mbind option_bind fst snd]. destruct ok1; [eauto|].
  destruct (wait_stopped_total fuel host port (pid :: pids) 2000
              (_terminate_pids (pid :: pids) SIGKILL p1) Hadv) as [[ok2 p2] ->];
    [lia|].
  cbn [mbind option_bind fst snd]. eauto.
Qed.

(** [stop] written out: the signals, then the removal of the records, then
    the report on the world that results. *)
Lemma stop_inv (fuel : nat) (w : W) (host : pystr) (port : Z)
    (o : outcome W) :
  stop fuel w host port = Some o ->
  exists p,
    stop_signals fuel host port (_collect_pids w host port)
                 {| world := w; log := [] |} = Some p
    /\ final o = do_remove_pid p
    /\ (out o, exit_code o)
       = if check_server_alive (world (final o)) host port
            || existsb (_pid_running (world (final o)))
                       (_collect_pids w host port)
         then (STOPPED_WITH_ISSUE, 1) else (STOPPED, 0).
Proof.
  unfold stop. cbn zeta.
  destruct (stop_signals fuel host port _ _) as [p|];
    cbn [mbind option_bind]; [|intros Hx; discriminate Hx].
  intros Hstop. exists p. split; [reflexivity|].
  destruct (check_server_alive (world (do_remove_pid p)) host port
            || existsb _ _) eqn:E;
    injection Hstop as <-; cbn [final out exit_code]; rewrite E; auto.
Qed.

End Stop.

Section StopClaim.
Context {W : Type} `{OS W}.

Lemma existsb_false_In (f : Z -> bool) (l : list Z) :
  existsb f l = false <-> forall x, In x l -> f x = false.
Proof.
  induction l as [|y l IH]; cbn.
  - split; [intros _ x []|reflexivity].
  - rewrite orb_false_iff, IH. split.
    + intros [Hy Hl] x [<-|Hx]; auto.
    + intros Hall. split; [apply Hall; now left|].
      intros x Hx. apply Hall. now right.
Qed.

(** A second [stop] in the world that a successful [stop] has left, when
    nothing has been started in the meantime. *)
Lemma stop_again (fuel : nat) (w : W) (host : pystr) (port : Z)
    (pids : list Z) :
  records_apart host port ->
  check_server_alive w host port = false ->
  existsb (_pid_running w) pids = false ->
  (forall pid, In pid (_collect_pids w host port) -> In pid pids) ->
  exists o, stop fuel w host port = Some o
            /\ out o = STOPPED /\ exit_code o = 0
            /\ log (final o) = [RemoveRecords].
Proof.
  intros Hrec Hhealth Hdead Hsame.
  assert (Hnone : _collect_pids w host port = []).
  { destruct (_collect_pids w host port) as [|pid l] eqn:E; [reflexivity|].
    assert (Hin : In pid (_collect_pids w host port)) by (rewrite E; now left).
    pose proof (proj1 (collect_pids_spec w host port pid) Hin) as [Hrun _].
    pose proof (proj1 (existsb_false_In _ _) Hdead pid (Hsame pid (or_introl eq_refl))).
    congruence. }
  unfold stop. cbn zeta. rewrite Hnone. cbn [stop_signals mbind option_bind].
  assert (Hh : check_server_alive (world (do_remove_pid {| world := w; log := [] |}))
                 host port = false).
  { cbn [do_remove_pid world]. unfold check_server_alive in *.
    now rewrite Hrec. }
  rewrite Hh. cbn [existsb orb]. eexists. repeat split.
Qed.

(** C5, amended. [stop] takes as candidates the pids that one of the four
    discovery strategies finds (pid record, meta record, listeners of the
    port, process table) and that are alive, each once. It sends them
    SIGTERM and polls, at most 15 times; if a candidate is still alive or
    the port still answers [/health] when the 3 s are over, it sends them
    SIGKILL and polls again, at most 10 times. In every execution it then
    removes the records, once. It prints [STOPPED] and exits with 0 if and
    only if, after that, no candidate is alive and the port does not answer
    [/health]; otherwise it prints [STOPPED_WITH_ISSUE] and exits with 1.
    Once the clock advances during the sleeps, [stop] always comes to its
    end. A second [stop] right after one that printed [STOPPED] prints
    [STOPPED] again, provided nothing has been started in the meantime. *)
Theorem stop_behaviour (fuel : nat) (w : W) (host : pystr) (port : Z) :
  let pids := _collect_pids w host port in
  (List.NoDup pids
   /\ forall pid, In pid pids
                  <-> _pid_running w pid = true /\ discovered w port pid)
  /\ (sleep_advances -> (16 <= fuel)%nat ->
      exists o, stop fuel w host port = Some o)
  /\ (forall o, stop fuel w host port = Some o ->
      let w' := world (final o) in
      (exists (n1 n2 : nat) (escalated : bool),
         log (final o)
         = match pids with
           | [] => []
           | _ :: _ =>
             kills SIGTERM pids ++ repeat Sleep n1
             ++ (if escalated then kills SIGKILL pids ++ repeat Sleep n2
                 else [])
           end ++ [RemoveRecords]
         /\ (sleep_advances -> (n1 <= 15)%nat /\ (n2 <= 10)%nat)
         /\ (pids <> [] -> escalated = false ->
             exists w0, w' = _remove_pid w0
                        /\ existsb (_pid_running w0) pids = false
                        /\ check_server_alive w0 host port = false))
      /\ (out o = STOPPED /\ exit_code o = 0
          <-> check_server_alive w' host port = false
              /\ forall pid, In pid pids -> _pid_running w' pid = false)
      /\ (out o = STOPPED /\ exit_code o = 0
          \/ out o = STOPPED_WITH_ISSUE /\ exit_code o = 1)
      /\ (out o = STOPPED -> records_apart host port ->
          (forall pid, In pid (_collect_pids w' host port) -> In pid pids) ->
          forall fuel', exists o',
            stop fuel' w' host port = Some o'
            /\ out o' = STOPPED /\ exit_code o' = 0
            /\ log (final o') = [RemoveRecords])).
Proof.
  cbn zeta. split; [|split].
  - split; [apply collect_pids_NoDup|]. intros pid. apply collect_pids_spec.
  - intros Hadv Hfuel.
    destruct (stop_signals_total fuel host port (_collect_pids w host port)
                {| world := w; log := [] |} Hadv Hfuel) as [p Hp].
    unfold stop. cbn zeta. rewrite Hp. cbn [mbind option_bind].
    destruct (_ || _); eauto.
  - intros o Hstop.
    apply stop_inv in Hstop as (p & Hsig & Hfinal & Hreport).
    remember (_collect_pids w host port) as pids eqn:Hpids.
    remember (world (final o)) as w' eqn:Hw'.
    apply stop_signals_spec in Hsig
      as (n1 & n2 & escalated & Hlog & Hbound & Hquiet).
    cbn [log app] in Hlog.
    assert (Hout : check_server_alive w' host port
                   || existsb (_pid_running w') pids = false
                   <-> check_server_alive w' host port = false
                       /\ forall pid, In pid pids -> _pid_running w' pid = false).
    { rewrite orb_false_iff, existsb_false_In. reflexivity. }
    split; [|split; [|split]].
    + exists n1, n2, escalated. split; [|split; [exact Hbound|]].
      * rewrite Hfinal. cbn [do_remove_pid log]. now rewrite Hlog.
      * intros Hne Hesc. exists (world p). split; [|now apply Hquiet].
        subst w'. now rewrite Hfinal.
    + rewrite <- Hout.
      destruct (check_server_alive w' host port || existsb _ pids);
        injection Hreport as -> ->; split; try intros [? ?]; try intros ?;
        try discriminate; auto.
    + destruct (check_server_alive w' host port || existsb _ pids);
        injection Hreport as -> ->; auto.
    + intros Hstopped Hrec Hsame fuel'.
      destruct (check_server_alive w' host port || existsb (_pid_running w') pids)
        eqn:E.
      { injection Hreport as Ho _. congruence. }
      apply orb_false_iff in E as [Eh Ed].
      now apply (stop_again fuel' w' host port pids).
Qed.

End StopClaim.

(** The hypotheses of [stop_behaviour] hold for the machine on which the
    service runs as pid 4242: [stop] signals it, polls three times, removes
    the records and prints [STOPPED]; a second [stop] finds no candidate and
    prints [STOPPED] again. *)
Lemma stop_behaviour_witness :
  exists o o',
    stop 16 SampleOS.running (py "127.0.0.1") 8765 = Some o
    /\ out o = STOPPED /\ exit_code o = 0
    /\ log (final o)
       = [Kill 4242 SIGTERM; Sleep; Sleep; Sleep; RemoveRecords]
    /\ stop 16 (world (final o)) (py "127.0.0.1") 8765 = Some o'
    /\ out o' = STOPPED /\ exit_code o' = 0
    /\ log (final o') = [RemoveRecords].
Proof.
  destruct (stop_behaviour 16 SampleOS.running (py "127.0.0.1") 8765)
    as (_ & Htotal & Hstop).
  destruct Htotal as [o Ho]; [intros w; cbn; lia | lia |].
  destruct (Hstop o Ho) as (_ & _ & _ & Hagain).
  assert (Hlog : out o = STOPPED /\ exit_code o = 0
                 /\ log (final o)
                    = [Kill 4242 SIGTERM; Sleep; Sleep; Sleep; RemoveRecords]
                 /\ SampleOS.servers (world (final o)) = []).
  { vm_compute in Ho. injection Ho as <-. repeat split. }
  destruct Hlog as (Hout & Hcode & Hlog & Hnone).
  destruct (Hagain Hout) with (fuel' := 16%nat) as (o' & Ho' & Hres).
  - intros w. cbn. reflexivity.
  - intros pid Hin. apply collect_pids_spec in Hin as [Hrun _].
    unfold _pid_running in Hrun. cbn in Hrun. rewrite Hnone in Hrun.
    destruct (pid =? 0); discriminate Hrun.
  - exists o, o'. tauto.
Defined.

(** C5 as stated fails: when the service runs under another user, its pid
    cannot be probed or signalled, and [stop] prints [STOPPED_WITH_ISSUE],
    the first time and the second. *)
Lemma stop_twice_stopped_fails :
  ~ stop_twice_stopped (H := SampleOS.other_user_service)
      16 tt (py "127.0.0.1") 8765.
Proof.
  unfold stop_twice_stopped. intros Htwice.
  specialize (Htwice _ _ eq_refl eq_refl) as [Hfirst _].
  vm_compute in Hfirst. discriminate Hfirst.
Qed.

(** A server that does not exit on SIGTERM is sent SIGKILL after 15 polls. *)
Lemma stop_escalates :
  option_map (fun o => (out o, exit_code o, log (final o)))
             (stop 16 SampleOS.stubborn (py "127.0.0.1") 8765)
  = Some (STOPPED, 0,
          [Kill 4242 SIGTERM] ++ repeat Sleep 15
          ++ [Kill 4242 SIGKILL; RemoveRecords]).
Proof. reflexivity. Qed.

(** Stopping twice on the machine where the service runs. *)
Lemma stop_twice_running :
  option_map (fun o => (out o, exit_code o, log (final o)))
    (o ← stop 16 SampleOS.running (py "127.0.0.1") 8765;
     stop 16 (world (final o)) (py "127.0.0.1") 8765)
  = Some (STOPPED, 0, [RemoveRecords]).
Proof. reflexivity. Qed.

Section StartClaim.
Context {W : Type} `{OS W}.

(** [check_server_alive] accepts the document that [do_GET] answers on
    [/health]. *)
Lemma health_document_accepted (w : W) (host : pystr) (port : Z)
    (doc : value) :
  health_ok = JsonResponse 200 doc ->
  urlopen_health w host port = Ok doc ->
  check_server_alive w host port = true.
Proof.
  intros [= <-] Hdoc. unfold check_server_alive. rewrite Hdoc. reflexivity.
Qed.

(** What [check_server_alive] returns, in terms of what the occupant of
    the port answers. *)
Lemma check_server_alive_iff (w : W) (host : pystr) (port : Z) :
  check_server_alive w host port = true <-> occupant_is_service w host port.
Proof.
  unfold check_server_alive, occupant_is_service.
  destruct (urlopen_health w host port) as [doc|e]; cbn [mbind result_bind].
  - destruct doc as [| | | | |l|d];
      try (split; [intros Hx; discriminate Hx
                  |intros [d' [Hx _]]; discriminate Hx]).
    cbn [get mbind result_bind].
    destruct (lookup d (py "status")) as [status|] eqn:E.
    + split.
      * intros Hs. exists d. split; [reflexivity|]. rewrite E. f_equal.
        destruct status; try discriminate Hs.
        cbn [eq_str] in Hs. apply str_eqb_eq in Hs. now subst.
      * intros [d' [[= <-] Hl]]. rewrite E in Hl. injection Hl as ->.
        reflexivity.
    + split; [intros Hx; discriminate Hx|].
      intros [d' [[= <-] Hl]]. rewrite E in Hl. discriminate Hl.
  - split; [intros Hx; discriminate Hx|intros [d [Hx _]]; discriminate Hx].
Qed.

(** C6. When binding the configured address fails with the [errno] of an
    address in use (48 or 98), the start probes [/health] there. If the
    occupant answers as this service does - a JSON object whose [status] is
    [ok], which is what [do_GET] writes - the process prints that the
    service already runs and exits with 0. If the occupant answers anything
    else, or nothing ([urlopen] raises), the process prints the error of a
    port held by another program and exits with 1. The exit code is 0 only
    in the first case. In both cases the process has sent no signal and has
    left the world as it was: the occupant is not evicted. *)
Theorem start_on_occupied_port (w : W) (host : pystr) (port : Z)
    (errno : option Z) :
  bind w host port = Some errno ->
  errno = Some 48 \/ errno = Some 98 ->
  (occupant_is_service w host port ->
   start w host port
   = Exited {| out := INFO_already_running host port; exit_code := 0;
               final := {| world := w; log := [] |} |})
  /\ (~ occupant_is_service w host port ->
      start w host port
      = Exited {| out := ERROR_port_in_use host port; exit_code := 1;
                  final := {| world := w; log := [] |} |})
  /\ (forall e, urlopen_health w host port = Raise e ->
      start w host port
      = Exited {| out := ERROR_port_in_use host port; exit_code := 1;
                  final := {| world := w; log := [] |} |})
  /\ (forall doc, urlopen_health w host port = Ok doc ->
      get doc (py "status") VNone <> Ok (VStr (py "ok")) ->
      start w host port
      = Exited {| out := ERROR_port_in_use host port; exit_code := 1;
                  final := {| world := w; log := [] |} |})
  /\ (forall doc, health_ok = JsonResponse 200 doc ->
      urlopen_health w host port = Ok doc ->
      occupant_is_service w host port)
  /\ (forall o, start w host port = Exited o ->
      (exit_code o = 0 <-> occupant_is_service w host port)
      /\ final o = {| world := w; log := [] |}).
Proof.
  intros Hbind Herrno.
  assert (Hin : address_in_use errno = true)
    by (destruct Herrno as [-> | ->]; reflexivity).
  pose proof (check_server_alive_iff w host port) as Hiff.
  assert (Hno : ~ occupant_is_service w host port ->
                check_server_alive w host port = false).
  { intros Hn. destruct (check_server_alive w host port); [|reflexivity].
    exfalso. apply Hn, Hiff. reflexivity. }
  unfold start. rewrite Hbind, Hin. cbn zeta.
  split; [|split; [|split; [|split; [|split]]]].
  - intros Hocc%Hiff. now rewrite Hocc.
  - intros Hn%Hno. now rewrite Hn.
  - intros e He. rewrite Hno; [reflexivity|].
    intros [d [Hd _]]. rewrite He in Hd. discriminate Hd.
  - intros doc Hdoc Hst. rewrite Hno; [reflexivity|].
    intros [d [Hd Hl]]. rewrite Hdoc in Hd. injection Hd as ->.
    apply Hst. cbn [get]. now rewrite Hl.
  - intros doc [= <-] Hdoc. eexists. split; [exact Hdoc|reflexivity].
  - intros o. destruct (check_server_alive w host port) eqn:E;
      intros [= <-]; cbn [exit_code final]; (split; [|reflexivity]).
    + split; [intros _; now apply Hiff|reflexivity].
    + split; [intros Hx; discriminate Hx|].
      intros Hocc%Hiff. discriminate Hocc.
Qed.

(** Any other failure to bind is raised again, and a free port is bound. *)
Lemma start_other_cases (w : W) (host : pystr) (port : Z) :
  (bind w host port = None -> start w host port = Serving)
  /\ (forall errno, bind w host port = Some errno ->
      address_in_use errno = false -> start w host port = Reraised errno).
Proof.
  unfold start. split.
  - now intros ->.
  - now intros errno -> ->.
Qed.

End StartClaim.

(** The hypotheses of [start_on_occupied_port] hold on the machine where
    the service already runs, where a second start is a no-op that exits
    with 0, and on the machine where another program holds the port, where
    the start exits with 1. *)
Lemma start_on_occupied_port_witness :
  start SampleOS.running (py "127.0.0.1") 8765
  = Exited {| out := INFO_already_running (py "127.0.0.1") 8765;
              exit_code := 0;
              final := {| world := SampleOS.running; log := [] |} |}
  /\ start (H := SampleOS.foreign_listener) tt (py "127.0.0.1") 8765
     = Exited {| out := ERROR_port_in_use (py "127.0.0.1") 8765;
                 exit_code := 1;
                 final := {| world := tt; log := [] |} |}.
Proof.
  assert (Hbind : bind SampleOS.running (py "127.0.0.1") 8765
                  = Some (Some 98)) by reflexivity.
  assert (Hbind' : bind (OS := SampleOS.foreign_listener) tt
                     (py "127.0.0.1") 8765 = Some (Some 98)) by reflexivity.
  split.
  - apply (proj1 (start_on_occupied_port SampleOS.running (py "127.0.0.1")
                    8765 (Some 98) Hbind (or_intror eq_refl))).
    eexists. split; reflexivity.
  - apply (proj1 (proj2 (start_on_occupied_port
                           (H := SampleOS.foreign_listener) tt
                           (py "127.0.0.1") 8765 (Some 98) Hbind'
                           (or_intror eq_refl)))).
    intros [d [Hd _]]. discriminate Hd.
Defined.

(** A port held by a program that does not answer [/health]: the start
    fails with exit code 1. *)
Lemma start_foreign_listener :
  start (H := SampleOS.foreign_listener) tt (py "127.0.0.1") 8765
  = Exited {| out := ERROR_port_in_use (py "127.0.0.1") 8765;
              exit_code := 1;
              final := {| world := tt; log := [] |} |}.
Proof. reflexivity. Qed.

Section StatusClaim.
Context {W : Type} `{OS W}.

(** C7, amended. [status] decides in this order. If the pid of the pid
    record is alive, it prints [RUNNING] with that pid and the configured
    address. Otherwise, if [/health] answers, it prints [RUNNING] with the
    pid of the first listener of the port, or else with the first pid of the
    process table, or else with [?]. Otherwise, if the pid of the meta
    record is alive, it prints [RUNNING] with that pid and the address of
    the meta record. Otherwise, if the process table shows a server, it
    prints [RUNNING] with its first pid. In all these cases it exits with
    0. Otherwise it prints [STOPPED] and exits with 1. The listeners of the
    port are looked at only once [/health] has answered. *)
Theorem status_decision (w : W) (host : pystr) (port : Z) :
  (forall pid, _read_pid w = Some pid -> _pid_running w pid = true ->
   status w host port = (RUNNING (Some pid) host port, 0))
  /\ (pid_file_alive w = false -> check_server_alive w host port = true ->
      status w host port = (RUNNING (health_pid w port) host port, 0))
  /\ (pid_file_alive w = false -> check_server_alive w host port = false ->
      forall pid, meta_pid (_read_meta w) = Some pid ->
      _pid_running w pid = true ->
      status w host port
      = (RUNNING (Some pid) (default host (meta_host (_read_meta w)))
                 (default port (meta_port (_read_meta w))), 0))
  /\ (pid_file_alive w = false -> check_server_alive w host port = false ->
      meta_alive w = false ->
      forall pid rest, find_server_pids w = pid :: rest ->
      status w host port = (RUNNING (Some pid) host port, 0))
  /\ (pid_file_alive w = false -> check_server_alive w host port = false ->
      meta_alive w = false -> find_server_pids w = [] ->
      status w host port = (STOPPED, 1))
  /\ (snd (status w host port) = 0
      <-> pid_file_alive w = true \/ check_server_alive w host port = true
          \/ meta_alive w = true \/ find_server_pids w <> []).
Proof.
  unfold status, probe_pid_file, probe_health, probe_meta,
    probe_process_table, pid_file_alive, meta_alive, health_pid.
  repeat split.
  - intros pid -> ->. reflexivity.
  - intros Hpid ->. destruct (_read_pid w) as [pid|]; [rewrite Hpid|];
      destruct (first_listener w port), (find_server_pids w); reflexivity.
  - intros Hpid -> pid -> ->.
    destruct (_read_pid w) as [pid'|]; [rewrite Hpid|]; reflexivity.
  - intros Hpid -> Hmeta pid rest ->.
    destruct (_read_pid w) as [pid'|]; [rewrite Hpid|];
      (destruct (meta_pid (_read_meta w)) as [mpid|]; [rewrite Hmeta|]);
      reflexivity.
  - intros Hpid -> Hmeta ->.
    destruct (_read_pid w) as [pid'|]; [rewrite Hpid|];
      (destruct (meta_pid (_read_meta w)) as [mpid|]; [rewrite Hmeta|]);
      reflexivity.
  - destruct (_read_pid w) as [pid'|];
      [destruct (_pid_running w pid'); [intros _; now left|]|];
      (destruct (check_server_alive w host port);
       [intros _; right; now left|]);
      (destruct (meta_pid (_read_meta w)) as [mpid|];
       [destruct (_pid_running w mpid); [intros _; right; right; now left|]|]);
      (destruct (find_server_pids w);
       [intros Hx; discriminate Hx | intros _; right; right; right; congruence]).
  - destruct (_read_pid w) as [pid'|];
      [destruct (_pid_running w pid'); [reflexivity|]|];
      (destruct (check_server_alive w host port);
       [destruct (first_listener w port), (find_server_pids w); reflexivity|]);
      (destruct (meta_pid (_read_meta w)) as [mpid|];
       [destruct (_pid_running w mpid); [reflexivity|]|]);
      (destruct (find_server_pids w); [|reflexivity]);
      intros [Hx|[Hx|[Hx|Hx]]]; congruence.
Qed.

End StatusClaim.

(** The hypotheses of [status_decision] hold on the machine where the
    service runs and on the one where only a stale pid file is left. *)
Lemma status_decision_witness :
  status SampleOS.running (py "127.0.0.1") 8765
  = (RUNNING (Some 4242) (py "127.0.0.1") 8765, 0)
  /\ status SampleOS.stale (py "127.0.0.1") 8765 = (STOPPED, 1).
Proof.
  split.
  - apply (proj1 (status_decision SampleOS.running (py "127.0.0.1") 8765));
      reflexivity.
  - destruct (status_decision SampleOS.stale (py "127.0.0.1") 8765)
      as (_ & _ & _ & _ & Hstopped & _).
    apply Hstopped; reflexivity.
Defined.

(** C7 as stated fails: a program that listens on the port without
    answering [/health] makes the port-listener probe succeed, and [status]
    prints [STOPPED] and exits with 1. *)
Lemma status_any_probe_fails :
  ~ status_any_probe (H := SampleOS.foreign_listener)
      tt (py "127.0.0.1") 8765.
Proof.
  unfold status_any_probe. intros [Hrun _].
  destruct Hrun as [pid Hpid].
  - right; right; left. intros Hx; discriminate Hx.
  - vm_compute in Hpid. discriminate Hpid.
Qed.

(** When [/health] answers and no pid can be found, [status] prints [?] in
    place of the pid. *)
Lemma status_unknown_pid :
  status (H := SampleOS.anonymous_service) tt (py "127.0.0.1") 8765
  = (RUNNING None (py "127.0.0.1") 8765, 0).
Proof. reflexivity. Qed.
(** * Further properties of the code

    ** White space *)

Import Notions.

Section Stripping.

Lemma lstrip_split (s : pystr) : exists ws, s = ws ++ lstrip s /\ spaces ws.
Proof.
  induction s as [|c s [ws [Hs Hws]]]; [exists []; split; [reflexivity|constructor]|].
  cbn [lstrip]. destruct (isspace c) eqn:Ec.
  - exists (c :: ws). split; [cbn; congruence|now constructor].
  - exists []. split; [reflexivity|constructor].
Qed.

Lemma lstrip_head (s : pystr) (c : N) (r : pystr) :
  lstrip s = c :: r -> isspace c = false.
Proof.
  induction s as [|d s IH]; [intros Hx; discriminate Hx|].
  cbn [lstrip]. destruct (isspace d) eqn:Ed; [exact IH|].
  intros [= <- _]. exact Ed.
Qed.

Lemma lstrip_fixed (s : pystr) :
  match s with [] => True | c :: _ => isspace c = false end -> lstrip s = s.
Proof. destruct s as [|c s]; [reflexivity|]. cbn [lstrip]. now intros ->. Qed.

Lemma lstrip_spaces (ws s : pystr) : spaces ws -> lstrip (ws ++ s) = lstrip s.
Proof.
  induction 1 as [|c ws Hc _ IH]; [reflexivity|].
  cbn [app lstrip]. now rewrite Hc.
Qed.

Lemma rstrip_split (s : pystr) : exists ws, s = rstrip s ++ ws /\ spaces ws.
Proof.
  unfold rstrip. destruct (lstrip_split (rev s)) as [ws [Hs Hws]].
  exists (rev ws). split.
  - rewrite <- rev_app_distr, <- Hs. now rewrite rev_involutive.
  - unfold spaces in *. rewrite List.Forall_forall in *. intros c Hc.
    apply Hws. now apply in_rev.
Qed.

Lemma rstrip_last (s r : pystr) (c : N) :
  rstrip s = r ++ [c] -> isspace c = false.
Proof.
  unfold rstrip. intros Hr.
  apply (f_equal (@rev N)) in Hr. rewrite rev_involutive, rev_app_distr in Hr.
  cbn in Hr. eapply lstrip_head; eassumption.
Qed.

Lemma rstrip_fixed (s : pystr) (c : N) :
  isspace c = false -> rstrip (s ++ [c]) = s ++ [c].
Proof.
  intros Hc. unfold rstrip. rewrite rev_app_distr. cbn [rev app].
  rewrite lstrip_fixed by exact Hc. cbn [rev]. now rewrite rev_involutive.
Qed.

Lemma rstrip_idem (s : pystr) : rstrip (rstrip s) = rstrip s.
Proof.
  destruct (rstrip s) as [|c r] eqn:E using rev_ind; [reflexivity|].
  apply rstrip_fixed. eapply rstrip_last; eassumption.
Qed.

(** [rstrip] leaves the head of a string that does not begin with white
    space. *)
Lemma rstrip_keeps_head (s : pystr) :
  match s with [] => True | c :: _ => isspace c = false end ->
  match rstrip s with [] => True | c :: _ => isspace c = false end.
Proof.
  intros Hs. destruct (rstrip_split s) as [ws [Heq _]].
  destruct (rstrip s) as [|d u]; [exact I|].
  rewrite Heq in Hs. exact Hs.
Qed.

Lemma strip_idem (s : pystr) : strip (strip s) = strip s.
Proof.
  unfold strip.
  assert (Hhead : match rstrip (lstrip s) with
                  | [] => True | c :: _ => isspace c = false end).
  { apply rstrip_keeps_head. destruct (lstrip s) as [|c r] eqn:E; [exact I|].
    eapply lstrip_head; eassumption. }
  rewrite (lstrip_fixed _ Hhead). apply rstrip_idem.
Qed.

(** A string that starts with [p], where [p] holds no white space, still
    starts with [p] once stripped. *)
Lemma strip_keeps_prefix (p s : pystr) :
  p <> [] -> no_space p -> startswith s p = true ->
  startswith (strip s) p = true.
Proof.
  intros Hp Hns [r ->]%startswith_spec. unfold strip.
  assert (Hl : lstrip (p ++ r) = p ++ r).
  { apply lstrip_fixed. destruct p as [|c p]; [congruence|].
    now inversion Hns. }
  rewrite Hl. destruct (rstrip_split (p ++ r)) as [ws [Heq Hws]].
  remember (rstrip (p ++ r)) as a eqn:Ea. clear Ea Hl.
  apply startswith_spec.
  symmetry in Heq. apply app_eq_app in Heq as [l [[Ha Hb]|[Ha Hb]]].
  - exists l. exact Ha.
  - destruct l as [|c l]; [exists []; rewrite app_nil_r in Ha; now rewrite app_nil_r|].
    exfalso. subst p ws. unfold no_space, spaces in *.
    apply Forall_app in Hns as [_ Hns]. inversion Hns as [|? ? Hc _].
    apply Forall_app in Hws as [Hws _]. inversion Hws as [|? ? Hc' _].
    congruence.
Qed.

Lemma strip_nonempty (p s : pystr) :
  p <> [] -> no_space p -> startswith s p = true -> strip s <> [].
Proof.
  intros Hp Hns Hs.
  pose proof (strip_keeps_prefix p s Hp Hns Hs) as Hk.
  intros Heq. rewrite Heq in Hk. destruct p; [congruence|discriminate Hk].
Qed.

End Stripping.
(** ** The composer: what reaches the prompt *)

Section Prompt.
Context `{PyRuntime}.

Lemma length_ellipsis : length (py "...") = 3%nat.
Proof. reflexivity. Qed.

Lemma truncate_text_length (text : pystr) (max_len : nat) :
  (length (truncate_text text max_len) <= max_len + 3)%nat.
Proof.
  unfold truncate_text, slice_to.
  destruct (max_len <? length text)%nat eqn:E.
  - rewrite length_app, length_ellipsis.
    pose proof (firstn_le_length max_len text). lia.
  - apply Nat.ltb_ge in E. lia.
Qed.

(** X1. [truncate_text] (lines 55-56) returns at most [max_len + 3]
    characters; it keeps the first [max_len] characters of the text,
    returns a text that is short enough as it is, and truncating twice is
    truncating once. *)
Theorem truncate_text_bounded (text : pystr) (max_len : nat) :
  (length (truncate_text text max_len) <= max_len + 3)%nat
  /\ firstn max_len (truncate_text text max_len) = firstn max_len text
  /\ ((length text <= max_len)%nat -> truncate_text text max_len = text)
  /\ truncate_text (truncate_text text max_len) max_len
     = truncate_text text max_len.
Proof.
  unfold truncate_text, slice_to.
  destruct (max_len <? length text)%nat eqn:E.
  - apply Nat.ltb_lt in E.
    assert (Hlen : length (take max_len text) = max_len)
      by (apply length_take_le; lia).
    repeat split.
    + rewrite length_app, Hlen, length_ellipsis. lia.
    + rewrite take_app_le by lia. apply take_idemp.
    + lia.
    + rewrite length_app, Hlen, length_ellipsis.
      replace (max_len <? max_len + 3)%nat with true
        by (symmetry; apply Nat.ltb_lt; lia).
      rewrite take_app_le by lia. now rewrite take_idemp.
  - rewrite E. apply Nat.ltb_ge in E. repeat split; try reflexivity; lia.
Qed.

Lemma truncate_text_prefixed (prefix cmd : pystr) (max_len : nat) :
  (length prefix <= max_len)%nat -> startswith cmd prefix = true ->
  startswith (truncate_text cmd max_len) prefix = true.
Proof.
  intros Hp [r ->]%startswith_spec. unfold truncate_text, slice_to.
  destruct (_ <? _)%nat; [|apply startswith_app].
  rewrite take_app_ge by exact Hp. rewrite <- app_assoc. apply startswith_app.
Qed.

Lemma kept_spec (prefix : pystr) (history : list pystr) :
  Forall (fun cmd => (length cmd <= MAX_CMD_LENGTH + 3)%nat
                     /\ ((length prefix <= MAX_CMD_LENGTH)%nat ->
                         startswith cmd prefix = true))
         (kept prefix history).
Proof.
  unfold kept. apply List.Forall_forall. intros cmd Hin.
  apply in_map_iff in Hin as [raw [<- Hraw]].
  apply filter_In in Hraw as [_ Hsw]. split.
  - apply truncate_text_length.
  - intros Hp. now apply truncate_text_prefixed.
Qed.

(** X2. The history that reaches the prompt (lines 65-68), for a history
    that is a list of strings: at most ten commands, the last ones of the
    history that start with the prefix, in their order, each cut to at
    most 23 characters; when the prefix has at most 20 characters, as every
    supported prefix has, each of them still starts with the prefix. *)
Theorem history_window (prefix : pystr) (history : list pystr) :
  exists older hf,
    history_filtered prefix (history_value history) = Ok hf
    /\ List.map (fun cmd => truncate_text cmd MAX_CMD_LENGTH)
         (List.filter (fun cmd => startswith cmd prefix) history)
       = older ++ hf
    /\ (length hf <= 10)%nat
    /\ (length hf = 10%nat \/ older = [])
    /\ Forall (fun cmd => (length cmd <= 23)%nat) hf
    /\ ((length prefix <= 20)%nat ->
        Forall (fun cmd => startswith cmd prefix = true) hf).
Proof.
  rewrite history_filtered_typed. unfold last_n.
  fold (kept prefix history).
  set (l := kept prefix history).
  exists (take (length l - MAX_HISTORY_LINES) l),
         (drop (length l - MAX_HISTORY_LINES) l).
  pose proof (kept_spec prefix history) as Hk. fold l in Hk.
  assert (Hd : Forall (fun cmd => (length cmd <= MAX_CMD_LENGTH + 3)%nat
                     /\ ((length prefix <= MAX_CMD_LENGTH)%nat ->
                         startswith cmd prefix = true))
                 (drop (length l - MAX_HISTORY_LINES) l))
    by (now apply Forall_drop).
  unfold MAX_HISTORY_LINES, MAX_CMD_LENGTH in *.
  split; [reflexivity|]. split; [now rewrite take_drop|].
  split; [rewrite length_drop; lia|].
  split.
  - destruct (Nat.le_gt_cases (length l) 10) as [Hle|Hgt].
    + right. replace (length l - 10)%nat with 0%nat by lia. reflexivity.
    + left. rewrite length_drop. lia.
  - split.
    + eapply Forall_impl; [exact Hd|]. cbn. intros cmd [Hc _]. exact Hc.
    + intros Hp. eapply Forall_impl; [exact Hd|]. cbn. intros cmd [_ Hc].
      now apply Hc.
Qed.

(** X3. A clipboard value that the usability test of lines 77-86 rejects
    never reaches the engine: for a supported prefix, a clipboard kind and
    a history, there is one prompt, the same for all such values, that the
    gateway tokenizes and hands to the engine. The value is used only for
    the fallback and for the test of the engine's output. *)
Theorem unusable_value_never_prompted (prefix t : pystr)
    (history : list pystr) :
  known_prefix prefix = true ->
  exists P,
    forall (v : pystr) (llm : Llama),
      _clip_usable prefix (clipboard_context t v) = Ok false ->
      exists fb,
        custom_fallback prefix (clipboard_context t v) = Ok fb
        /\ generate_general_suggestion prefix (clipboard_context t v)
             (history_value history) llm
           = (tokens ← tokenize llm P;
              let prompt := if (length tokens <=? MAX_PROMPT_TOKENS)%nat
                            then P else slice_to 100 P in
              Ok (match (output ← create_completion llm prompt;
                         output_suggestion output) with
                  | Ok s => if accepts prefix v s then s else fb
                  | Raise _ => fb
                  end)).
Proof.
  intros Hk.
  exists (prompt_text prefix (VStr t) false (VStr [])
            (last_n MAX_HISTORY_LINES (kept prefix history))).
  intros v llm Hu. rewrite clip_usable_typed in Hu. injection Hu as Hu.
  eexists. split; [now apply custom_fallback_typed|].
  rewrite generate_typed by assumption.
  unfold composed_prompt, engine_prompt. cbn zeta. rewrite Hu. reflexivity.
Qed.

End Prompt.

(** The hypothesis of [unusable_value_never_prompted] holds for [cd]; an
    address on the clipboard is not usable there. *)
Lemma unusable_value_never_prompted_witness :
  known_prefix (py "cd") = true
  /\ exists fb,
       custom_fallback (H := Sample.runtime) (py "cd")
         (clipboard_context (py "ip") (py "1.2.3.4")) = Ok fb.
Proof.
  split; [reflexivity|].
  destruct (unusable_value_never_prompted (H := Sample.runtime)
              (py "cd") (py "ip") [py "cd /tmp"] eq_refl) as [P HP].
  destruct (HP (py "1.2.3.4") Sample.failing eq_refl) as [fb [Hfb _]].
  exists fb. exact Hfb.
Defined.
(** ** The client: [request_server] *)

Import Complete.

Section Client.
Context `{PyRuntime}.

Lemma known_prefix_no_space (prefix : pystr) :
  known_prefix prefix = true ->
  prefix <> [] /\ no_space prefix /\ (2 <= length prefix)%nat.
Proof.
  intros Hin%known_prefix_supported.
  unfold supported, BASE_FALLBACK in Hin; cbn [List.map fst In] in Hin.
  repeat (destruct Hin as [<-|Hin]); [..|destruct Hin];
    (split; [intros Hx; discriminate Hx|]);
    (split; [repeat constructor | vm_compute; lia]).
Qed.

Lemma generate_ok_prefixed (llm : Llama) (prefix t v : pystr)
    (history : list pystr) (s : pystr) :
  known_prefix prefix = true ->
  generate_general_suggestion prefix (clipboard_context t v)
    (history_value history) llm = Ok s ->
  s <> [] /\ startswith s prefix = true.
Proof.
  intros Hk Hgen.
  destruct (tokenize llm (composed_prompt prefix t v history)) as [tokens|e]
    eqn:Et.
  - destruct (suggestion_prefixed llm prefix t v history tokens Hk Et)
      as [s' [Hs' Hp]].
    rewrite Hs' in Hgen. injection Hgen as <-. exact Hp.
  - rewrite (tokenizer_exception_propagates llm prefix t v history e Hk Et)
      in Hgen.
    discriminate Hgen.
Qed.

(** [request_server] on a response that holds a suggestion. *)
Lemma request_server_suggestion (urlopen : value -> result value)
    (prefix : pystr) (clipboard : value) (history : list pystr)
    (d : list (pystr * value)) (text : pystr) :
  urlopen (payload prefix clipboard history) = Ok (VDict d) ->
  Py.lookup d (py "suggestion") = Some (VStr text) ->
  strip text <> [] ->
  request_server urlopen prefix clipboard history = Some (strip text).
Proof.
  intros Hu Hl Hs. unfold request_server. rewrite Hu.
  cbn [mbind result_bind get]. rewrite Hl. unfold or_else. cbn [truthy].
  assert (Ht : str_eqb text [] = false).
  { apply str_eqb_neq. intros ->. apply Hs. reflexivity. }
  rewrite Ht. cbn [negb strip_method].
  apply str_eqb_neq in Hs. now rewrite Hs.
Qed.

Lemma request_server_nonempty (urlopen : value -> result value)
    (prefix : pystr) (clipboard : value) (history : list pystr) (s : pystr) :
  request_server urlopen prefix clipboard history = Some s ->
  str_eqb s [] = false.
Proof.
  unfold request_server.
  destruct (_ ← urlopen _; _) as [suggestion|x]; [|intros Hx; discriminate Hx].
  destruct (str_eqb suggestion []) eqn:E; cbn [negb];
    [intros Hx; discriminate Hx|].
  now intros [= <-].
Qed.

(** X4. [request_server] (client, lines 161-180) never raises and returns
    a suggestion in exactly one case: the exchange gives a JSON object
    whose [suggestion] is a string that is not blank; the suggestion
    returned is that string stripped of surrounding white space. In every
    other case (an exception on the way, a document that is not an object,
    a suggestion that is missing, blank or not a string) it returns
    [None]. *)
Theorem request_server_result (urlopen : value -> result value)
    (prefix : pystr) (clipboard : value) (history : list pystr)
    (s : pystr) :
  request_server urlopen prefix clipboard history = Some s
  <-> exists d text,
        urlopen (payload prefix clipboard history) = Ok (VDict d)
        /\ Py.lookup d (py "suggestion") = Some (VStr text)
        /\ strip text = s /\ s <> [].
Proof.
  split.
  - unfold request_server.
    destruct (urlopen _) as [obj|e]; [|intros Hx; discriminate Hx].
    cbn [mbind result_bind].
    destruct obj as [| | | | |l|d]; try (intros Hx; discriminate Hx).
    cbn [get mbind result_bind].
    destruct (Py.lookup d (py "suggestion")) as [x|] eqn:Hl;
      [|intros Hx; discriminate Hx].
    unfold or_else.
    destruct x as [|b|z|f|text|l|d']; cbn [truthy];
      repeat (match goal with
              | |- context [if ?c then _ else _] => destruct c eqn:?
              end; cbn [strip_method]);
      try (intros Hx; discriminate Hx);
      try match goal with
          | Hc : negb (str_eqb (strip []) []) = true |- _ =>
            vm_compute in Hc; discriminate Hc
          end.
    intros [= <-]. exists d, text.
    match goal with
    | Hs : negb (str_eqb (strip text) []) = true |- _ =>
      apply negb_true_iff, str_eqb_neq in Hs; auto
    end.
  - intros (d & text & Hu & Hl & <- & Hs).
    now apply (request_server_suggestion urlopen prefix clipboard history d).
Qed.

Lemma served_payload (llm : Llama) (n : Z) (prefix : pystr)
    (clipboard : value) (history : list pystr) :
  0 < n -> known_prefix prefix = true ->
  served llm n (payload prefix clipboard history)
  = response_document
      (suggestion ← generate_general_suggestion prefix clipboard
                      (history_value history) llm;
       Ok (suggestion_reply suggestion)).
Proof.
  intros Hn Hk. unfold served, handle. cbn [command]. py_eval.
  unfold do_POST.
  rewrite (prepare_payload _ n prefix clipboard history)
    by (try reflexivity; exact Hn).
  rewrite Hk. reflexivity.
Qed.

(** X6. The client against the server. When the handler of the server
    answers the request that [request_server] posts - a supported prefix, a
    clipboard context, a history of strings, a prompt that the tokenizer
    accepts - [request_server] returns the suggestion of the server's
    gateway, stripped; it is not empty and starts with the prefix. *)
Theorem request_answered_by_server (llm : Llama) (n : Z)
    (prefix t v : pystr) (history : list pystr) (tokens : list Z) :
  0 < n -> known_prefix prefix = true ->
  tokenize llm (composed_prompt prefix t v history) = Ok tokens ->
  exists s,
    generate_general_suggestion prefix (clipboard_context t v)
      (history_value history) llm = Ok s
    /\ request_server (served llm n) prefix (clipboard_context t v) history
       = Some (strip s)
    /\ strip s <> [] /\ startswith (strip s) prefix = true.
Proof.
  intros Hn Hk Htok.
  destruct (suggestion_prefixed llm prefix t v history tokens Hk Htok)
    as [s [Hgen [Hne Hsw]]].
  destruct (known_prefix_no_space prefix Hk) as [Hp [Hns _]].
  pose proof (strip_nonempty prefix s Hp Hns Hsw) as Hstrip.
  exists s. split; [exact Hgen|]. split; [|split].
  - apply (request_server_suggestion _ _ _ _ [(py "suggestion", VStr s)]);
      [|reflexivity|exact Hstrip].
    rewrite served_payload by assumption. rewrite Hgen. reflexivity.
  - exact Hstrip.
  - now apply strip_keeps_prefix.
Qed.

End Client.

(** The hypotheses of [request_answered_by_server] hold for [git] and an
    engine that answers [git add main.py]. *)
Lemma request_answered_by_server_witness :
  request_server
    (served (H := Sample.runtime) (Sample.answering (py " git add main.py ")) 64)
    (py "git") (clipboard_context (py "text") (py "main.py")) [py "git status"]
  = Some (py "git add main.py").
Proof.
  destruct (request_answered_by_server (H := Sample.runtime)
              (Sample.answering (py " git add main.py ")) 64 (py "git")
              (py "text") (py "main.py") [py "git status"] _
              eq_refl eq_refl eq_refl) as [s [Hgen [Hreq _]]].
  vm_compute in Hgen. injection Hgen as <-. exact Hreq.
Defined.
(** ** The client: the run of the script *)

Section ClientRun.
Context `{PyRuntime}.

Lemma rejected_prefix_known (prefix : pystr) :
  rejected_prefix prefix = negb (known_prefix prefix).
Proof.
  unfold rejected_prefix.
  change (assoc Complete.BASE_FALLBACK prefix)
    with (assoc Server.BASE_FALLBACK prefix).
  destruct (known_prefix prefix) eqn:Hk.
  - destruct (known_prefix_no_space prefix Hk) as [Hne [_ Hlen]].
    apply str_eqb_neq in Hne. rewrite Hne.
    replace (length prefix <? 2)%nat with false
      by (symmetry; apply Nat.ltb_ge; exact Hlen).
    unfold known_prefix in Hk.
    destruct (assoc Server.BASE_FALLBACK prefix); [reflexivity|discriminate Hk].
  - unfold known_prefix in Hk.
    destruct (assoc Server.BASE_FALLBACK prefix); [discriminate Hk|].
    cbn. now rewrite !orb_true_r.
Qed.

Lemma clipboard_of_context (e : env) :
  exists t v, clipboard_of e = clipboard_context t v.
Proof.
  unfold clipboard_of, clipboard_of_arg, get_clipboard_content.
  repeat match goal with
  | |- context [if ?c then _ else _] => destruct c
  | |- context [match ?c with _ => _ end] => destruct c
  end; eauto.
Qed.

Lemma read_history_length (file : option (result pystr))
    (history : list pystr) :
  read_history file = Ok history -> (length history <= 10)%nat.
Proof.
  unfold read_history. destruct file as [[text|x]|].
  - cbn [mbind result_bind]. intros [= <-]. unfold last_n, MAX_HISTORY_LINES.
    rewrite length_drop. lia.
  - intros Hx; discriminate Hx.
  - intros [= <-]. cbn. lia.
Qed.

(** The shapes of a run of the client. *)
Lemma main_cases (e : env) (history : list pystr) :
  rejected_prefix (prefix_of e) = false ->
  read_history (history_file e) = Ok history ->
  let body := payload (prefix_of e) (clipboard_of e) history in
  let local := run_local e (prefix_of e) (clipboard_of e) history in
  main e
  = match answer e 0 history with
    | Some s =>
      {| events := [Post 3000 body; Print (DEBUG_server_suggestion (Some s));
                    Print (Suggestion s)];
         exit := Ok 0 |}
    | None =>
      if auto_start e then
        match answer e 1 history with
        | Some s =>
          {| events := [Post 3000 body; Print (DEBUG_server_suggestion None);
                        Print DEBUG_auto_start_server; StartServer;
                        Post 6000 body; Print (Suggestion s)];
             exit := Ok 0 |}
        | None =>
          local [Post 3000 body; Print (DEBUG_server_suggestion None);
                 Print DEBUG_auto_start_server; StartServer; Post 6000 body]
        end
      else local [Post 3000 body; Print (DEBUG_server_suggestion None)]
    end.
Proof.
  intros Hr Hh. cbn zeta. unfold main, answer. rewrite Hr, Hh.
  unfold ask_server, finish.
  destruct (request_server (urlopen e 0) _ _ _) as [s|] eqn:E0; cbn [falsy].
  - pose proof (request_server_nonempty _ _ _ _ _ E0) as Hne.
    rewrite Hne. cbn [andb]. rewrite Hne. reflexivity.
  - cbn [andb]. destruct (auto_start e); [|reflexivity].
    destruct (request_server (urlopen e 1) _ _ _) as [s|] eqn:E1;
      [|reflexivity].
    now rewrite (request_server_nonempty _ _ _ _ _ E1).
Qed.

Lemma main_rejected (e : env) :
  rejected_prefix (prefix_of e) = true ->
  main e = {| events := []; exit := Ok 0 |}.
Proof. unfold main. now intros ->. Qed.

Lemma main_unreadable (e : env) (x : exn) :
  rejected_prefix (prefix_of e) = false ->
  read_history (history_file e) = Raise x ->
  main e = {| events := []; exit := Raise x |}.
Proof. unfold main. now intros -> ->. Qed.

Lemma run_local_events (e : env) (prefix : pystr) (clipboard : value)
    (history : list pystr) (done : list event) :
  exists tail,
    events (run_local e prefix clipboard history done)
    = done ++ Print DEBUG_load_local_model :: LoadModel :: tail
    /\ (tail = []
        \/ exists llm s,
             load_ai_model e = Some llm
             /\ generate_general_suggestion prefix clipboard
                  (history_value history) llm = Ok s
             /\ tail = [Print (Suggestion s)]
             /\ exit (run_local e prefix clipboard history done) = Ok 0)
    /\ (tail = [] -> exit (run_local e prefix clipboard history done) <> Ok 0).
Proof.
  unfold run_local. destruct (load_ai_model e) as [llm|].
  - destruct (generate_general_suggestion _ _ _ llm) as [s|x] eqn:Eg.
    + exists [Print (Suggestion s)]. cbn [events exit].
      rewrite <- app_assoc. split; [reflexivity|].
      split; [right; eauto 6|]. intros Hx; discriminate Hx.
    + exists []. cbn [events exit]. split; [reflexivity|].
      split; [now left|]. intros _ Hx; discriminate Hx.
  - exists []. cbn [events exit]. split; [reflexivity|].
    split; [now left|]. intros _ Hx; discriminate Hx.
Qed.

Ltac posts :=
  repeat constructor; intros ? ? Hx; try discriminate Hx;
  injection Hx as _ <-; reflexivity.

(** X7. The client and the server test the prefix alike: the two tables
    [BASE_FALLBACK] are the same, and the client gives up (lines 196-198:
    no request, no output, exit code 0) on exactly the prefixes that the
    server would answer with [bad_prefix]. Every request that the client
    posts has a supported prefix, a clipboard context of two strings and a
    history of at most ten strings. *)
Theorem client_guard_is_server_guard (e : env) :
  Complete.BASE_FALLBACK = Server.BASE_FALLBACK
  /\ (forall prefix,
        rejected_prefix prefix = true <-> bad_prefix (VStr prefix) = Ok true)
  /\ (rejected_prefix (prefix_of e) = true ->
      main e = {| events := []; exit := Ok 0 |})
  /\ (forall timeout body,
        In (Post timeout body) (events (main e)) ->
        exists t v history,
          body = payload (prefix_of e) (clipboard_context t v) history
          /\ bad_prefix (VStr (prefix_of e)) = Ok false
          /\ (length history <= 10)%nat).
Proof.
  split; [reflexivity|]. split; [|split].
  - intros prefix. rewrite rejected_prefix_known, bad_prefix_str.
    split; [now intros ->|now intros [= ->]].
  - apply main_rejected.
  - intros timeout body Hin.
    destruct (rejected_prefix (prefix_of e)) eqn:Hr.
    { rewrite (main_rejected e Hr) in Hin. destruct Hin. }
    destruct (read_history (history_file e)) as [history|x] eqn:Hh.
    2:{ rewrite (main_unreadable e x Hr Hh) in Hin. destruct Hin. }
    destruct (clipboard_of_context e) as [t [v Hc]].
    exists t, v, history. rewrite <- Hc.
    rewrite bad_prefix_str, <- rejected_prefix_known, Hr.
    split; [|split; [reflexivity|eapply read_history_length; eassumption]].
    rewrite (main_cases e history Hr Hh) in Hin. cbn zeta in Hin.
    assert (Hl : forall done,
              (forall ev, In ev done -> ev = Post timeout body ->
                          body = payload (prefix_of e) (clipboard_of e) history) ->
              In (Post timeout body)
                 (events (run_local e (prefix_of e) (clipboard_of e) history done)) ->
              body = payload (prefix_of e) (clipboard_of e) history).
    { intros done Hd Hi.
      destruct (run_local_events e (prefix_of e) (clipboard_of e) history done)
        as [tail [Hev [[->|(llm & s & _ & _ & -> & _)] _]]];
        rewrite Hev in Hi; apply in_app_or in Hi as [Hi|Hi];
        try exact (Hd _ Hi eq_refl);
        cbn [In] in Hi;
        repeat (destruct Hi as [Hi|Hi]; [discriminate Hi|]); destruct Hi. }
    assert (Hp : forall done : list event,
              Forall (fun ev => forall t0 b0, ev = Post t0 b0 ->
                        b0 = payload (prefix_of e) (clipboard_of e) history)
                     done ->
              forall ev, In ev done -> ev = Post timeout body ->
              body = payload (prefix_of e) (clipboard_of e) history).
    { intros done Hd ev Hev Heq. rewrite List.Forall_forall in Hd.
      eapply Hd; eassumption. }
    destruct (answer e 0 history).
    + cbn [events] in Hin. refine (Hp _ _ _ Hin eq_refl). posts.
    + destruct (auto_start e); [destruct (answer e 1 history)|].
      * cbn [events] in Hin. refine (Hp _ _ _ Hin eq_refl). posts.
      * apply Hl in Hin; [exact Hin|]. apply Hp. posts.
      * apply Hl in Hin; [exact Hin|]. apply Hp. posts.
Qed.

(** X8. When the first call of [request_server] returns a suggestion, the
    client prints it as its last line and exits with 0, having neither
    started a server nor loaded the model. *)
Theorem server_answer_wins (e : env) (history : list pystr) (s : pystr) :
  rejected_prefix (prefix_of e) = false ->
  read_history (history_file e) = Ok history ->
  answer e 0 history = Some s ->
  main e
  = {| events := [Post 3000 (payload (prefix_of e) (clipboard_of e) history);
                  Print (DEBUG_server_suggestion (Some s));
                  Print (Suggestion s)];
       exit := Ok 0 |}.
Proof.
  intros Hr Hh Ha. rewrite (main_cases e history Hr Hh). cbn zeta.
  now rewrite Ha.
Qed.

(** The runs of the client, by what was tried. *)
Lemma main_shape (e : env) :
  main e = {| events := []; exit := Ok 0 |}
           /\ rejected_prefix (prefix_of e) = true
  \/ (exists x, main e = {| events := []; exit := Raise x |})
  \/ rejected_prefix (prefix_of e) = false
     /\ exists history,
          read_history (history_file e) = Ok history
          /\ let body := payload (prefix_of e) (clipboard_of e) history in
             let first := [Post 3000 body] in
             let second := [Print DEBUG_auto_start_server; StartServer;
                            Post 6000 body] in
             let local := [Print DEBUG_load_local_model; LoadModel] in
             (exists s,
                answer e 0 history = Some s /\ s <> []
                /\ main e
                   = {| events := first
                                  ++ [Print (DEBUG_server_suggestion (Some s));
                                      Print (Suggestion s)];
                        exit := Ok 0 |})
             \/ answer e 0 history = None
                /\ ((exists s,
                       auto_start e = true
                       /\ answer e 1 history = Some s /\ s <> []
                       /\ main e
                          = {| events := first
                                         ++ [Print (DEBUG_server_suggestion None)]
                                         ++ second ++ [Print (Suggestion s)];
                               exit := Ok 0 |})
                    \/ exists tried,
                         (auto_start e = true /\ answer e 1 history = None
                          /\ tried = first
                                     ++ [Print (DEBUG_server_suggestion None)]
                                     ++ second
                          \/ auto_start e = false
                             /\ tried = first
                                        ++ [Print (DEBUG_server_suggestion None)])
                         /\ ((exists s,
                                s <> []
                                /\ startswith s (prefix_of e) = true
                                /\ main e
                                   = {| events := tried ++ local
                                                  ++ [Print (Suggestion s)];
                                        exit := Ok 0 |})
                             \/ exists r,
                                  r <> Ok 0
                                  /\ main e
                                     = {| events := tried ++ local;
                                          exit := r |})).
Proof.
  destruct (rejected_prefix (prefix_of e)) eqn:Hr.
  { left. split; [now apply main_rejected|reflexivity]. }
  right.
  destruct (read_history (history_file e)) as [history|x] eqn:Hh.
  2:{ left. exists x. now apply main_unreadable. }
  right. split; [reflexivity|]. exists history. split; [reflexivity|].
  cbn zeta. rewrite (main_cases e history Hr Hh). cbn zeta.
  assert (Hlocal : forall tried,
            (exists s, s <> [] /\ startswith s (prefix_of e) = true
               /\ run_local e (prefix_of e) (clipboard_of e) history tried
                  = {| events := tried
                                 ++ [Print DEBUG_load_local_model; LoadModel]
                                 ++ [Print (Suggestion s)];
                       exit := Ok 0 |})
            \/ exists r, r <> Ok 0
                 /\ run_local e (prefix_of e) (clipboard_of e) history tried
                    = {| events := tried
                                   ++ [Print DEBUG_load_local_model; LoadModel];
                         exit := r |}).
  { intros tried. unfold run_local.
    destruct (load_ai_model e) as [llm|].
    - destruct (generate_general_suggestion _ _ _ llm) as [s|x] eqn:Eg.
      + left. exists s.
        destruct (clipboard_of_context e) as [t [v Hc]]. rewrite Hc in Eg.
        assert (Hk : known_prefix (prefix_of e) = true).
        { rewrite rejected_prefix_known in Hr.
          now destruct (known_prefix (prefix_of e)). }
        destruct (generate_ok_prefixed llm _ t v history s Hk Eg) as [Hne Hsw].
        split; [exact Hne|]. split; [exact Hsw|].
        now rewrite <- app_assoc.
      + right. exists (Raise x). split; [intros Hx; discriminate Hx|reflexivity].
    - right. exists (Ok 1). split; [intros Hx; discriminate Hx|reflexivity]. }
  destruct (answer e 0 history) as [s|] eqn:E0.
  - left. exists s. split; [reflexivity|]. split; [|reflexivity].
    apply str_eqb_neq. eapply request_server_nonempty. exact E0.
  - right. split; [reflexivity|].
    destruct (auto_start e) eqn:Ea.
    + destruct (answer e 1 history) as [s|] eqn:E1.
      * left. exists s. split; [reflexivity|]. split; [reflexivity|].
        split; [|reflexivity].
        apply str_eqb_neq. eapply request_server_nonempty. exact E1.
      * right. eexists. split; [left; split; [reflexivity|split; reflexivity]|].
        apply Hlocal.
    + right. eexists. split; [right; split; reflexivity|]. apply Hlocal.
Qed.

Ltac members Hin :=
  cbn [events app In] in Hin;
  repeat (destruct Hin as [Hin|Hin]; try discriminate Hin);
  try (exfalso; exact Hin).

Ltac main_runs e Hr history Hh s Hne Ha0 Ha1 Hauto Hsw r Hexit :=
  destruct (main_shape e)
    as [[-> Hr]|[[? ->]|[Hr (history & Hh &
         [(s & Ha0 & Hne & ->)
         |[Ha0 [(s & Hauto & Ha1 & Hne & ->)
               |(? & [(Hauto & Ha1 & ->)|(Hauto & ->)]
                   & [(s & Hne & Hsw & ->)|(r & Hexit & ->)])]]])]]].

(** X9. The order in which the client falls back (lines 218-227). It
    starts a server only after a first request that returned nothing, and
    never when [ZSH_AI_AUTO_START_SERVER] is [0]; it loads the local model
    only after every request it made returned nothing; the request with
    the longer time out is the one made right after the start of a
    server. *)
Theorem escalation_order (e : env) :
  (In StartServer (events (main e)) ->
   auto_start e = true
   /\ exists history,
        read_history (history_file e) = Ok history
        /\ answer e 0 history = None)
  /\ (In LoadModel (events (main e)) ->
      exists history,
        read_history (history_file e) = Ok history
        /\ answer e 0 history = None
        /\ (auto_start e = true -> answer e 1 history = None))
  /\ (ZSH_AI_AUTO_START_SERVER e = Some (py "0") ->
      ~ In StartServer (events (main e)))
  /\ (forall timeout body,
        In (Post timeout body) (events (main e)) ->
        timeout = 3000
        \/ timeout = 6000
           /\ exists before after,
                events (main e)
                = before ++ StartServer :: Post 6000 body :: after).
Proof.
  assert (H1 : In StartServer (events (main e)) ->
               auto_start e = true
               /\ exists history,
                    read_history (history_file e) = Ok history
                    /\ answer e 0 history = None).
  { main_runs e Hr history Hh s Hne Ha0 Ha1 Hauto Hsw r Hexit;
      intros Hin; members Hin; eauto. }
  split; [exact H1|]. split; [|split].
  - main_runs e Hr history Hh s Hne Ha0 Ha1 Hauto Hsw r Hexit;
      intros Hin; members Hin; exists history;
      (split; [exact Hh|split; [exact Ha0|]]); congruence.
  - intros Hoff Hin. destruct (H1 Hin) as [Hauto _].
    unfold auto_start in Hauto. rewrite Hoff in Hauto. discriminate Hauto.
  - intros timeout body.
    main_runs e Hr history Hh s Hne Ha0 Ha1 Hauto Hsw r Hexit;
      intros Hin; members Hin;
      injection Hin as <- <-;
      first [ now left
            | right; split; [reflexivity|]; cbn [events app];
              eexists [_; _; _], _; reflexivity ].
Qed.

(** X10. What the client prints. A suggestion line is printed at most
    once, as the last line, and then the exit code is 0 and the suggestion
    is not empty; when it comes from the local model it starts with the
    prefix. Conversely a run that exits with 0 on a supported prefix has
    printed a suggestion. *)
Theorem suggestion_printed_last (e : env) :
  (forall s,
     In (Print (Suggestion s)) (events (main e)) ->
     exit (main e) = Ok 0 /\ s <> []
     /\ exists done,
          events (main e) = done ++ [Print (Suggestion s)]
          /\ (forall s', ~ In (Print (Suggestion s')) done)
          /\ (In LoadModel done -> startswith s (prefix_of e) = true))
  /\ (exit (main e) = Ok 0 ->
      rejected_prefix (prefix_of e) = true
      \/ exists s, In (Print (Suggestion s)) (events (main e))).
Proof.
  split.
  - intros s0.
    main_runs e Hr history Hh s Hne Ha0 Ha1 Hauto Hsw r Hexit;
      intros Hin; members Hin; injection Hin as <-;
      (split; [reflexivity|]); (split; [exact Hne|]);
      cbn [events app];
      match goal with
      | |- ex (fun done => ?l = _ /\ _) => exists (removelast l)
      end;
      cbn [removelast];
      (split; [reflexivity|]);
      (split; [intros s' Hs'; members Hs'|intros Hl; members Hl; exact Hsw]).
  - main_runs e Hr history Hh s Hne Ha0 Ha1 Hauto Hsw r Hexit;
      cbn [exit events]; intros Hx; try discriminate Hx;
      try (now left); try (right; exists s; cbn; rewrite ?in_app_iff; cbn; tauto).
    all: contradiction.
Qed.

(** X11. The clipboard argument (lines 201-211). When the client is given
    a second argument that is not empty, the context it sends is made of
    that argument alone, whatever the clipboard holds, and its value is the
    argument as it is, not stripped. On an argument without surrounding
    white space the context is the one that [get_clipboard_content] makes
    of the same text. *)
Theorem clipboard_argument_wins (e : env) (prefix arg : pystr)
    (rest : list pystr) :
  argv e = prefix :: arg :: rest -> arg <> [] ->
  (forall e',
     argv e' = argv e -> path_exists e' = path_exists e ->
     clipboard_of e' = clipboard_of e)
  /\ getitem (clipboard_of e) (py "value") = Ok (VStr arg)
  /\ (strip arg = arg ->
      clipboard_of e = get_clipboard_content (Ok arg) (path_exists e)).
Proof.
  intros Hargv Harg. apply str_eqb_neq in Harg.
  assert (Hc : clipboard_of e = clipboard_of_arg (path_exists e) arg).
  { unfold clipboard_of. rewrite Hargv, Harg. reflexivity. }
  split; [|split].
  - intros e' Ha Hp. rewrite Hc. unfold clipboard_of.
    rewrite Ha, Hp, Hargv, Harg. reflexivity.
  - rewrite Hc. unfold clipboard_of_arg.
    repeat match goal with
    | |- context [if ?c then _ else _] => destruct c
    end; reflexivity.
  - intros Hs. rewrite Hc. unfold clipboard_of_arg, get_clipboard_content.
    rewrite Hs, Harg. reflexivity.
Qed.

End ClientRun.
(** The hypotheses of [server_answer_wins] hold for the client run as
    [zsh_ai_complete.py git main.py] while the server is up. *)
Lemma server_answer_wins_witness :
  last (events (main (H := Sample.runtime)
                  (Examples.desk (Examples.server_up (py "git add main.py"))
                                 None None)))
  = Some (Print (Suggestion (py "git add main.py"))).
Proof.
  rewrite (server_answer_wins (H := Sample.runtime) _
             [py "ls -l"; py "git status"] (py "git add main.py"));
    vm_compute; reflexivity.
Defined.

(** The hypotheses of [clipboard_argument_wins] hold for the same run. *)
Lemma clipboard_argument_wins_witness :
  getitem (clipboard_of (Examples.desk Examples.no_server None None))
          (py "value")
  = Ok (VStr (py "main.py")).
Proof.
  destruct (clipboard_argument_wins
              (Examples.desk Examples.no_server None None)
              (py "git") (py "main.py") [] eq_refl
              ltac:(intros Hx; discriminate Hx)) as [_ [Hv _]].
  exact Hv.
Defined.

(** Without a server and with the start of one switched off, the client
    goes to the local model at once. *)
Lemma offline_run :
  events (main (H := Sample.runtime)
            (Examples.desk Examples.no_server (Some (py "0"))
                           (Some (Sample.answering (py "git log")))))
  = [ Post 3000 (payload (py "git")
                   (clipboard_context (py "ip") (py "main.py"))
                   [py "ls -l"; py "git status"]);
      Print (DEBUG_server_suggestion None);
      Print DEBUG_load_local_model; LoadModel;
      Print (Suggestion (py "git log")) ].
Proof. vm_compute. reflexivity. Qed.

(** ** The history file, from the parser to the client *)

Import Lines.

Section HistoryFile.

Lemma splitlines_line (c rest : pystr) :
  one_line c -> splitlines (c ++ 10%N :: rest) = c :: splitlines rest.
Proof.
  induction 1 as [|x c Hx _ IH]; cbn [app splitlines].
  - destruct rest; reflexivity.
  - rewrite Hx, IH. reflexivity.
Qed.

Lemma splitlines_last_line (c : pystr) :
  one_line c -> c <> [] -> splitlines c = [c].
Proof.
  induction 1 as [|x c Hx Hc IH]; [congruence|]. intros _.
  cbn [splitlines]. rewrite Hx. destruct c as [|y c]; [reflexivity|].
  rewrite IH by discriminate. reflexivity.
Qed.

Lemma splitlines_join (cmds : list pystr) :
  Forall (fun c => c <> [] /\ one_line c) cmds ->
  splitlines (join [10%N] cmds) = cmds.
Proof.
  induction 1 as [|c cmds [Hne Hc] Hcmds IH]; [reflexivity|].
  destruct cmds as [|d cmds].
  - cbn [join]. now apply splitlines_last_line.
  - change (join [10%N] (c :: d :: cmds))
      with (c ++ 10%N :: join [10%N] (d :: cmds)).
    now rewrite splitlines_line, IH.
Qed.

Lemma universal_newlines_fixed (s : pystr) :
  Forall (fun c => c <> 13%N) s -> universal_newlines s = s.
Proof.
  induction 1 as [|c s Hc _ IH]; [reflexivity|].
  cbn [universal_newlines]. apply N.eqb_neq in Hc. now rewrite Hc, IH.
Qed.

Lemma join_no_return (cmds : list pystr) :
  Forall one_line cmds -> Forall (fun c => c <> 13%N) (join [10%N] cmds).
Proof.
  assert (Hone : forall c, one_line c -> Forall (fun c => c <> 13%N) c).
  { intros c Hc. eapply Forall_impl; [exact Hc|]. cbn. intros x Hx ->.
    discriminate Hx. }
  induction 1 as [|c cmds Hc Hcmds IH]; [constructor|].
  destruct cmds as [|d cmds]; [now apply Hone|].
  change (join [10%N] (c :: d :: cmds))
    with (c ++ 10%N :: join [10%N] (d :: cmds)).
  apply Forall_app. split; [now apply Hone|].
  constructor; [discriminate|exact IH].
Qed.

End HistoryFile.
(** ** The history parser *)

Import History.

Section Timestamp.
Context `{Unicode}.

Lemma star_stop (cls : N -> bool) (k : matcher) (s : pystr) :
  match s with [] => True | c :: _ => cls c = false end ->
  star cls k s = k s.
Proof. destruct s as [|c s]; [reflexivity|]. cbn [star]. now intros ->. Qed.

Lemma star_run (cls : N -> bool) (k : matcher) (run s rest : pystr) :
  Forall (fun c => cls c = true) run ->
  star cls k s = Some rest -> star cls k (run ++ s) = Some rest.
Proof.
  intros Hrun Hs. induction Hrun as [|c run Hc _ IH]; [exact Hs|].
  cbn [app star]. now rewrite Hc, IH.
Qed.

Lemma plus_run (cls : N -> bool) (k : matcher) (run s rest : pystr) :
  run <> [] -> Forall (fun c => cls c = true) run ->
  match s with [] => True | c :: _ => cls c = false end ->
  k s = Some rest -> plus cls k (run ++ s) = Some rest.
Proof.
  intros Hne Hrun Hs Hk. destruct Hrun as [|c run Hc Hrun]; [congruence|].
  cbn [app plus]. rewrite Hc. apply star_run; [exact Hrun|].
  now rewrite star_stop.
Qed.

Lemma not_decimal_colon : isdecimal colon = false.
Proof. now rewrite isdecimal_ascii. Qed.

Lemma not_decimal_semicolon : isdecimal semicolon = false.
Proof. now rewrite isdecimal_ascii. Qed.

(** X13. A line of the extended history format, [: <start>:<elapsed>;]
    followed by the command, loses its time stamp (parser, lines 19 and
    26): the result is the command, whatever it holds. *)
Theorem timestamp_removed (ws start elapsed command : pystr) :
  spaces ws ->
  start <> [] -> Forall (fun c => isdecimal c = true) start ->
  elapsed <> [] -> Forall (fun c => isdecimal c = true) elapsed ->
  sub_timestamp (colon :: ws ++ start ++ colon :: elapsed
                   ++ semicolon :: command)
  = command.
Proof.
  intros Hws Hs1 Hd1 He1 Hd2. unfold sub_timestamp, timestamp_pattern.
  cbn [lit]. rewrite N.eqb_refl.
  erewrite star_run; [reflexivity|exact Hws|].
  rewrite star_stop.
  2:{ destruct start as [|c start]; [congruence|]. cbn [app].
      apply isdecimal_not_space. now inversion Hd1. }
  apply plus_run; [exact Hs1|exact Hd1|apply not_decimal_colon|].
  cbn [lit]. rewrite N.eqb_refl.
  apply plus_run; [exact He1|exact Hd2|apply not_decimal_semicolon|].
  cbn [lit]. now rewrite N.eqb_refl.
Qed.

Lemma lit_cuts (ch : N) (k : matcher) : cuts k -> cuts (lit ch k).
Proof.
  intros Hk [|c s] rest; cbn [lit]; [intros Hx; discriminate Hx|].
  destruct (c =? ch)%N; [|intros Hx; discriminate Hx].
  intros Hr. apply suffix_cons_r. now apply Hk.
Qed.

Lemma star_cuts (cls : N -> bool) (k : matcher) : cuts k -> cuts (star cls k).
Proof.
  intros Hk s. induction s as [|c s IH]; intros rest; cbn [star].
  - apply Hk.
  - destruct (cls c); [|apply Hk].
    destruct (star cls k s) as [r|] eqn:E; [|apply Hk].
    intros [= <-]. apply suffix_cons_r. now apply IH.
Qed.

Lemma plus_cuts (cls : N -> bool) (k : matcher) : cuts k -> cuts (plus cls k).
Proof.
  intros Hk [|c s] rest; cbn [plus]; [intros Hx; discriminate Hx|].
  destruct (cls c); [|intros Hx; discriminate Hx].
  intros Hr. apply suffix_cons_r. now apply (star_cuts cls k Hk).
Qed.

Lemma sub_timestamp_suffix (s : pystr) : sub_timestamp s `suffix_of` s.
Proof.
  unfold sub_timestamp.
  destruct (timestamp_pattern s) as [rest|] eqn:E; [|reflexivity].
  revert E. apply lit_cuts, star_cuts, plus_cuts, lit_cuts, plus_cuts, lit_cuts.
  intros s' rest' [= <-]. reflexivity.
Qed.

End Timestamp.

Section Commands.
Context `{Unicode}.

Lemma clean_commands_spec (lines : list pystr) (c : pystr) :
  In c (clean_commands lines)
  <-> exists line,
        In line lines /\ c = sub_timestamp (strip line)
        /\ kept_command c = true.
Proof.
  induction lines as [|line lines IH]; cbn [clean_commands In].
  - split; [tauto|]. intros [? [[] _]].
  - destruct (kept_command (sub_timestamp (strip line))) eqn:Ek; cbn [In];
      rewrite IH; split.
    + intros [<-|[l [Hl Hc]]]; [exists line; auto|exists l; auto].
    + intros [l [[<-|Hl] [Hc Hk]]]; [now left|right; exists l; auto].
    + intros [l [Hl Hc]]. exists l; auto.
    + intros [l [[<-|Hl] [Hc Hk]]]; [congruence|exists l; auto].
Qed.

(** A suffix of a stripped line that is not empty ends as the line does:
    not with white space. *)
Lemma suffix_of_stripped (c line : pystr) :
  c <> [] -> c `suffix_of` strip line -> rstrip c = c.
Proof.
  intros Hne [p Hp].
  destruct c as [|z c'] using rev_ind; [congruence|]. clear IHc'.
  apply rstrip_fixed.
  apply (rstrip_last (lstrip line) (p ++ c')).
  unfold strip in Hp. rewrite Hp. now rewrite app_assoc.
Qed.

Lemma filter_sublist (f : pystr -> bool) (l : list pystr) :
  List.filter f l `sublist_of` l.
Proof.
  induction l as [|x l IH]; cbn [List.filter]; [constructor|].
  destruct (f x); [now apply sublist_skip|now apply sublist_cons].
Qed.

Lemma fromkeys_In (l : list pystr) (x : pystr) :
  In x (fromkeys l) <-> In x l.
Proof.
  induction l as [|y l IH]; cbn [fromkeys In]; [tauto|].
  rewrite filter_In, IH, negb_true_iff, str_eqb_neq.
  destruct (decide (y = x)); tauto.
Qed.

Lemma fromkeys_snoc (l : list pystr) (x : pystr) :
  fromkeys (l ++ [x])
  = if decide (x ∈ l) then fromkeys l else fromkeys l ++ [x].
Proof.
  induction l as [|y l IH]; [reflexivity|].
  cbn [app fromkeys]. rewrite IH.
  destruct (decide (x ∈ l)) as [Hin|Hin].
  - rewrite decide_True by (now right). reflexivity.
  - rewrite List.filter_app. cbn [List.filter].
    destruct (str_eqb y x) eqn:E; cbn [negb].
    + apply str_eqb_eq in E; subst y.
      rewrite decide_True by (now left). now rewrite app_nil_r.
    + apply str_eqb_neq in E.
      rewrite decide_False; [reflexivity|].
      intros [->|Hx]%elem_of_cons; [congruence|contradiction].
Qed.

Lemma elem_of_rev (l : list pystr) (x : pystr) : x ∈ rev l <-> x ∈ l.
Proof. rewrite !list_elem_of_In. symmetry. apply in_rev. Qed.

(** Reversing, keeping the first occurrences and reversing again keeps the
    last occurrence of every command. *)
Lemma fromkeys_rev (l : list pystr) :
  fromkeys (rev l) = rev (remove_dups l).
Proof.
  induction l as [|x l IH]; [reflexivity|].
  cbn [rev remove_dups]. rewrite fromkeys_snoc, IH.
  match goal with
  | |- context [if ?d then remove_dups l else _] => destruct d as [Hin|Hin]
  end.
  - rewrite decide_True; [reflexivity|]. now apply elem_of_rev.
  - rewrite decide_False; [reflexivity|]. now rewrite elem_of_rev.
Qed.

Lemma remove_dups_sublist (l : list pystr) : remove_dups l `sublist_of` l.
Proof.
  induction l as [|x l IH]; cbn [remove_dups]; [constructor|].
  destruct (decide_rel elem_of x l);
    [now apply sublist_cons|now apply sublist_skip].
Qed.

Lemma remove_dups_last (l : list pystr) : last (remove_dups l) = last l.
Proof.
  induction l as [|x l IH]; [reflexivity|].
  cbn [remove_dups]. destruct (decide_rel elem_of x l) as [Hin|Hin].
  - rewrite IH. destruct l as [|y l]; [inversion Hin|reflexivity].
  - rewrite !last_cons, IH. reflexivity.
Qed.

Lemma last_drop {A} (n : nat) (l : list A) :
  (n < length l)%nat -> last (drop n l) = last l.
Proof.
  intros Hn. rewrite <- (take_drop n l) at 2. rewrite last_app.
  destruct (last (drop n l)) eqn:E; [reflexivity|].
  apply last_None in E. apply (f_equal length) in E.
  rewrite length_drop in E. cbn in E. lia.
Qed.

Lemma load_zsh_history_lines (lines : list pystr) :
  load_zsh_history (Some (Ok lines))
  = Ok (last_n 1000 (remove_dups (clean_commands lines))).
Proof.
  unfold load_zsh_history. cbn [mbind result_bind]. cbn zeta.
  rewrite fromkeys_rev, firstn_rev, rev_involutive. reflexivity.
Qed.

(** X14. What [load_zsh_history] returns for a history file that can be
    read (parser, lines 12-37): of every command that passes the filter it keeps
    the last occurrence, in the order of the file, and of these the newest
    thousand. So no command comes twice, the most recent command of the
    file comes last, and nothing is lost as long as the file holds at most
    a thousand different commands. A missing file gives the empty list. *)
Theorem history_keeps_newest (lines : list pystr) :
  load_zsh_history None = Ok []
  /\ exists cmds,
       load_zsh_history (Some (Ok lines)) = Ok cmds
       /\ cmds = last_n 1000 (remove_dups (clean_commands lines))
       /\ List.NoDup cmds
       /\ (length cmds <= 1000)%nat
       /\ cmds `sublist_of` clean_commands lines
       /\ last cmds = last (clean_commands lines)
       /\ ((length (remove_dups (clean_commands lines)) <= 1000)%nat ->
           forall c, In c (clean_commands lines) -> In c cmds).
Proof.
  split; [reflexivity|]. eexists. split; [apply load_zsh_history_lines|].
  split; [reflexivity|].
  set (R := remove_dups (clean_commands lines)). unfold last_n.
  split; [|split; [|split; [|split]]].
  - apply NoDup_ListNoDup. eapply sublist_NoDup; [|apply sublist_drop].
    apply NoDup_remove_dups.
  - rewrite length_drop. lia.
  - etransitivity; [apply sublist_drop|apply remove_dups_sublist].
  - rewrite <- (remove_dups_last (clean_commands lines)). fold R.
    destruct R as [|c R']; [reflexivity|].
    apply last_drop. cbn [length]. lia.
  - intros Hlen c Hc.
    replace (length R - 1000)%nat with 0%nat by lia. cbn [drop].
    apply list_elem_of_In, elem_of_remove_dups, list_elem_of_In. exact Hc.
Qed.

Lemma loaded_command (lines : list pystr) (c : pystr) :
  In c (last_n 1000 (remove_dups (clean_commands lines))) ->
  exists line,
    In line lines /\ c = sub_timestamp (strip line)
    /\ kept_command c = true.
Proof.
  intros Hc. apply clean_commands_spec.
  unfold last_n in Hc. apply list_elem_of_In in Hc. apply list_elem_of_In.
  eapply elem_of_remove_dups, elem_of_sublist; [exact Hc|apply sublist_drop].
Qed.

(** X15. Every command that [load_zsh_history] returns (parser, lines
    23-32) is what is left of a line of the file once it is stripped and
    has lost its time stamp: the end of that line. It has at least two
    characters, does not start with [#], holds no backslash and does not
    end with white space. *)
Theorem history_commands_clean (lines : list pystr) :
  exists cmds,
    load_zsh_history (Some (Ok lines)) = Ok cmds
    /\ Forall (fun c =>
         (exists line, In line lines /\ c = sub_timestamp (strip line)
                       /\ c `suffix_of` strip line)
         /\ (2 <= length c)%nat
         /\ startswith c (py "#") = false
         /\ contains c [backslash] = false
         /\ rstrip c = c) cmds.
Proof.
  eexists. split; [apply load_zsh_history_lines|].
  apply List.Forall_forall. intros c Hc.
  apply loaded_command in Hc as [line [Hl [-> Hk]]].
  unfold kept_command in Hk.
  apply andb_true_iff in Hk as [Hk Hb]. apply andb_true_iff in Hk as [Hk Hlen].
  apply andb_true_iff in Hk as [Hne Hh].
  apply negb_true_iff in Hne, Hh, Hb. apply Nat.ltb_lt in Hlen.
  split; [exists line; split; [exact Hl|split; [reflexivity|]];
          apply sub_timestamp_suffix|].
  split; [lia|]. split; [exact Hh|]. split; [exact Hb|].
  eapply suffix_of_stripped; [|apply sub_timestamp_suffix].
  now apply str_eqb_neq.
Qed.

(** X16. From the parser to the client. The text that the parser writes
    (parser, lines 39-51), read back by the client (client, lines 213-216),
    gives the last ten commands of the parser's list, provided that no
    command holds a character at which [str.splitlines] cuts. *)
Theorem history_read_back (file : option (result (list pystr)))
    (cmds : list pystr) :
  load_zsh_history file = Ok cmds ->
  Forall one_line cmds ->
  exists text,
    History.main file = Ok (text, length cmds)
    /\ read_history (Some (Ok (universal_newlines text)))
       = Ok (last_n 10 cmds).
Proof.
  intros Hload Hone. unfold History.main. rewrite Hload.
  cbn [mbind result_bind]. eexists. split; [reflexivity|].
  unfold read_history. cbn [mbind result_bind].
  rewrite universal_newlines_fixed by (now apply join_no_return).
  rewrite splitlines_join; [reflexivity|].
  apply List.Forall_forall. intros c Hc. split.
  - destruct file as [[lines|x]|].
    + rewrite load_zsh_history_lines in Hload. injection Hload as <-.
      destruct (loaded_command lines c Hc) as [line [_ [_ Hk]]].
      intros ->. vm_compute in Hk. discriminate Hk.
    + discriminate Hload.
    + injection Hload as <-. destruct Hc.
  - rewrite List.Forall_forall in Hone. now apply Hone.
Qed.

End Commands.

(** The hypotheses of [timestamp_removed] hold for a line of the extended
    history format. *)
Lemma timestamp_removed_witness :
  sub_timestamp (H := Examples.ascii_digits) (py ": 1700000000:0;git status")
  = py "git status".
Proof.
  apply (timestamp_removed (H := Examples.ascii_digits)
           [32%N] (py "1700000000") (py "0") (py "git status"));
    first [ intros Hx; discriminate Hx | vm_compute; repeat constructor ].
Defined.

(** The hypotheses of [history_read_back] hold for the sample history. *)
Lemma history_read_back_witness :
  exists text,
    History.main (H := Examples.ascii_digits) (Some (Ok Examples.zsh_history))
    = Ok (text, 3%nat)
    /\ read_history (Some (Ok (universal_newlines text)))
       = Ok [py "ls -l"; py "git status"; py "cd /tmp"].
Proof.
  apply (history_read_back (H := Examples.ascii_digits)
           (Some (Ok Examples.zsh_history))
           [py "ls -l"; py "git status"; py "cd /tmp"]).
  - vm_compute. reflexivity.
  - vm_compute. repeat constructor.
Defined.

(** A command that holds a form feed comes back from the history file as
    two commands. *)
Lemma history_read_back_needs_one_line :
  read_history
    (Some (Ok (universal_newlines (join [10%N] [py "ls" ++ [12%N] ++ py "-l"]))))
  = Ok [py "ls"; py "-l"].
Proof. vm_compute. reflexivity. Qed.

(** ** The scan of the process table *)

Section ProcessTable.
Variable int : pystr -> result Z.

(** X17. [find_server_pids] (lines 246-262) never returns the pid of the
    process that calls it, and returns nothing when [ps] cannot be run.
    Every pid it returns is what [int] reads in the second field of a line
    of the listing that names the server script, does not hold [grep] and
    has more than two fields. *)
Theorem find_server_pids_not_self (getpid : Z) (ps_output : result pystr) :
  ~ In getpid (Discovery.find_server_pids int getpid ps_output)
  /\ (forall pid,
        In pid (Discovery.find_server_pids int getpid ps_output) ->
        exists out line,
          ps_output = Ok out /\ In line (splitlines out)
          /\ contains line Discovery.script = true
          /\ contains line (py "grep") = false
          /\ (2 < length (split line))%nat
          /\ int (nth 1 (split line) []) = Ok pid)
  /\ (forall x,
        ps_output = Raise x ->
        Discovery.find_server_pids int getpid ps_output = []).
Proof.
  assert (Hline : forall line pid,
            In pid (Discovery.pids_of_line int getpid line) ->
            pid <> getpid
            /\ contains line Discovery.script = true
            /\ contains line (py "grep") = false
            /\ (2 < length (split line))%nat
            /\ int (nth 1 (split line) []) = Ok pid).
  { intros line pid. unfold Discovery.pids_of_line.
    destruct (contains line Discovery.script); [|intros []].
    destruct (contains line (py "grep")); [intros []|]. cbn [negb andb].
    destruct (2 <? length (split line))%nat eqn:El; [|intros []].
    apply Nat.ltb_lt in El.
    destruct (int (nth 1 (split line) [])) as [p|]; [|intros []].
    destruct (p =? getpid) eqn:Ep; cbn [negb]; [intros []|].
    apply Z.eqb_neq in Ep. intros [<-|[]]. auto. }
  split; [|split].
  - destruct ps_output as [out|x]; [|intros []]. cbn [Discovery.find_server_pids].
    intros [line [_ Hin]]%in_flat_map.
    destruct (Hline line getpid Hin) as [Hne _]. congruence.
  - intros pid. destruct ps_output as [out|x]; [|intros []].
    cbn [Discovery.find_server_pids].
    intros [line [Hl Hin]]%in_flat_map.
    destruct (Hline line pid Hin) as (_ & H1 & H2 & H3 & H4).
    exists out, line. auto 6.
  - now intros x ->.
Qed.

End ProcessTable.

(** On the sample listing, run by the process 4320: the server is found,
    the [grep] and the process itself are not. *)
Lemma find_server_pids_sample :
  Discovery.find_server_pids Examples.digits_value 4320
    (Ok Examples.ps_listing)
  = [4242].
Proof. vm_compute. reflexivity. Qed.

(** ** The listeners of the port *)

Section Listeners.
Variables (int : pystr -> result Z) (isdigit : pystr -> bool).

Lemma ints_head (l : list pystr) (pids : list Z) :
  Discovery.ints int l = Ok pids ->
  head pids = match l with
              | [] => None
              | first :: _ => match int first with
                              | Ok n => Some n
                              | Raise _ => None
                              end
              end.
Proof.
  destruct l as [|x l]; cbn [Discovery.ints]; [now intros [= <-]|].
  destruct (int x) as [n|]; cbn [mbind result_bind]; [|intros Hx; discriminate Hx].
  destruct (Discovery.ints int l); cbn [mbind result_bind];
    [|intros Hx; discriminate Hx].
  now intros [= <-].
Qed.

Lemma ints_total (l : list pystr) :
  Forall (fun x => exists n, int x = Ok n) l ->
  exists pids, Discovery.ints int l = Ok pids /\ length pids = length l.
Proof.
  induction 1 as [|x l [n Hn] _ [pids [IH Hlen]]]; [now exists []|].
  exists (n :: pids). cbn [Discovery.ints]. rewrite Hn, IH.
  split; [reflexivity|cbn; now rewrite Hlen].
Qed.

Lemma filter_all (f : pystr -> bool) (l : list pystr) :
  Forall (fun x => f x = true) l -> List.filter f l = l.
Proof.
  induction 1 as [|x l Hx _ IH]; [reflexivity|].
  cbn [List.filter]. now rewrite Hx, IH.
Qed.

(** X18. The two readings of the output of [lsof -t] agree on an output
    made of pids. [status] reads the first line (lines 312-316) and
    [_lsof_listen_pid] every line that is made of digits (lines 264-269):
    when every line of the stripped output is made of digits and is read
    by [int], [_lsof_listen_pid] returns one pid for each line and the pid
    that [status] reads is the first of them; when [lsof] fails, the one
    returns no pid and the other none. *)
Theorem lsof_readings_agree (raw : pystr) :
  (forall line, In line (splitlines (strip raw)) ->
                isdigit (strip line) = true /\ exists n, int line = Ok n) ->
  Discovery.pid2 int (Ok raw)
  = head (Discovery._lsof_listen_pid int isdigit (Ok raw))
  /\ length (Discovery._lsof_listen_pid int isdigit (Ok raw))
     = length (splitlines (strip raw))
  /\ (forall x, Discovery.pid2 int (Raise x) = None
                /\ Discovery._lsof_listen_pid int isdigit (Raise x) = []).
Proof.
  intros Hlines.
  assert (Hf : List.filter (fun x => isdigit (strip x)) (splitlines (strip raw))
               = splitlines (strip raw)).
  { apply filter_all, List.Forall_forall. intros x Hx. now apply Hlines. }
  destruct (ints_total (splitlines (strip raw))) as [pids [Hp Hlen]].
  { apply List.Forall_forall. intros x Hx. now apply Hlines. }
  unfold Discovery._lsof_listen_pid, Discovery.pid2.
  cbn [mbind result_bind]. cbn zeta. rewrite Hf, Hp.
  split; [|split; [exact Hlen|intros x; split; reflexivity]].
  rewrite (ints_head _ _ Hp).
  destruct (str_eqb (strip raw) []) eqn:E; cbn [negb].
  - apply str_eqb_eq in E. rewrite E. reflexivity.
  - destruct (splitlines (strip raw)) as [|first rest] eqn:El.
    + destruct (strip raw) as [|c r]; [discriminate E|].
      cbn [splitlines] in El. destruct (line_boundary c), r;
        try destruct ((c =? 13) && (n =? 10))%N;
        try destruct (splitlines (n :: r)); discriminate El.
    + now destruct (int first).
Qed.

End Listeners.

(** The hypothesis of [lsof_readings_agree] holds for an output of two
    pids. *)
Lemma lsof_readings_agree_witness :
  Discovery.pid2 Examples.digits_value
    (Ok (py "4242" ++ [10%N] ++ py "4243" ++ [10%N]))
  = Some 4242.
Proof.
  assert (Hlines : forall line,
            In line (splitlines (strip (py "4242" ++ [10%N] ++ py "4243"
                                        ++ [10%N]))) ->
            Examples.digits_only (strip line) = true
            /\ exists n, Examples.digits_value line = Ok n).
  { intros line Hin. vm_compute in Hin.
    destruct Hin as [<-|[<-|[]]]; (split; [reflexivity|eexists; reflexivity]). }
  destruct (lsof_readings_agree Examples.digits_value Examples.digits_only
              _ Hlines) as [Hhead _].
  exact (eq_trans Hhead eq_refl).
Defined.

(** On an output whose first line is not a pid the two readings differ. *)
Lemma lsof_readings_differ :
  Discovery.pid2 Examples.digits_value (Ok (py "COMMAND" ++ [10%N] ++ py "4242"))
  = None
  /\ Discovery._lsof_listen_pid Examples.digits_value Examples.digits_only
       (Ok (py "COMMAND" ++ [10%N] ++ py "4242"))
     = [4242].
Proof. split; vm_compute; reflexivity. Qed.

(** ** Requests that leave keys out *)

Section Defaults.
Context `{PyRuntime}.

(** X12. A request to [/complete] whose JSON object gives a supported
    prefix and neither [clipboard] nor [history] (lines 167-169) is served
    as the request with the empty text clipboard and the empty history:
    when the tokenizer accepts the prompt, the answer is 200 with a
    suggestion that is not empty and starts with the prefix, and the
    fallback behind it is the static default of the prefix. *)
Theorem defaults_for_missing_keys (llm : Llama) (req : Request) (n : Z)
    (d : list (pystr * value)) (prefix : pystr) (tokens : list Z) :
  path req = py "/complete" -> declared_length req = Ok n -> 0 < n ->
  body_json req = Ok (VDict d) ->
  Py.lookup d (py "prefix") = Some (VStr prefix) ->
  Py.lookup d (py "clipboard") = None ->
  Py.lookup d (py "history") = None ->
  known_prefix prefix = true ->
  tokenize llm (composed_prompt prefix (py "text") [] []) = Ok tokens ->
  exists s,
    do_POST llm req = Ok (suggestion_reply s)
    /\ generate_general_suggestion prefix (clipboard_context (py "text") [])
         (history_value []) llm = Ok s
    /\ custom_fallback prefix (clipboard_context (py "text") [])
       = base_fallback prefix
    /\ s <> [] /\ startswith s prefix = true.
Proof.
  intros Hp Hn Hlt Hb Hpre Hclip Hhist Hk Htok.
  destruct (suggestion_prefixed llm prefix (py "text") [] [] tokens Hk Htok)
    as [s [Hgen [Hne Hsw]]].
  exists s. split; [|split; [exact Hgen|split; [|split; assumption]]].
  - unfold do_POST, prepare. rewrite Hp, Hn. py_eval.
    destruct (0 <? n) eqn:E; [|apply Z.ltb_ge in E; lia].
    rewrite Hb. cbn [get mbind result_bind]. rewrite Hpre, Hclip, Hhist.
    rewrite bad_prefix_str, Hk. cbn [negb mbind result_bind].
    change default_clipboard with (clipboard_context (py "text") []).
    change (VList []) with (history_value []).
    rewrite Hgen. reflexivity.
  - rewrite custom_fallback_typed by assumption.
    assert (Ht : template_applies prefix (py "text") [] = false).
    { unfold template_applies. cbn [str_eqb negb].
      now rewrite !andb_false_r. }
    rewrite Ht. unfold base_fallback, Spec.static_default.
    apply known_prefix_supported, assoc_In in Hk. destruct Hk as [c ->].
    reflexivity.
Qed.

End Defaults.

(** The hypotheses of [defaults_for_missing_keys] hold for the body
    [{"prefix": "ls"}] and an engine that answers [ls -a]. *)
Lemma defaults_for_missing_keys_witness :
  do_POST (H := Sample.runtime) (Sample.answering (py "ls -a"))
    (Sample.post (VDict [(py "prefix", VStr (py "ls"))]))
  = Ok (suggestion_reply (py "ls -a")).
Proof.
  destruct (defaults_for_missing_keys (H := Sample.runtime)
              (Sample.answering (py "ls -a"))
              (Sample.post (VDict [(py "prefix", VStr (py "ls"))]))
              64 [(py "prefix", VStr (py "ls"))] (py "ls") _
              eq_refl eq_refl eq_refl eq_refl eq_refl eq_refl eq_refl
              eq_refl eq_refl) as [s [Hpost [Hgen _]]].
  vm_compute in Hgen. injection Hgen as <-. exact Hpost.
Defined.
